(** * shadchat: provider adapters, storage glue and the Send/Retry orchestrator

    A shallow embedding of
      - [src/lib/storage.ts]   (API keys, conversation store, groups, token
                                and cost estimators),
      - [src/lib/providers/*]  (pricing lookup, [estimateCost], [fetchModels],
                                the request bodies, [streamChat]),
      - [src/app/page.tsx]     (the handlers [handleSend], [handleRetry],
                                [handleContinueWithoutSystemPrompt], ...,
                                and [loadModels]),
      - the components that call them: the chat input, the sidebar and the
        settings dialog.

    Modelling conventions.
      - JavaScript strings are [string] (sequences of 8-bit characters); case
        folding and whitespace are the ASCII ones.
      - JavaScript numbers are exact rationals [Q]; rounding of IEEE doubles is
        not modelled.  Integer-valued numbers (lengths, token counts,
        timestamps) are [Z].
      - [localStorage] holds the parsed value of an item; [JSON.stringify]
        followed by [JSON.parse] is the identity on the records stored here,
        and [setItem] has room (it does not throw).
      - [uuidv4()] and [Date.now()] are inputs supplied by the environment.
      - An asynchronous adapter call is a function from the behaviour of the
        network (the result of [fetch] and of the successive [reader.read()]
        calls) to the sequence of callback invocations and the way the
        returned promise settles.  A run that settles performs finitely many
        reads, so the body is the list of chunks read and the way the reads
        end.  The callbacks do not throw (those of page.tsx only update
        state).
      - A handler that awaits an adapter call is suspended until the
        promise settles, and the page handles other events between the
        callbacks.  [Page.handleSend], [Page.handleRetry] and
        [Page.handleContinueWithoutSystemPrompt] are the runs in which it
        handles none; [Page.handleSendAmong] and its like take the events
        handled in between as an argument.  Every other handler runs to
        its end in one step.
      - A models endpoint answers with the entries of its list, already
        parsed; the order of [localeCompare] is a parameter.  An effect of
        the page is the function of the values of the render that started
        it.  A picked file comes with what [FileReader] and [uuidv4()]
        answer for it. *)

From Stdlib Require Import String Ascii ZArith QArith Qround Lia Lqa.
From stdpp Require Import base option list strings.

Local Open Scope string_scope.
Local Open Scope list_scope.

(* ===================================================================== *)
(** * JavaScript string primitives used by the sources *)
(* ===================================================================== *)

Module Js.

(** [c.toLowerCase()] on one ASCII character. *)
Definition lowerAscii (c : ascii) : ascii :=
  let n := nat_of_ascii c in
  if (65 <=? n)%nat && (n <=? 90)%nat then ascii_of_nat (n + 32) else c.

(** [s.toLowerCase()] *)
Fixpoint toLowerCase (s : string) : string :=
  match s with
  | EmptyString => EmptyString
  | String c s' => String (lowerAscii c) (toLowerCase s')
  end.

(** [s.startsWith(p)] *)
Definition startsWith (s p : string) : bool := String.prefix p s.

(** [s.includes(sub)] *)
Fixpoint includes (s sub : string) : bool :=
  if String.prefix sub s then true
  else match s with
       | EmptyString => false
       | String _ s' => includes s' sub
       end.

(** [s.slice(n)] for [0 <= n] *)
Fixpoint sliceFrom (n : nat) (s : string) : string :=
  match n, s with
  | O, _ => s
  | S _, EmptyString => EmptyString
  | S n', String _ s' => sliceFrom n' s'
  end.

(** [s.slice(0, n)] for [0 <= n] *)
Fixpoint sliceTo (n : nat) (s : string) : string :=
  match n, s with
  | O, _ => EmptyString
  | S _, EmptyString => EmptyString
  | S n', String c s' => String c (sliceTo n' s')
  end.

(** [s.replace(pat, rep)] with a string pattern: the first occurrence only. *)
Fixpoint replace (s pat rep : string) : string :=
  if String.prefix pat s then rep ++ sliceFrom (String.length pat) s
  else match s with
       | EmptyString => EmptyString
       | String c s' => String c (replace s' pat rep)
       end.

Definition isWhiteSpace (c : ascii) : bool :=
  let n := nat_of_ascii c in
  ((9 <=? n)%nat && (n <=? 13)%nat) || (n =? 32)%nat.

Fixpoint trimStart (s : string) : string :=
  match s with
  | EmptyString => EmptyString
  | String c s' => if isWhiteSpace c then trimStart s' else s
  end.

(** Drops the trailing white space: a character is kept when something
    that is kept follows it, or when it is not white space. *)
Fixpoint trimEnd (s : string) : string :=
  match s with
  | EmptyString => EmptyString
  | String c s' =>
      match trimEnd s' with
      | EmptyString => if isWhiteSpace c then EmptyString else String c EmptyString
      | r => String c r
      end
  end.

(** [s.trim()] *)
Definition trim (s : string) : string := trimEnd (trimStart s).

(** [s.split(sep)] for a one-character separator. *)
Fixpoint split (sep : ascii) (s : string) : list string :=
  match s with
  | EmptyString => [EmptyString]
  | String c s' =>
      if Ascii.eqb c sep then EmptyString :: split sep s'
      else match split sep s' with
           | h :: t => String c h :: t
           | [] => [String c EmptyString]
           end
  end.

Definition newline : ascii := ascii_of_nat 10.

(** Truthiness of a string: the empty string is falsy. *)
Definition truthy (s : string) : bool := negb (String.eqb s "").


(** A line terminator, which [.] in a regular expression does not
    match. *)
Definition isLineTerminator (c : ascii) : bool :=
  let n := nat_of_ascii c in
  (n =? 10)%nat || (n =? 13)%nat.

(** [(.*?);] tried at the start of [s]: the text the lazy group takes,
    which is the shortest run of characters other than line terminators
    that a semicolon follows. *)
Fixpoint lazyGroupThenSemicolon (s : string) : option string :=
  match s with
  | EmptyString => None
  | String c rest =>
      if Ascii.eqb c ";" then Some EmptyString
      else if isLineTerminator c then None
      else String c <$> lazyGroupThenSemicolon rest
  end.

(** [s.match(/:(.*?);/)?.[1]]: the group of the leftmost match. *)
Fixpoint matchColonGroupSemicolon (s : string) : option string :=
  match s with
  | EmptyString => None
  | String c rest =>
      if Ascii.eqb c ":" then
        match lazyGroupThenSemicolon rest with
        | Some group => Some group
        | None => matchColonGroupSemicolon rest
        end
      else matchColonGroupSemicolon rest
  end.

End Js.

(* ===================================================================== *)
(** * types.ts *)
(* ===================================================================== *)

Inductive ProviderId := gemini | anthropic | openai | xai | groq | openrouter.

Inductive Role := user | assistant | system.

Definition Role_eqb (a b : Role) : bool :=
  match a, b with
  | user, user | assistant, assistant | system, system => true
  | _, _ => false
  end.

Module Attachment.
Record t := mk {
  id : string;
  type : string;
  name : string;
  mimeType : string;
  size : Z;
  data : string
}.
End Attachment.

Module Message.
Record t := mk {
  id : string;
  role : Role;
  content : string;
  timestamp : Z;
  tokenCount : option Z;
  timing : option Q;
  model : option string;
  attachments : option (list Attachment.t)
}.

(** [{ ...m, content: c }] *)
Definition with_content (c : string) (m : t) : t :=
  mk (id m) (role m) c (timestamp m) (tokenCount m) (timing m) (model m)
     (attachments m).

(** [{ ...m, content, tokenCount, timing, model }] *)
Definition finalized (c : string) (tokens : Z) (duration : Q) (mdl : string)
           (m : t) : t :=
  mk (id m) (role m) c (timestamp m) (Some tokens) (Some duration) (Some mdl)
     (attachments m).
End Message.

Module Conversation.
Record t := mk {
  id : string;
  title : string;
  messages : list Message.t;
  providerId : ProviderId;
  modelId : string;
  createdAt : Z;
  updatedAt : Z;
  totalCost : option Q;
  disableSystemPrompt : option bool;
  pinned : option bool;
  groupId : option string
}.

(** [c.groupId = g], and [delete c.groupId] for [None]. *)
Definition with_groupId (g : option string) (c : t) : t :=
  mk (id c) (title c) (messages c) (providerId c) (modelId c) (createdAt c)
     (updatedAt c) (totalCost c) (disableSystemPrompt c) (pinned c) g.
End Conversation.

Record ChatConfig := {
  cfg_model : string;
  cfg_temperature : option Q;
  cfg_maxTokens : option Z;
  cfg_systemPrompt : option string
}.

Record Pricing := { input : Q; output : Q }.

Definition ProviderId_eqb (a b : ProviderId) : bool :=
  match a, b with
  | gemini, gemini | anthropic, anthropic | openai, openai
  | xai, xai | groq, groq | openrouter, openrouter => true
  | _, _ => false
  end.

(** [msg.role] as the string it is. *)
Definition Role_toString (r : Role) : string :=
  match r with
  | user => "user"
  | assistant => "assistant"
  | system => "system"
  end.

Module ChatGroup.
Record t := mk {
  id : string;
  title : string;
  collapsed : option bool;
  order : option Z
}.

(** [group.title = newTitle] *)
Definition with_title (newTitle : string) (g : t) : t :=
  mk (id g) newTitle (collapsed g) (order g).

(** [group.collapsed = !group.collapsed] *)
Definition toggled (g : t) : t :=
  mk (id g) (title g)
     (Some (negb (match collapsed g with Some b => b | None => false end)))
     (order g).
End ChatGroup.

Module Model.
Record t := mk {
  id : string;
  name : string;
  providerId : ProviderId;
  contextLength : option Z;
  pricing : option Pricing;
  supportsImages : option bool;
  supportsDocuments : option bool;
  supportsCode : option bool;
  supportsFunctionCalling : option bool;
  description : option string
}.
End Model.

(** [ApiKeys]: the keys of the object that the sources read are the six
    provider ids. *)
Definition ApiKeys := ProviderId -> option string.

Module UserPreferences.
Record t := mk {
  theme : string;
  defaultProvider : ProviderId;
  defaultModel : option string;
  systemPrompt : option string;
  username : option string;
  avatar : option string
}.

(** [Partial<UserPreferences>]: a key is absent ([None]) or present with
    its value; the value of an optional key may be [undefined]. *)
Record partial := mkPartial {
  p_theme : option string;
  p_defaultProvider : option ProviderId;
  p_defaultModel : option (option string);
  p_systemPrompt : option (option string);
  p_username : option (option string);
  p_avatar : option (option string)
}.

(** The object with no key. *)
Definition none : partial := mkPartial None None None None None None.

(** [{ ...current, ...preferences }]; a key whose value is [undefined] is
    dropped when the object is stored. *)
Definition spread (current : t) (preferences : partial) : t :=
  let over {A} (given : option A) (old : A) : A :=
    match given with Some v => v | None => old end in
  mk (over (p_theme preferences) (theme current))
     (over (p_defaultProvider preferences) (defaultProvider current))
     (over (p_defaultModel preferences) (defaultModel current))
     (over (p_systemPrompt preferences) (systemPrompt current))
     (over (p_username preferences) (username current))
     (over (p_avatar preferences) (avatar current)).
End UserPreferences.


(* ===================================================================== *)
(** * storage.ts *)
(* ===================================================================== *)

Module Storage.

(** The item [ai-chat-conversations] of [localStorage]: absent, or the
    stored array. *)
Definition Item := option (list Conversation.t).

(** [getConversations()] *)
Definition getConversations (stored : Item) : list Conversation.t :=
  match stored with
  | Some cs => cs
  | None => []
  end.

Definition hasId (i : string) (c : Conversation.t) : Prop :=
  Conversation.id c = i.

#[global] Instance hasId_dec i c : Decision (hasId i c).
Proof. unfold hasId. apply _. Defined.

(** [getConversations().find(c => c.id === id)] *)
Definition getConversation (i : string) (stored : Item)
  : option Conversation.t :=
  snd <$> list_find (hasId i) (getConversations stored).

(** [saveConversation(conversation)]: [findIndex], then either the
    assignment [conversations[index] = conversation] or [unshift]. *)
Definition saveConversation (conversation : Conversation.t) (stored : Item)
  : Item :=
  let conversations := getConversations stored in
  match list_find (hasId (Conversation.id conversation)) conversations with
  | Some (index, _) => Some (<[index := conversation]> conversations)
  | None => Some (conversation :: conversations)
  end.

(** [deleteConversation(id)] *)
Definition deleteConversation (i : string) (stored : Item) : Item :=
  Some (filter (fun c => ~ hasId i c) (getConversations stored)).

(** [moveConversationToGroup(conversationId, groupId)]; a falsy [groupId]
    removes the field, and nothing is written when the id is not found. *)
Definition moveConversationToGroup (conversationId : string)
           (groupId : option string) (stored : Item) : Item :=
  let conversations := getConversations stored in
  match list_find (hasId conversationId) conversations with
  | Some (index, c) =>
      let g := match groupId with
               | Some g => if Js.truthy g then Some g else None
               | None => None
               end in
      Some (<[index := Conversation.with_groupId g c]> conversations)
  | None => stored
  end.

(** [c.groupId === id] *)
Definition inGroup (i : string) (c : Conversation.t) : bool :=
  match Conversation.groupId c with
  | Some g => String.eqb g i
  | None => false
  end.

(** [deleteGroup(id)], the part that ungroups the conversations (the
    list of groups is a separate item: see [deleteGroupEntry]). *)
Definition deleteGroup (i : string) (stored : Item) : Item :=
  let conversations := getConversations stored in
  if existsb (inGroup i) conversations
  then Some (map (fun c => if inGroup i c
                           then Conversation.with_groupId None c else c)
                 conversations)
  else stored.

(** [Math.ceil(x)] *)
Definition Math_ceil (x : Q) : Z := Qceiling x.

(** [estimateTokens(text, attachments?)] *)
Definition estimateTokens (text : string)
           (attachments : option (list Attachment.t)) : Z :=
  let tokens := Math_ceil (inject_Z (Z.of_nat (String.length text)) / 4)%Q in
  match attachments with
  | Some atts =>
      if (0 <? length atts)%nat
      then (tokens + Z.of_nat (length atts) * 1000)%Z
      else tokens
  | None => tokens
  end.

(** [calculateCost(inputTokens, outputTokens, inputPricePerMillion,
    outputPricePerMillion)] *)
Definition calculateCost (inputTokens outputTokens : Q)
           (inputPricePerMillion outputPricePerMillion : Q) : Q :=
  let inputCost := ((inputTokens / 1000000) * inputPricePerMillion)%Q in
  let outputCost := ((outputTokens / 1000000) * outputPricePerMillion)%Q in
  (inputCost + outputCost)%Q.

(** [createNewConversation(providerId, modelId)]; [uuid] and [now] are the
    results of [uuidv4()] and [Date.now()]. *)
Definition createNewConversation (uuid : string) (now1 now2 : Z)
           (p : ProviderId) (m : string) : Conversation.t :=
  Conversation.mk uuid "New Chat" [] p m now1 now2 (Some 0%Q) None None None.

(** [generateConversationTitle(firstMessage)] *)
Definition generateConversationTitle (firstMessage : string) : string :=
  let title := Js.trim (Js.sliceTo 50 firstMessage) in
  if (String.length title <? String.length firstMessage)%nat
  then title ++ "..."
  else title.


(** The item [ai-chat-api-keys]. *)
Definition KeysItem := option ApiKeys.

(** [getApiKeys()] *)
Definition getApiKeys (stored : KeysItem) : ApiKeys :=
  match stored with
  | Some keys => keys
  | None => fun _ => None
  end.

(** [setApiKey(providerId, key)] *)
Definition setApiKey (providerId : ProviderId) (key : string)
           (stored : KeysItem) : KeysItem :=
  let keys := getApiKeys stored in
  Some (fun p => if ProviderId_eqb p providerId then Some key else keys p).

(** [removeApiKey(providerId)] *)
Definition removeApiKey (providerId : ProviderId) (stored : KeysItem)
  : KeysItem :=
  let keys := getApiKeys stored in
  Some (fun p => if ProviderId_eqb p providerId then None else keys p).

(** [hasApiKey(providerId)] *)
Definition hasApiKey (providerId : ProviderId) (stored : KeysItem) : bool :=
  match getApiKeys stored providerId with
  | Some key => Js.truthy key
  | None => false
  end.

(** The item [ai-chat-groups]. *)
Definition GroupsItem := option (list ChatGroup.t).

(** [getGroups()] *)
Definition getGroups (stored : GroupsItem) : list ChatGroup.t :=
  match stored with
  | Some gs => gs
  | None => []
  end.

(** [saveGroups(groups)] *)
Definition saveGroups (groups : list ChatGroup.t) : GroupsItem := Some groups.

(** [createGroup(title)]: the new group and the item written. *)
Definition createGroup (uuid : string) (now : Z) (title : string)
           (stored : GroupsItem) : ChatGroup.t * GroupsItem :=
  let newGroup := ChatGroup.mk uuid title (Some false) (Some now) in
  (newGroup, saveGroups (getGroups stored ++ [newGroup])).

Definition hasGroupId (i : string) (g : ChatGroup.t) : Prop :=
  ChatGroup.id g = i.

#[global] Instance hasGroupId_dec i g : Decision (hasGroupId i g).
Proof. unfold hasGroupId. apply _. Defined.

(** [deleteGroup(id)], the part that rewrites the list of groups; the
    conversations are ungrouped by [deleteGroup] above. *)
Definition deleteGroupEntry (i : string) (stored : GroupsItem) : GroupsItem :=
  saveGroups (filter (fun g => ~ hasGroupId i g) (getGroups stored)).

(** [renameGroup(id, newTitle)] *)
Definition renameGroup (i newTitle : string) (stored : GroupsItem)
  : GroupsItem :=
  let groups := getGroups stored in
  match list_find (hasGroupId i) groups with
  | Some (index, group) =>
      saveGroups (<[index := ChatGroup.with_title newTitle group]> groups)
  | None => stored
  end.

(** [toggleGroupCollapse(id)] *)
Definition toggleGroupCollapse (i : string) (stored : GroupsItem)
  : GroupsItem :=
  let groups := getGroups stored in
  match list_find (hasGroupId i) groups with
  | Some (index, group) =>
      saveGroups (<[index := ChatGroup.toggled group]> groups)
  | None => stored
  end.

(** The item [ai-chat-preferences]. *)
Definition PreferencesItem := option UserPreferences.t.

(** [getPreferences()] *)
Definition getPreferences (stored : PreferencesItem) : UserPreferences.t :=
  match stored with
  | Some prefs => prefs
  | None =>
      UserPreferences.mk "system" openai None (Some "") (Some "User") None
  end.

(** [setPreferences(preferences)] *)
Definition setPreferences (preferences : UserPreferences.partial)
           (stored : PreferencesItem) : PreferencesItem :=
  let current := getPreferences stored in
  Some (UserPreferences.spread current preferences).

End Storage.

(* ===================================================================== *)
(** * Values, errors and the network seen by an adapter *)
(* ===================================================================== *)

(** A thrown value, as the handlers inspect it: [e instanceof Error],
    [e.name], [e.message]. *)
Record JsError := {
  instanceofError : bool;
  err_name : string;
  err_message : string
}.

(** [new Error(message)] *)
Definition newError (message : string) : JsError :=
  {| instanceofError := true; err_name := "Error"; err_message := message |}.

(** The [DOMException] raised when an [AbortSignal] fires. *)
Definition AbortError (message : string) : JsError :=
  {| instanceofError := true; err_name := "AbortError"; err_message := message |}.

(** [error instanceof Error && error.name === 'AbortError'] *)
Definition isAbortError (error : JsError) : bool :=
  instanceofError error && String.eqb (err_name error) "AbortError".

(** Values produced by [JSON.parse], and [undefined] for the lookups. *)
#[warnings="-register-all"]
Inductive JsValue :=
| JUndefined
| JNull
| JBool (b : bool)
| JNumber (q : Q)
| JString (s : string)
| JArray (items : list JsValue)
| JObject (fields : list (string * JsValue)).

Module JsValue.

Fixpoint assoc (key : string) (fields : list (string * JsValue)) : JsValue :=
  match fields with
  | [] => JUndefined
  | (k, v) :: rest => if String.eqb k key then v else assoc key rest
  end.

(** [v.key] for a key that is neither an index nor a built-in property:
    [None] is the [TypeError] of reading a property of [null] or
    [undefined]. *)
Definition get (v : JsValue) (key : string) : option JsValue :=
  match v with
  | JUndefined | JNull => None
  | JObject fields => Some (assoc key fields)
  | _ => Some JUndefined
  end.

(** [v?.key] *)
Definition getOpt (v : JsValue) (key : string) : JsValue :=
  match get v key with
  | Some r => r
  | None => JUndefined
  end.

(** [v?.[0]] *)
Definition firstOpt (v : JsValue) : JsValue :=
  match v with
  | JArray (x :: _) => x
  | JObject fields => assoc "0" fields
  | JString (String c _) => JString (String c EmptyString)
  | _ => JUndefined
  end.

Definition truthy (v : JsValue) : bool :=
  match v with
  | JUndefined | JNull => false
  | JBool b => b
  | JNumber q => negb (Qeq_bool q 0)
  | JString s => Js.truthy s
  | JArray _ | JObject _ => true
  end.

(** [v === s] for a string literal [s] *)
Definition isString (v : JsValue) (s : string) : bool :=
  match v with
  | JString s' => String.eqb s' s
  | _ => false
  end.

End JsValue.

(** Built-ins of the host that the model takes as given: [JSON.parse]
    ([None] when it throws a [SyntaxError]) and the conversion to string that
    [+=] applies to a value that is not a string. *)
Record Builtins := {
  JSON_parse : string -> option JsValue;
  ToString : JsValue -> string
}.

(** What [fullResponse += text] appends. *)
Definition stringOf (B : Builtins) (text : JsValue) : string :=
  match text with
  | JString s => s
  | other => ToString B other
  end.

(** The invocations of [StreamCallbacks]; the argument of [onToken] is
    recorded as the string that [+=] appends for it. *)
Inductive CallbackEvent :=
| OnToken (token : string)
| OnComplete (fullResponse : string)
| OnError (error : JsError).

(** How the promise returned by [streamChat] settles. *)
Inductive Settled :=
| Resolved
| Rejected (error : JsError).

(** The successive results of [reader.read()]: the decoded chunks, then
    either [{ done: true }] or a thrown error. *)
Inductive ReadEnd :=
| ReadDone
| ReadThrows (error : JsError).

Record Reader := {
  chunks : list string;
  ending : ReadEnd
}.

(** The [Response] of the chat request: [response.ok], the outcome of
    [response.text()], and [response.body?.getReader()]. *)
Record Response := {
  ok : bool;
  text : JsError + string;
  body : option Reader
}.

(** The outcome of [await fetch(...)]. *)
Inductive FetchResult :=
| FetchRejects (error : JsError)
| FetchResolves (response : Response).

(* ===================================================================== *)
(** * providers: the parts shared by the six adapters *)
(* ===================================================================== *)

Module Provider.

(** [for (const [key, pricing] of Object.entries(TABLE)) {
       if (test(key)) return pricing; }
     return fallback;]
    The tables have no integer-like key, so [Object.entries] lists them in
    declaration order. *)
Fixpoint forEntries (entries : list (string * Pricing))
         (test : string -> bool) (fallback : Pricing) : Pricing :=
  match entries with
  | [] => fallback
  | (key, pricing) :: rest =>
      if test key then pricing else forEntries rest test fallback
  end.

Section Stream.
Variable B : Builtins.
(** The adapter's path to the token text inside a parsed event; [None]
    when the lookup throws. *)
Variable tokenPath : JsValue -> option JsValue.

(** The body of [for (const line of lines)]: the new [fullResponse] and
    the callbacks invoked. *)
Definition processLine (line : string) (fullResponse : string)
  : string * list CallbackEvent :=
  if Js.startsWith line "data: " then
    let jsonStr := Js.sliceFrom 6 line in
    if String.eqb (Js.trim jsonStr) "[DONE]" then (fullResponse, [])
    else
      match JSON_parse B jsonStr with
      | None => (fullResponse, [])
      | Some data =>
          match tokenPath data with
          | None => (fullResponse, [])
          | Some text =>
              if JsValue.truthy text
              then ((fullResponse ++ stringOf B text)%string,
                    [OnToken (stringOf B text)])
              else (fullResponse, [])
          end
      end
  else (fullResponse, []).

Fixpoint forLines (lines : list string) (fullResponse : string)
  : string * list CallbackEvent :=
  match lines with
  | [] => (fullResponse, [])
  | line :: rest =>
      let '(fr, evs) := processLine line fullResponse in
      let '(fr', evs') := forLines rest fr in
      (fr', evs ++ evs')
  end.

(** The iterations of [while (true)] that read a chunk. *)
Fixpoint whileChunks (cs : list string) (fullResponse : string)
  : string * list CallbackEvent :=
  match cs with
  | [] => (fullResponse, [])
  | chunk :: rest =>
      let lines := Js.split Js.newline chunk in
      let '(fr, evs) := forLines lines fullResponse in
      let '(fr', evs') := whileChunks rest fr in
      (fr', evs ++ evs')
  end.

(** The [try { while ... onComplete } catch (error) { ... }] block. *)
Definition readBody (reader : Reader) : list CallbackEvent :=
  let '(fullResponse, evs) := whileChunks (chunks reader) "" in
  match ending reader with
  | ReadDone => evs ++ [OnComplete fullResponse]
  | ReadThrows error =>
      if isAbortError error
      then evs ++ [OnComplete fullResponse]
      else evs ++ [OnError error]
  end.

(** [streamChat] from [await fetch] on; [apiErrorPrefix] is the
    vendor's label in the message of the error thrown on a non-success
    status. *)
Definition streamChatBody (apiErrorPrefix : string) (net : FetchResult)
  : list CallbackEvent * Settled :=
  match net with
  | FetchRejects error => ([], Rejected error)
  | FetchResolves response =>
      if negb (ok response) then
        match text response with
        | inl thrown => ([], Rejected thrown)
        | inr error => ([], Rejected (newError (apiErrorPrefix ++ error)%string))
        end
      else
        match body response with
        | None => ([], Rejected (newError "No response body"))
        | Some reader => (readBody reader, Resolved)
        end
  end.
End Stream.

(** [data.choices?.[0]?.delta?.content] (OpenAI, xAI, Groq, OpenRouter) *)
Definition openaiTokenPath (data : JsValue) : option JsValue :=
  match JsValue.get data "choices" with
  | None => None
  | Some choices =>
      Some (JsValue.getOpt
              (JsValue.getOpt (JsValue.firstOpt choices) "delta") "content")
  end.


(** [config.temperature ?? 0.7] *)
Definition temperatureOr (config : ChatConfig) (d : Q) : Q :=
  match cfg_temperature config with
  | Some t => t
  | None => d
  end.

(** [config.maxTokens ?? d] *)
Definition maxTokensOr (config : ChatConfig) (d : Z) : Z :=
  match cfg_maxTokens config with
  | Some n => n
  | None => d
  end.

(** [{ type: 'text', text: msg.content }] *)
Definition textBlock (msg : Message.t) : JsValue :=
  JObject [("type", JString "text"); ("text", JString (Message.content msg))].

(** What [msg.attachments.forEach] pushes for one attachment in the
    OpenAI-style adapters. *)
Definition imageUrlPart (att : Attachment.t) : list JsValue :=
  if String.eqb (Attachment.type att) "image"
  then [ JObject [("type", JString "image_url");
                  ("image_url",
                   JObject [("url", JString (Attachment.data att))])] ]
  else [].

(** The callback of [messages.map] in the adapters of OpenAI, xAI, Groq
    and OpenRouter. *)
Definition chatMessage (msg : Message.t) : JsValue :=
  match Message.attachments msg with
  | Some ((_ :: _) as atts) =>
      let content :=
        (if Js.truthy (Message.content msg) then [textBlock msg] else [])
        ++ flat_map imageUrlPart atts in
      JObject [("role", JString (Role_toString (Message.role msg)));
               ("content", JArray content)]
  | _ =>
      JObject [("role", JString (Role_toString (Message.role msg)));
               ("content", JString (Message.content msg))]
  end.

Definition chatMessages (messages : list Message.t) : list JsValue :=
  map chatMessage messages.

(** The object these four adapters hand to [JSON.stringify]. *)
Definition requestBody (messages : list Message.t) (config : ChatConfig)
  : JsValue :=
  JObject [("model", JString (cfg_model config));
           ("messages", JArray (chatMessages messages));
           ("temperature", JNumber (temperatureOr config 0.7));
           ("max_tokens", JNumber (inject_Z (maxTokensOr config 4096)));
           ("stream", JBool true)].

(** [const parts_base64 = att.data.split(',')] and the two constants
    read from it in the adapters of Gemini and Anthropic. *)
Definition base64Data (att : Attachment.t) : string :=
  match Js.split "," (Attachment.data att) with
  | _ :: second :: _ => second
  | [first] => first
  | [] => ""
  end.

Definition base64Header (att : Attachment.t) : string :=
  match Js.split "," (Attachment.data att) with
  | first :: _ :: _ => first
  | _ => ""
  end.

(** [header.match(/:(.*?);/)?.[1] || att.mimeType] *)
Definition base64MimeType (att : Attachment.t) : string :=
  match Js.matchColonGroupSemicolon (base64Header att) with
  | Some group => if Js.truthy group then group else Attachment.mimeType att
  | None => Attachment.mimeType att
  end.

(** The outcome of [fetch] of a models endpoint: [response.ok],
    [response.statusText], and what [response.json()] gives, read as the
    entries of the array the adapter maps over. *)
Record ModelsResponse (Entry : Type) := {
  models_ok : bool;
  statusText : string;
  json : JsError + list Entry
}.
Arguments models_ok {Entry} _.
Arguments statusText {Entry} _.
Arguments json {Entry} _.

Inductive ModelsFetch (Entry : Type) :=
| ModelsRejects (error : JsError)
| ModelsResolves (response : ModelsResponse Entry).
Arguments ModelsRejects {Entry} _.
Arguments ModelsResolves {Entry} _.

(** The common shape of [fetchModels]: the rejection of [fetch] or of
    [response.json()] propagates, a non-success status throws, and the
    entries are turned into the catalog. *)
Definition fetchModelsWith {Entry : Type} (label : string)
           (catalog : list Entry -> list Model.t) (net : ModelsFetch Entry)
  : JsError + list Model.t :=
  match net with
  | ModelsRejects error => inl error
  | ModelsResolves response =>
      if negb (models_ok response)
      then inl (newError ("Failed to fetch " ++ label ++ " models: "
                          ++ statusText response)%string)
      else match json response with
           | inl error => inl error
           | inr entries => inr (catalog entries)
           end
  end.

End Provider.

(** [ProviderAdapter]: [streamChat] takes what the network answers as its
    last argument.  The request it builds from the messages, the
    configuration and the key, and [fetchModels], are separate definitions
    of each adapter's module ([requestBody], [fetchModels]). *)
Record ProviderAdapter := {
  providerId : ProviderId;
  streamChat : Builtins -> list Message.t -> ChatConfig -> string ->
               FetchResult -> list CallbackEvent * Settled;
  estimateCost : Q -> Q -> string -> Q
}.

Module Xai.
Definition XAI_PRICING : list (string * Pricing) :=
  [ ("grok-2",      {| input := 2.00; output := 10.00 |});
    ("grok-2-mini", {| input := 0.20; output := 1.00 |});
    ("grok-beta",   {| input := 5.00; output := 15.00 |}) ].

Definition fallback : Pricing := {| input := 2.00; output := 10.00 |}.

Definition getModelPricing (modelId : string) : Pricing :=
  Provider.forEntries XAI_PRICING
    (fun key => Js.includes (Js.toLowerCase modelId) (Js.toLowerCase key))
    fallback.

Definition streamChat (B : Builtins) (messages : list Message.t)
           (config : ChatConfig) (apiKey : string) (net : FetchResult) :=
  Provider.streamChatBody B Provider.openaiTokenPath "xAI API error: " net.

Definition estimateCost (inputTokens outputTokens : Q) (modelId : string) : Q :=
  let pricing := getModelPricing modelId in
  Storage.calculateCost inputTokens outputTokens (input pricing) (output pricing).

Definition xaiAdapter : ProviderAdapter :=
  Build_ProviderAdapter xai streamChat estimateCost.

(** [getModelContext(modelId)] *)
Definition getModelContext (modelId : string) : Z := 131072.

(** The callback of [data.data.map] in [fetchModels]. *)
Definition toModel (modelId : string) : Model.t :=
  let pricing := getModelPricing modelId in
  let supportsImages := Js.includes (Js.toLowerCase modelId) "vision" in
  Model.mk modelId modelId xai (Some (getModelContext modelId))
           (Some pricing) (Some supportsImages) (Some supportsImages)
           (Some true) (Some true)
           (Some "xAI flagship model with advanced reasoning").

(** [fetchModels(apiKey)]; an entry is the [id] of a listed model. *)
Definition fetchModels (net : Provider.ModelsFetch string)
  : JsError + list Model.t :=
  Provider.fetchModelsWith "xAI" (map toModel) net.

Definition requestBody := Provider.requestBody.

End Xai.

Module Openai.
Definition OPENAI_PRICING : list (string * Pricing) :=
  [ ("gpt-4o",        {| input := 2.50;  output := 10.00 |});
    ("gpt-4o-mini",   {| input := 0.15;  output := 0.60 |});
    ("gpt-4-turbo",   {| input := 10.00; output := 30.00 |});
    ("gpt-4",         {| input := 30.00; output := 60.00 |});
    ("gpt-3.5-turbo", {| input := 0.50;  output := 1.50 |});
    ("o1",            {| input := 15.00; output := 60.00 |});
    ("o1-mini",       {| input := 3.00;  output := 12.00 |});
    ("o3-mini",       {| input := 1.10;  output := 4.40 |}) ].

Definition fallback : Pricing := {| input := 2.50; output := 10.00 |}.

Definition getModelPricing (modelId : string) : Pricing :=
  Provider.forEntries OPENAI_PRICING
    (fun key => Js.includes (Js.toLowerCase modelId) (Js.toLowerCase key))
    fallback.

Definition streamChat (B : Builtins) (messages : list Message.t)
           (config : ChatConfig) (apiKey : string) (net : FetchResult) :=
  Provider.streamChatBody B Provider.openaiTokenPath "OpenAI API error: " net.

Definition estimateCost (inputTokens outputTokens : Q) (modelId : string) : Q :=
  let pricing := getModelPricing modelId in
  Storage.calculateCost inputTokens outputTokens (input pricing) (output pricing).

Definition openaiAdapter : ProviderAdapter :=
  Build_ProviderAdapter openai streamChat estimateCost.

(** [getModelContext(modelId)] *)
Definition getModelContext (modelId : string) : Z :=
  if Js.includes modelId "128k" || Js.includes modelId "gpt-4-turbo"
     || Js.includes modelId "gpt-4o" || Js.includes modelId "o1"
  then 128000
  else if Js.includes modelId "32k" then 32768
  else if Js.includes modelId "16k" then 16384
  else if Js.includes modelId "gpt-4" then 8192
  else if Js.includes modelId "gpt-3.5" then 16385
  else 128000.

(** The test of [data.data.filter]: only chat models. *)
Definition isChatModel (modelId : string) : bool :=
  Js.includes modelId "gpt" || Js.includes modelId "o1"
  || Js.includes modelId "o3".

(** The callback of [.map] in [fetchModels]. *)
Definition toModel (modelId : string) : Model.t :=
  let pricing := getModelPricing modelId in
  let isLatest :=
    Js.includes modelId "gpt-4o" || Js.includes modelId "o1"
    || Js.includes modelId "o3" in
  let supportsImages := isLatest || Js.includes modelId "gpt-4-turbo" in
  Model.mk modelId modelId openai (Some (getModelContext modelId))
           (Some pricing) (Some supportsImages) (Some supportsImages)
           (Some true) (Some (negb (Js.includes modelId "instruct")))
           (Some (if isLatest then "Our most capable and versatile models"
                  else "Reliable models for general tasks")).

(** [fetchModels(apiKey)]; [sortById] stands for
    [.sort((a, b) => a.id.localeCompare(b.id))], whose order is the
    host's collation. *)
Definition fetchModels (sortById : list Model.t -> list Model.t)
           (net : Provider.ModelsFetch string) : JsError + list Model.t :=
  Provider.fetchModelsWith "OpenAI"
    (fun entries => sortById (map toModel (List.filter isChatModel entries)))
    net.

Definition requestBody := Provider.requestBody.

End Openai.

Module Groq.
Definition GROQ_PRICING : list (string * Pricing) :=
  [ ("llama-3.3-70b", {| input := 0.59; output := 0.79 |});
    ("llama-3.1-70b", {| input := 0.59; output := 0.79 |});
    ("llama-3.1-8b",  {| input := 0.05; output := 0.08 |});
    ("mixtral-8x7b",  {| input := 0.24; output := 0.24 |});
    ("gemma2-9b",     {| input := 0.20; output := 0.20 |}) ].

Definition fallback : Pricing := {| input := 0.10; output := 0.10 |}.

Definition getModelPricing (modelId : string) : Pricing :=
  Provider.forEntries GROQ_PRICING
    (fun key => Js.includes (Js.toLowerCase modelId) (Js.toLowerCase key))
    fallback.

Definition streamChat (B : Builtins) (messages : list Message.t)
           (config : ChatConfig) (apiKey : string) (net : FetchResult) :=
  Provider.streamChatBody B Provider.openaiTokenPath "Groq API error: " net.

Definition estimateCost (inputTokens outputTokens : Q) (modelId : string) : Q :=
  let pricing := getModelPricing modelId in
  Storage.calculateCost inputTokens outputTokens (input pricing) (output pricing).

Definition groqAdapter : ProviderAdapter :=
  Build_ProviderAdapter groq streamChat estimateCost.

(** An entry of the models list: [id] and [context_window]. *)
Record Entry := {
  entry_id : string;
  context_window : option Z
}.

(** The callback of [.map] in [fetchModels]. *)
Definition toModel (model : Entry) : Model.t :=
  let pricing := getModelPricing (entry_id model) in
  let supportsImages :=
    Js.includes (Js.toLowerCase (entry_id model)) "vision" in
  Model.mk (entry_id model) (entry_id model) groq (context_window model)
           (Some pricing) (Some supportsImages) (Some supportsImages)
           (Some true) (Some true)
           (Some "High-performance inference for open-source models").

(** [fetchModels(apiKey)] *)
Definition fetchModels (net : Provider.ModelsFetch Entry)
  : JsError + list Model.t :=
  Provider.fetchModelsWith "Groq"
    (fun entries =>
       map toModel
           (List.filter
              (fun model => negb (Js.includes (entry_id model) "whisper"))
              entries))
    net.

Definition requestBody := Provider.requestBody.

End Groq.

Module Gemini.
Definition GEMINI_PRICING : list (string * Pricing) :=
  [ ("gemini-2.5-pro",   {| input := 1.25;  output := 10.00 |});
    ("gemini-2.5-flash", {| input := 0.15;  output := 0.60 |});
    ("gemini-2.0-flash", {| input := 0.10;  output := 0.40 |});
    ("gemini-1.5-pro",   {| input := 1.25;  output := 5.00 |});
    ("gemini-1.5-flash", {| input := 0.075; output := 0.30 |});
    ("gemini-1.0-pro",   {| input := 0.50;  output := 1.50 |}) ].

Definition fallback : Pricing := {| input := 0.15; output := 0.60 |}.

Definition getModelPricing (modelId : string) : Pricing :=
  Provider.forEntries GEMINI_PRICING
    (fun key => Js.includes (Js.toLowerCase modelId)
                  (Js.replace (Js.toLowerCase key) "gemini-" ""))
    fallback.

(** [data.candidates?.[0]?.content?.parts?.[0]?.text] *)
Definition tokenPath (data : JsValue) : option JsValue :=
  match JsValue.get data "candidates" with
  | None => None
  | Some candidates =>
      Some (JsValue.getOpt
              (JsValue.firstOpt
                 (JsValue.getOpt
                    (JsValue.getOpt (JsValue.firstOpt candidates) "content")
                    "parts"))
              "text")
  end.

Definition streamChat (B : Builtins) (messages : list Message.t)
           (config : ChatConfig) (apiKey : string) (net : FetchResult) :=
  Provider.streamChatBody B tokenPath "Gemini API error: " net.

Definition estimateCost (inputTokens outputTokens : Q) (modelId : string) : Q :=
  let pricing := getModelPricing modelId in
  Storage.calculateCost inputTokens outputTokens (input pricing) (output pricing).

Definition geminiAdapter : ProviderAdapter :=
  Build_ProviderAdapter gemini streamChat estimateCost.

(** An entry of the models list. *)
Record Entry := {
  entry_name : string;
  displayName : string;
  inputTokenLimit : option Z;
  supportedGenerationMethods : option (list string)
}.

(** [model.supportedGenerationMethods?.includes('generateContent')] *)
Definition generatesContent (model : Entry) : bool :=
  match supportedGenerationMethods model with
  | Some methods => existsb (String.eqb "generateContent") methods
  | None => false
  end.

(** The callback of [.map] in [fetchModels]. *)
Definition toModel (model : Entry) : Model.t :=
  let modelId := Js.replace (entry_name model) "models/" "" in
  let pricing := getModelPricing modelId in
  let isMultimodal :=
    Js.includes modelId "1.5" || Js.includes modelId "2.0"
    || Js.includes modelId "2.5" in
  let isPro := Js.includes modelId "pro" in
  Model.mk modelId
           (if Js.truthy (displayName model) then displayName model
            else modelId)
           gemini (inputTokenLimit model) (Some pricing)
           (Some isMultimodal) (Some isMultimodal) (Some true) (Some true)
           (Some (if isPro then "Highly capable model for complex reasoning"
                  else "Fast and efficient model for most tasks")).

(** [fetchModels(apiKey)] *)
Definition fetchModels (net : Provider.ModelsFetch Entry)
  : JsError + list Model.t :=
  Provider.fetchModelsWith "Gemini"
    (fun entries => map toModel (List.filter generatesContent entries))
    net.

(** What [msg.attachments.forEach] pushes for one attachment. *)
Definition inlineDataPart (att : Attachment.t) : JsValue :=
  JObject [("inline_data",
            JObject [("mime_type", JString (Provider.base64MimeType att));
                     ("data", JString (Provider.base64Data att))])].

(** The callback of [.map] that builds [contents]. *)
Definition content (msg : Message.t) : JsValue :=
  let attachmentParts :=
    match Message.attachments msg with
    | Some atts => map inlineDataPart atts
    | None => []
    end in
  let textParts :=
    if Js.truthy (Message.content msg)
       && (0 <? String.length (Js.trim (Message.content msg)))%nat
    then [ JObject [("text", JString (Message.content msg))] ]
    else [] in
  JObject [("role", JString (if Role_eqb (Message.role msg) user
                             then "user" else "model"));
           ("parts", JArray (attachmentParts ++ textParts))].

Definition contents (messages : list Message.t) : list JsValue :=
  map content
      (List.filter (fun m => negb (Role_eqb (Message.role m) system))
                   messages).

(** [messages.find(m => m.role === 'system')] *)
Definition systemInstruction (messages : list Message.t)
  : option Message.t :=
  List.find (fun m => Role_eqb (Message.role m) system) messages.

Definition safetySetting (category : string) : JsValue :=
  JObject [("category", JString category);
           ("threshold", JString "BLOCK_ONLY_HIGH")].

(** [requestBody], with [systemInstruction] added when there is one. *)
Definition requestBody (messages : list Message.t) (config : ChatConfig)
  : JsValue :=
  JObject
    ([("contents", JArray (contents messages));
      ("generationConfig",
       JObject [("temperature",
                 JNumber (Provider.temperatureOr config 0.7));
                ("maxOutputTokens",
                 JNumber (inject_Z (Provider.maxTokensOr config 8192)))]);
      ("safetySettings",
       JArray [ safetySetting "HARM_CATEGORY_HARASSMENT";
                safetySetting "HARM_CATEGORY_HATE_SPEECH";
                safetySetting "HARM_CATEGORY_SEXUALLY_EXPLICIT";
                safetySetting "HARM_CATEGORY_DANGEROUS_CONTENT" ])]
     ++ match systemInstruction messages with
        | Some m =>
            [("systemInstruction",
              JObject [("parts",
                        JArray [JObject
                                  [("text", JString (Message.content m))]])])]
        | None => []
        end).

End Gemini.

Module Anthropic.
Definition ANTHROPIC_PRICING : list (string * Pricing) :=
  [ ("claude-3-5-sonnet", {| input := 3.00;  output := 15.00 |});
    ("claude-3-5-haiku",  {| input := 1.00;  output := 5.00 |});
    ("claude-3-opus",     {| input := 15.00; output := 75.00 |});
    ("claude-3-sonnet",   {| input := 3.00;  output := 15.00 |});
    ("claude-3-haiku",    {| input := 0.25;  output := 1.25 |}) ].

Definition fallback : Pricing := {| input := 3.00; output := 15.00 |}.

Definition getModelPricing (modelId : string) : Pricing :=
  Provider.forEntries ANTHROPIC_PRICING
    (fun key => Js.includes (Js.toLowerCase modelId)
                  (Js.replace key "claude-" ""))
    fallback.

(** [if (data.type === 'content_block_delta') { const text = data.delta?.text; ... }];
    an event of another type yields no text. *)
Definition tokenPath (data : JsValue) : option JsValue :=
  match JsValue.get data "type" with
  | None => None
  | Some ty =>
      if JsValue.isString ty "content_block_delta"
      then Some (JsValue.getOpt (JsValue.getOpt data "delta") "text")
      else Some JUndefined
  end.

Definition streamChat (B : Builtins) (messages : list Message.t)
           (config : ChatConfig) (apiKey : string) (net : FetchResult) :=
  Provider.streamChatBody B tokenPath "Anthropic API error: " net.

Definition estimateCost (inputTokens outputTokens : Q) (modelId : string) : Q :=
  let pricing := getModelPricing modelId in
  Storage.calculateCost inputTokens outputTokens (input pricing) (output pricing).

Definition anthropicAdapter : ProviderAdapter :=
  Build_ProviderAdapter anthropic streamChat estimateCost.

Definition model (i name : string) (pricing : Pricing)
           (description : string) : Model.t :=
  Model.mk i name anthropic (Some 200000%Z) (Some pricing) (Some true)
           (Some true) (Some true) (Some true) (Some description).

Definition ANTHROPIC_MODELS : list Model.t :=
  [ model "claude-sonnet-4-20250514" "Claude Sonnet 4"
          {| input := 3.00; output := 15.00 |}
          "Next generation flagship model";
    model "claude-3-5-sonnet-20241022" "Claude 3.5 Sonnet"
          {| input := 3.00; output := 15.00 |}
          "Best balance of speed and intelligence";
    model "claude-3-5-haiku-20241022" "Claude 3.5 Haiku"
          {| input := 1.00; output := 5.00 |}
          "Fastest and most efficient model";
    model "claude-3-opus-20240229" "Claude 3 Opus"
          {| input := 15.00; output := 75.00 |}
          "Powerful model for highly complex tasks";
    model "claude-3-sonnet-20240229" "Claude 3 Sonnet"
          {| input := 3.00; output := 15.00 |}
          "Balance of intelligence and speed";
    model "claude-3-haiku-20240307" "Claude 3 Haiku"
          {| input := 0.25; output := 1.25 |}
          "Near-instant responsiveness" ].

(** [fetchModels()]: no request is made. *)
Definition fetchModels : JsError + list Model.t := inr ANTHROPIC_MODELS.

(** What [msg.attachments.forEach] pushes for one attachment. *)
Definition block (att : Attachment.t) : list JsValue :=
  if String.eqb (Attachment.type att) "image" then
    [ JObject [("type", JString "image");
               ("source",
                JObject [("type", JString "base64");
                         ("media_type",
                          JString (Provider.base64MimeType att));
                         ("data", JString (Provider.base64Data att))])] ]
  else if String.eqb (Attachment.mimeType att) "application/pdf" then
    [ JObject [("type", JString "document");
               ("source",
                JObject [("type", JString "base64");
                         ("media_type", JString "application/pdf");
                         ("data", JString (Provider.base64Data att))])] ]
  else [].

(** The callback of [.map] that builds [chatMessages]. *)
Definition chatMessage (msg : Message.t) : JsValue :=
  match Message.attachments msg with
  | Some ((_ :: _) as atts) =>
      let content :=
        flat_map block atts
        ++ (if Js.truthy (Message.content msg)
            then [Provider.textBlock msg] else []) in
      JObject [("role", JString (Role_toString (Message.role msg)));
               ("content", JArray content)]
  | _ =>
      JObject [("role", JString (Role_toString (Message.role msg)));
               ("content", JString (Message.content msg))]
  end.

Definition chatMessages (messages : list Message.t) : list JsValue :=
  map chatMessage
      (List.filter (fun m => negb (Role_eqb (Message.role m) system))
                   messages).

(** [messages.find(m => m.role === 'system')] *)
Definition systemMessage (messages : list Message.t) : option Message.t :=
  List.find (fun m => Role_eqb (Message.role m) system) messages.

(** [requestBody], with [system] and [temperature] added when present. *)
Definition requestBody (messages : list Message.t) (config : ChatConfig)
  : JsValue :=
  JObject
    ([("model", JString (cfg_model config));
      ("max_tokens", JNumber (inject_Z (Provider.maxTokensOr config 8192)));
      ("messages", JArray (chatMessages messages));
      ("stream", JBool true)]
     ++ match systemMessage messages with
        | Some m => [("system", JString (Message.content m))]
        | None => []
        end
     ++ match cfg_temperature config with
        | Some t => [("temperature", JNumber t)]
        | None => []
        end).

(** [messages.some(m => m.attachments?.some(a => a.mimeType ===
    'application/pdf'))] *)
Definition hasPdf (messages : list Message.t) : bool :=
  existsb
    (fun m =>
       match Message.attachments m with
       | Some atts =>
           existsb (fun a => String.eqb (Attachment.mimeType a)
                                        "application/pdf") atts
       | None => false
       end)
    messages.

(** The request headers. *)
Definition headers (apiKey : string) (messages : list Message.t)
  : list (string * string) :=
  [("Content-Type", "application/json");
   ("x-api-key", apiKey);
   ("anthropic-version", "2023-06-01");
   ("anthropic-dangerous-direct-browser-access", "true")]
  ++ (if hasPdf messages then [("anthropic-beta", "pdfs-2024-09-25")]
      else []).

End Anthropic.

Module Openrouter.
Definition streamChat (B : Builtins) (messages : list Message.t)
           (config : ChatConfig) (apiKey : string) (net : FetchResult) :=
  Provider.streamChatBody B Provider.openaiTokenPath "OpenRouter API error: " net.

(** No table: the fallback tier [1.0 / 2.0] for every model id (the
    [console.log] is not modelled). *)
Definition estimateCost (inputTokens outputTokens : Q) (modelId : string) : Q :=
  Storage.calculateCost inputTokens outputTokens 1.0 2.0.

Definition openrouterAdapter : ProviderAdapter :=
  Build_ProviderAdapter openrouter streamChat estimateCost.

Definition requestBody := Provider.requestBody.

End Openrouter.

(** providers/index.ts: [providerAdapters[providerId]]; every [ProviderId]
    is registered, so the [throw] is unreachable. *)
Definition getAdapter (p : ProviderId) : ProviderAdapter :=
  match p with
  | gemini => Gemini.geminiAdapter
  | anthropic => Anthropic.anthropicAdapter
  | openai => Openai.openaiAdapter
  | xai => Xai.xaiAdapter
  | groq => Groq.groqAdapter
  | openrouter => Openrouter.openrouterAdapter
  end.

(* ===================================================================== *)
(** * app/page.tsx: the Send/Retry orchestrator *)
(* ===================================================================== *)

Module Page.

(** The React state of [ChatPage] that the handlers read or write, with
    the two [localStorage] items they reach through storage.ts. *)
Record State := mkState {
  conversation : option Conversation.t;
  isLoading : bool;
  streamingMessageId : option string;
  error : option string;
  systemPromptWarningOpen : bool;
  selectedProvider : ProviderId;
  selectedModel : string;
  sessionCost : Q;
  apiKeys : ProviderId -> option string;
  abortControllerRef : bool;
  storedConversations : Storage.Item;
  preferencesSystemPrompt : option string
}.

Definition setConversation (v : option Conversation.t) (s : State) : State :=
  mkState v (isLoading s) (streamingMessageId s) (error s)
          (systemPromptWarningOpen s) (selectedProvider s) (selectedModel s)
          (sessionCost s) (apiKeys s) (abortControllerRef s)
          (storedConversations s) (preferencesSystemPrompt s).

Definition setIsLoading (v : bool) (s : State) : State :=
  mkState (conversation s) v (streamingMessageId s) (error s)
          (systemPromptWarningOpen s) (selectedProvider s) (selectedModel s)
          (sessionCost s) (apiKeys s) (abortControllerRef s)
          (storedConversations s) (preferencesSystemPrompt s).

Definition setStreamingMessageId (v : option string) (s : State) : State :=
  mkState (conversation s) (isLoading s) v (error s)
          (systemPromptWarningOpen s) (selectedProvider s) (selectedModel s)
          (sessionCost s) (apiKeys s) (abortControllerRef s)
          (storedConversations s) (preferencesSystemPrompt s).

Definition setError (v : option string) (s : State) : State :=
  mkState (conversation s) (isLoading s) (streamingMessageId s) v
          (systemPromptWarningOpen s) (selectedProvider s) (selectedModel s)
          (sessionCost s) (apiKeys s) (abortControllerRef s)
          (storedConversations s) (preferencesSystemPrompt s).

Definition setSystemPromptWarningOpen (v : bool) (s : State) : State :=
  mkState (conversation s) (isLoading s) (streamingMessageId s) (error s)
          v (selectedProvider s) (selectedModel s)
          (sessionCost s) (apiKeys s) (abortControllerRef s)
          (storedConversations s) (preferencesSystemPrompt s).

Definition setSelectedProvider (v : ProviderId) (s : State) : State :=
  mkState (conversation s) (isLoading s) (streamingMessageId s) (error s)
          (systemPromptWarningOpen s) v (selectedModel s)
          (sessionCost s) (apiKeys s) (abortControllerRef s)
          (storedConversations s) (preferencesSystemPrompt s).

Definition setSelectedModel (v : string) (s : State) : State :=
  mkState (conversation s) (isLoading s) (streamingMessageId s) (error s)
          (systemPromptWarningOpen s) (selectedProvider s) v
          (sessionCost s) (apiKeys s) (abortControllerRef s)
          (storedConversations s) (preferencesSystemPrompt s).

Definition setSessionCost (v : Q) (s : State) : State :=
  mkState (conversation s) (isLoading s) (streamingMessageId s) (error s)
          (systemPromptWarningOpen s) (selectedProvider s) (selectedModel s)
          v (apiKeys s) (abortControllerRef s)
          (storedConversations s) (preferencesSystemPrompt s).

Definition setAbortControllerRef (v : bool) (s : State) : State :=
  mkState (conversation s) (isLoading s) (streamingMessageId s) (error s)
          (systemPromptWarningOpen s) (selectedProvider s) (selectedModel s)
          (sessionCost s) (apiKeys s) v
          (storedConversations s) (preferencesSystemPrompt s).

Definition setStoredConversations (v : Storage.Item) (s : State) : State :=
  mkState (conversation s) (isLoading s) (streamingMessageId s) (error s)
          (systemPromptWarningOpen s) (selectedProvider s) (selectedModel s)
          (sessionCost s) (apiKeys s) (abortControllerRef s)
          v (preferencesSystemPrompt s).

(** [saveConversation(c)] on the store of the state. *)
Definition saveConversation (c : Conversation.t) (s : State) : State :=
  setStoredConversations (Storage.saveConversation c (storedConversations s)) s.

(** The values the environment hands to one handler run: the results of
    [uuidv4()] and of the successive [Date.now()] calls. *)
Record Env := {
  uuid_conversation : string;
  now_createdAt : Z;
  now_createdUpdatedAt : Z;
  uuid_user : string;
  now_user : Z;
  uuid_assistant : string;
  now_assistant : Z;
  now_updatedAt : Z;
  now_system : Z;
  startTime : Z;
  endTime : Z
}.

(** One invocation of [adapter.streamChat]: the adapter and its first
    three arguments. *)
Record AdapterCall := {
  call_provider : ProviderId;
  call_messages : list Message.t;
  call_config : ChatConfig;
  call_apiKey : string
}.

(** [flag] is truthy: [undefined] and [false] are not. *)
Definition flagSet (flag : option bool) : bool :=
  match flag with Some true => true | _ => false end.

(** [l.slice(0, -1)] *)
Definition dropLast {A} (l : list A) : list A := take (length l - 1) l.

(** [prev.totalCost || 0] *)
Definition totalCostOrZero (c : Conversation.t) : Q :=
  match Conversation.totalCost c with
  | Some q => q
  | None => 0%Q
  end.

(** Which handler installed the callbacks: the callbacks of
    [handleContinueWithoutSystemPrompt] differ from those of [handleSend]
    and [handleRetry] in writing [disableSystemPrompt: true] and in
    calling [estimateTokens(m.content)] without the attachments. *)
Inductive Flavour := SendOrRetry | Continue.

Definition flagAfter (f : Flavour) (prev : Conversation.t) : option bool :=
  match f with
  | SendOrRetry => Conversation.disableSystemPrompt prev
  | Continue => Some true
  end.

Section Callbacks.
Variable f : Flavour.
Variable adapter : ProviderAdapter.
Variable env : Env.
Variable apiMessages : list Message.t.
Variable model : string.
(** The id of the assistant message the callbacks fill in. *)
Variable targetId : string.

(** [onToken], after [fullResponse += token]. *)
Definition onToken (fullResponse : string) (s : State) : State :=
  match conversation s with
  | None => s
  | Some prev =>
      let messages :=
        map (fun m => if String.eqb (Message.id m) targetId
                      then Message.with_content fullResponse m else m)
            (Conversation.messages prev) in
      setConversation
        (Some (Conversation.mk
                 (Conversation.id prev) (Conversation.title prev) messages
                 (Conversation.providerId prev) (Conversation.modelId prev)
                 (Conversation.createdAt prev) (Conversation.updatedAt prev)
                 (Conversation.totalCost prev) (flagAfter f prev)
                 (Conversation.pinned prev) (Conversation.groupId prev)))
        s
  end.

Definition inputTokensOf (m : Message.t) : Z :=
  match f with
  | SendOrRetry =>
      Storage.estimateTokens (Message.content m) (Message.attachments m)
  | Continue => Storage.estimateTokens (Message.content m) None
  end.

(** [onComplete(response)] *)
Definition onComplete (response : string) (s : State) : State :=
  let duration := (inject_Z (endTime env - startTime env) / 1000)%Q in
  let outputTokens := Storage.estimateTokens response None in
  let inputTokens :=
    fold_left (fun acc m => (acc + inputTokensOf m)%Z) apiMessages 0%Z in
  let cost :=
    estimateCost adapter (inject_Z inputTokens) (inject_Z outputTokens)
                 model in
  let s :=
    match conversation s with
    | None => s
    | Some prev =>
        let messages :=
          map (fun m => if String.eqb (Message.id m) targetId
                        then Message.finalized response outputTokens
                                               duration model m
                        else m)
              (Conversation.messages prev) in
        let updated :=
          Conversation.mk
            (Conversation.id prev) (Conversation.title prev) messages
            (Conversation.providerId prev) (Conversation.modelId prev)
            (Conversation.createdAt prev) (Conversation.updatedAt prev)
            (Some (totalCostOrZero prev + cost)%Q) (flagAfter f prev)
            (Conversation.pinned prev) (Conversation.groupId prev) in
        setConversation (Some updated) (saveConversation updated s)
    end in
  let s := setSessionCost (sessionCost s + cost)%Q s in
  let s := setIsLoading false s in
  setStreamingMessageId None s.

(** [onError(err)] *)
Definition onError (err : JsError) (s : State) : State :=
  let s := setError (Some (err_message err)) s in
  let s := setIsLoading false s in
  setStreamingMessageId None s.

(** The callbacks as the adapter invokes them, in order, when the page
    handles nothing in between ([deliverAmong] is the general run);
    the first argument is the handler's own [fullResponse] variable. *)
Fixpoint deliver (events : list CallbackEvent) (fullResponse : string)
         (s : State) : State :=
  match events with
  | [] => s
  | OnToken token :: rest =>
      let fullResponse' := (fullResponse ++ token)%string in
      deliver rest fullResponse' (onToken fullResponse' s)
  | OnComplete response :: rest =>
      deliver rest fullResponse (onComplete response s)
  | OnError err :: rest =>
      deliver rest fullResponse (onError err s)
  end.
End Callbacks.

(** The [catch (err)] block around [await adapter.streamChat(...)];
    [detectUnsupported] is set in [handleSend] only. *)
Definition catchRejection (detectUnsupported : bool) (err : JsError)
           (s : State) : State :=
  let s :=
    if instanceofError err && negb (String.eqb (err_name err) "AbortError")
    then
      if detectUnsupported
         && Js.includes (err_message err) "Developer instruction is not enabled"
      then setSystemPromptWarningOpen true s
      else setError (Some (err_message err)) s
    else s in
  let s := setIsLoading false s in
  setStreamingMessageId None s.

(** [await adapter.streamChat(apiMessages, config, apiKey, callbacks,
    signal)] inside [try]/[catch], when the page handles no other event
    until the promise settles ([awaitAmong] is the general run). *)
Definition awaitStreamChat (B : Builtins) (f : Flavour)
           (detectUnsupported : bool) (env : Env) (net : FetchResult)
           (apiMessages : list Message.t) (config : ChatConfig)
           (apiKey : string) (targetId : string) (s : State) : State :=
  let adapter := getAdapter (selectedProvider s) in
  let model := selectedModel s in
  let '(events, settled) :=
    streamChat adapter B apiMessages config apiKey net in
  let s := deliver f adapter env apiMessages model targetId events "" s in
  match settled with
  | Resolved => s
  | Rejected err => catchRejection detectUnsupported err s
  end.

Definition configurationError : string :=
  "Please configure an API key and select a model".

Definition sendFallbackPrompt : string :=
  "You are a friendly and helpful AI assistant. Always try your best to assist the user. If you don't know the answer, just say so. Don't make things up. Don't make promises you can't keep. Don't make up dates or times.".

Definition retryFallbackPrompt : string :=
  "You are a friendly and helpful AI assistant. Always try your best to assist the user.".

(** [userSystemPrompt && userSystemPrompt.trim().length > 0
      ? userSystemPrompt : fallbackPrompt] *)
Definition chooseSystemPrompt (userSystemPrompt : option string)
           (fallbackPrompt : string) : string :=
  match userSystemPrompt with
  | Some p =>
      if Js.truthy p && (0 <? String.length (Js.trim p))%nat
      then p else fallbackPrompt
  | None => fallbackPrompt
  end.

Definition systemMessage (content : string) (now : Z) : Message.t :=
  Message.mk "system" system content now None None None None.

Definition placeholder (uuid : string) (now : Z) : Message.t :=
  Message.mk uuid assistant "" now None None None None.

Definition chatConfig (s : State) (systemPrompt : option string) : ChatConfig :=
  {| cfg_model := selectedModel s;
     cfg_temperature := Some 0.7%Q;
     cfg_maxTokens := Some 4096%Z;
     cfg_systemPrompt := systemPrompt |}.

(** [handleSend(content, attachments?)] *)
Definition handleSend (B : Builtins) (env : Env) (net : FetchResult)
           (content : string) (attachments : option (list Attachment.t))
           (s : State) : State * list AdapterCall :=
  match apiKeys s (selectedProvider s) with
  | None => (setError (Some configurationError) s, [])
  | Some apiKey =>
    if negb (Js.truthy apiKey) || negb (Js.truthy (selectedModel s))
    then (setError (Some configurationError) s, [])
    else
      let s := setError None s in
      let s := setIsLoading true s in
      let currentConv :=
        match conversation s with
        | Some c => c
        | None =>
            Storage.createNewConversation
              (uuid_conversation env) (now_createdAt env)
              (now_createdUpdatedAt env)
              (selectedProvider s) (selectedModel s)
        end in
      let userMessage :=
        Message.mk (uuid_user env) user content (now_user env)
                   (Some (Storage.estimateTokens content attachments))
                   None None attachments in
      let assistantMessage :=
        placeholder (uuid_assistant env) (now_assistant env) in
      let updatedMessages :=
        Conversation.messages currentConv ++ [userMessage; assistantMessage] in
      let title :=
        if (length (Conversation.messages currentConv) =? 0)%nat
        then Storage.generateConversationTitle content
        else Conversation.title currentConv in
      let updatedConv :=
        Conversation.mk
          (Conversation.id currentConv) title updatedMessages
          (selectedProvider s) (selectedModel s)
          (Conversation.createdAt currentConv) (now_updatedAt env)
          (Conversation.totalCost currentConv)
          (Conversation.disableSystemPrompt currentConv)
          (Conversation.pinned currentConv)
          (Conversation.groupId currentConv) in
      let s := setConversation (Some updatedConv) s in
      let s := saveConversation updatedConv s in
      let s := setStreamingMessageId (Some (Message.id assistantMessage)) s in
      let s := setAbortControllerRef true s in
      let config := chatConfig s (preferencesSystemPrompt s) in
      let apiMessages := dropLast updatedMessages in
      let systemPrompt :=
        chooseSystemPrompt (preferencesSystemPrompt s) sendFallbackPrompt in
      let apiMessages :=
        if negb (flagSet (Conversation.disableSystemPrompt currentConv))
        then systemMessage systemPrompt (now_system env) :: apiMessages
        else apiMessages in
      (awaitStreamChat B SendOrRetry true env net apiMessages config apiKey
                       (Message.id assistantMessage) s,
       [ {| call_provider := selectedProvider s;
            call_messages := apiMessages;
            call_config := config;
            call_apiKey := apiKey |} ])
  end.

Definition hasMessageId (i : string) (m : Message.t) : Prop :=
  Message.id m = i.

#[global] Instance hasMessageId_dec i m : Decision (hasMessageId i m).
Proof. unfold hasMessageId. apply _. Defined.

(** The synchronous part of [handleRetry(messageId)], up to and including
    [abortControllerRef.current = new AbortController()]: [None] when the
    handler returns early, otherwise the state and the constants
    [updatedConv], [apiMessagesFull], [assistantMessage] and [apiKey]. *)
Definition retryPrepare (env : Env) (messageId : string) (s : State)
  : State * option (Conversation.t * list Message.t * Message.t * string) :=
  match conversation s with
  | None => (s, None)
  | Some conv =>
      match list_find (hasMessageId messageId) (Conversation.messages conv) with
      | None => (s, None)
      | Some (index, _) =>
          match apiKeys s (selectedProvider s) with
          | None => (setError (Some configurationError) s, None)
          | Some apiKey =>
            if negb (Js.truthy apiKey) || negb (Js.truthy (selectedModel s))
            then (setError (Some configurationError) s, None)
            else
              let s := setError None s in
              let s := setIsLoading true s in
              let apiMessagesFull :=
                take (index + 1) (Conversation.messages conv) in
              let assistantMessage :=
                placeholder (uuid_assistant env) (now_assistant env) in
              let updatedConv :=
                Conversation.mk
                  (Conversation.id conv) (Conversation.title conv)
                  (apiMessagesFull ++ [assistantMessage])
                  (Conversation.providerId conv) (Conversation.modelId conv)
                  (Conversation.createdAt conv) (now_updatedAt env)
                  (Conversation.totalCost conv)
                  (Conversation.disableSystemPrompt conv)
                  (Conversation.pinned conv) (Conversation.groupId conv) in
              let s := setConversation (Some updatedConv) s in
              let s := saveConversation updatedConv s in
              let s := setStreamingMessageId
                         (Some (Message.id assistantMessage)) s in
              let s := setAbortControllerRef true s in
              (s, Some (updatedConv, apiMessagesFull, assistantMessage, apiKey))
          end
      end
  end.

(** [handleRetry(messageId)] *)
Definition handleRetry (B : Builtins) (env : Env) (net : FetchResult)
           (messageId : string) (s : State) : State * list AdapterCall :=
  match retryPrepare env messageId s with
  | (s, None) => (s, [])
  | (s, Some (updatedConv, apiMessagesFull, assistantMessage, apiKey)) =>
      let config := chatConfig s (preferencesSystemPrompt s) in
      let systemPrompt :=
        chooseSystemPrompt (preferencesSystemPrompt s) retryFallbackPrompt in
      let apiMessages :=
        if negb (flagSet (Conversation.disableSystemPrompt updatedConv))
        then systemMessage systemPrompt (now_system env) :: apiMessagesFull
        else apiMessagesFull in
      (awaitStreamChat B SendOrRetry false env net apiMessages config apiKey
                       (Message.id assistantMessage) s,
       [ {| call_provider := selectedProvider s;
            call_messages := apiMessages;
            call_config := config;
            call_apiKey := apiKey |} ])
  end.

(** [handleContinueWithoutSystemPrompt()]; the third component tells how
    the handler's promise settles: reading [lastMessage.role] of an empty
    message list throws a [TypeError] outside the [try]. *)
Definition handleContinueWithoutSystemPrompt (B : Builtins) (env : Env)
           (net : FetchResult) (s : State)
  : State * list AdapterCall * Settled :=
  let s := setSystemPromptWarningOpen false s in
  match conversation s with
  | None => (s, [], Resolved)
  | Some conv =>
      match last (Conversation.messages conv) with
      | None =>
          (s, [],
           Rejected {| instanceofError := true; err_name := "TypeError";
                       err_message := "lastMessage is undefined" |})
      | Some lastMessage =>
          if negb (Role_eqb (Message.role lastMessage) assistant)
          then (s, [], Resolved)
          else
            let s := setIsLoading true s in
            let s := setStreamingMessageId (Some (Message.id lastMessage)) s in
            let s := setAbortControllerRef true s in
            let s := setError None s in
            match apiKeys s (selectedProvider s) with
            | None => (catchRejection false (newError "No API key") s, [], Resolved)
            | Some apiKey =>
              if negb (Js.truthy apiKey)
              then (catchRejection false (newError "No API key") s, [], Resolved)
              else
                let config := chatConfig s None in
                let apiMessages := dropLast (Conversation.messages conv) in
                (awaitStreamChat B Continue false env net apiMessages config
                                 apiKey (Message.id lastMessage) s,
                 [ {| call_provider := selectedProvider s;
                      call_messages := apiMessages;
                      call_config := config;
                      call_apiKey := apiKey |} ],
                 Resolved)
            end
      end
  end.

(** [handleNewChat()] *)
Definition handleNewChat (env : Env) (s : State) : State :=
  if Js.truthy (selectedModel s) then
    let newConv :=
      Storage.createNewConversation
        (uuid_conversation env) (now_createdAt env) (now_createdUpdatedAt env)
        (selectedProvider s) (selectedModel s) in
    setError None (setSessionCost 0%Q (setConversation (Some newConv) s))
  else s.

(** [handleSelectConversation(id)] *)
Definition handleSelectConversation (i : string) (s : State) : State :=
  match Storage.getConversation i (storedConversations s) with
  | Some conv =>
      let s := setConversation (Some conv) s in
      let s := setSelectedProvider (Conversation.providerId conv) s in
      let s := setSelectedModel (Conversation.modelId conv) s in
      let s := setSessionCost (totalCostOrZero conv) s in
      setError None s
  | None => s
  end.

(** [handleStop()] *)
Definition handleStop (s : State) : State :=
  setStreamingMessageId None (setIsLoading false (setAbortControllerRef false s)).

(** [{ ...c, pinned: !c.pinned }] *)
Definition togglePinned (c : Conversation.t) : Conversation.t :=
  Conversation.mk
    (Conversation.id c) (Conversation.title c) (Conversation.messages c)
    (Conversation.providerId c) (Conversation.modelId c)
    (Conversation.createdAt c) (Conversation.updatedAt c)
    (Conversation.totalCost c) (Conversation.disableSystemPrompt c)
    (Some (negb (flagSet (Conversation.pinned c)))) (Conversation.groupId c).

(** [handlePinConversation(id)], with storage.ts's
    [togglePinConversation(id)] inlined. *)
Definition handlePinConversation (i : string) (s : State) : State :=
  let s :=
    match Storage.getConversation i (storedConversations s) with
    | Some conv => saveConversation (togglePinned conv) s
    | None => s
    end in
  match conversation s with
  | Some prev =>
      if String.eqb (Conversation.id prev) i
      then setConversation (Some (togglePinned prev)) s
      else s
  | None => s
  end.

(** [handleRenameConversation(id, newTitle)] *)
Definition handleRenameConversation (now : Z) (i newTitle : string)
           (s : State) : State :=
  match Storage.getConversation i (storedConversations s) with
  | Some conv =>
      let updated :=
        Conversation.mk
          (Conversation.id conv) newTitle (Conversation.messages conv)
          (Conversation.providerId conv) (Conversation.modelId conv)
          (Conversation.createdAt conv) now
          (Conversation.totalCost conv) (Conversation.disableSystemPrompt conv)
          (Conversation.pinned conv) (Conversation.groupId conv) in
      let s' := saveConversation updated s in
      match conversation s with
      | Some cur =>
          if String.eqb (Conversation.id cur) i
          then setConversation (Some updated) s'
          else s'
      | None => s'
      end
  | None => s
  end.

(** The user events that reach the handlers of [ChatPage], each with the
    inputs of its run, and the three edits of the stored conversations
    that the sidebar makes through storage.ts. *)
Inductive Action :=
| Send (env : Env) (net : FetchResult) (content : string)
       (attachments : option (list Attachment.t))
| Retry (env : Env) (net : FetchResult) (messageId : string)
| ContinueWithoutSystemPrompt (env : Env) (net : FetchResult)
| NewChat (env : Env)
| SelectConversation (i : string)
| Stop
| PinConversation (i : string)
| RenameConversation (now : Z) (i newTitle : string)
| DeleteConversation (i : string)
| MoveConversationToGroup (i : string) (groupId : option string)
| DeleteGroup (i : string).

Definition step (B : Builtins) (a : Action) (s : State) : State :=
  match a with
  | Send env net content attachments =>
      fst (handleSend B env net content attachments s)
  | Retry env net messageId => fst (handleRetry B env net messageId s)
  | ContinueWithoutSystemPrompt env net =>
      fst (fst (handleContinueWithoutSystemPrompt B env net s))
  | NewChat env => handleNewChat env s
  | SelectConversation i => handleSelectConversation i s
  | Stop => handleStop s
  | PinConversation i => handlePinConversation i s
  | RenameConversation now i newTitle => handleRenameConversation now i newTitle s
  | DeleteConversation i =>
      setStoredConversations
        (Storage.deleteConversation i (storedConversations s)) s
  | MoveConversationToGroup i groupId =>
      setStoredConversations
        (Storage.moveConversationToGroup i groupId (storedConversations s)) s
  | DeleteGroup i =>
      setStoredConversations
        (Storage.deleteGroup i (storedConversations s)) s
  end.

(** A sequence of events, handled one after the other, a request being
    settled before the next event is handled. *)
Definition run (B : Builtins) (actions : list Action) (s : State) : State :=
  fold_left (fun st a => step B a st) actions s.

(** The conversation id a run of the action may mint with [uuidv4()]. *)
Definition mintedConversationId (a : Action) : option string :=
  match a with
  | Send env _ _ _ | NewChat env => Some (uuid_conversation env)
  | _ => None
  end.


(** The state of the model picker: [models], [loadingModels] and
    [modelSearch]. *)
Record Picker := mkPicker {
  models : list Model.t;
  loadingModels : bool;
  modelSearch : string
}.

(** [apiKeys[selectedProvider]] is truthy. *)
Definition hasKey (s : State) : bool :=
  match apiKeys s (selectedProvider s) with
  | Some apiKey => Js.truthy apiKey
  | None => false
  end.

(** [loadModels()] of the effect that follows the provider, run to its
    end with the values of the render that started it; [fetched] is how
    [adapter.fetchModels(apiKey)] settles. *)
Definition loadModels (fetched : JsError + list Model.t) (s : State)
           (p : Picker) : State * Picker :=
  if negb (hasKey s)
  then (setSelectedModel "" s,
        mkPicker [] (loadingModels p) (modelSearch p))
  else
    let s := setError None s in
    match fetched with
    | inr fetchedModels =>
        let s' :=
          match fetchedModels with
          | first :: _ =>
              if negb (Js.truthy (selectedModel s))
              then setSelectedModel (Model.id first) s
              else s
          | [] => s
          end in
        (s', mkPicker fetchedModels false "")
    | inl err =>
        let message :=
          if instanceofError err then err_message err
          else "Unknown error" in
        (setError (Some ("Failed to load models: " ++ message)%string) s,
         mkPicker [] false (modelSearch p))
    end.

(** [canSendMessage] *)
Definition canSendMessage (s : State) (p : Picker) : bool :=
  hasKey s && Js.truthy (selectedModel s) && negb (loadingModels p).

(** The effect that runs once when the page is mounted: the stored keys
    and the stored selection become the page's. *)
Definition mount (keys : Storage.KeysItem) (stored : Storage.PreferencesItem)
           (s : State) : State :=
  let prefs := Storage.getPreferences stored in
  let s :=
    mkState (conversation s) (isLoading s) (streamingMessageId s) (error s)
            (systemPromptWarningOpen s) (selectedProvider s)
            (selectedModel s) (sessionCost s) (Storage.getApiKeys keys)
            (abortControllerRef s) (storedConversations s)
            (preferencesSystemPrompt s) in
  let s := setSelectedProvider (UserPreferences.defaultProvider prefs) s in
  setSelectedModel
    (match UserPreferences.defaultModel prefs with
     | Some m => if Js.truthy m then m else ""
     | None => ""
     end)
    s.

(** The effect that saves the selection, on a mounted page:
    [if (selectedProvider && selectedModel) setPreferences({...})]. *)
Definition saveSelection (s : State) (stored : Storage.PreferencesItem)
  : Storage.PreferencesItem :=
  if Js.truthy (selectedModel s) then
    Storage.setPreferences
      (UserPreferences.mkPartial None (Some (selectedProvider s))
                                 (Some (Some (selectedModel s)))
                                 None None None)
      stored
  else stored.

(** [getPreferences().systemPrompt], as [handleSend] and [handleRetry]
    read it when they run. *)
Definition readSystemPrompt (stored : Storage.PreferencesItem) (s : State)
  : State :=
  mkState (conversation s) (isLoading s) (streamingMessageId s) (error s)
          (systemPromptWarningOpen s) (selectedProvider s)
          (selectedModel s) (sessionCost s) (apiKeys s)
          (abortControllerRef s) (storedConversations s)
          (UserPreferences.systemPrompt (Storage.getPreferences stored)).

(** The dependencies of the effect that loads the models:
    [[selectedProvider, apiKeys[selectedProvider]]] are the same in the
    two renders. *)
Definition sameLoadModelsDeps (s s' : State) : bool :=
  ProviderId_eqb (selectedProvider s) (selectedProvider s')
  && bool_decide (apiKeys s (selectedProvider s)
                  = apiKeys s' (selectedProvider s')).

(** The page once mounted: [mount] from the render [s], and then
    [loadModels] when the mount changed a dependency of its effect (the
    first run of the effect, before the mount, returned at
    [if (!isClient) return]). *)
Definition mounted (keys : Storage.KeysItem)
           (stored : Storage.PreferencesItem)
           (fetched : JsError + list Model.t) (s : State) (p : Picker)
  : State * Picker :=
  let s' := mount keys stored s in
  if sameLoadModelsDeps s s' then (s', p) else loadModels fetched s' p.

(** [handleSaveTempApiKey()] on the stored keys and the page;
    [apiKeyNeededProvider] and [tempApiKey] are the two state variables
    of the key prompt. *)
Definition handleSaveTempApiKey (apiKeyNeededProvider : option ProviderId)
           (tempApiKey : string) (keys : Storage.KeysItem) (s : State)
  : Storage.KeysItem * State :=
  match apiKeyNeededProvider with
  | Some provider =>
      if Js.truthy (Js.trim tempApiKey) then
        let s :=
          mkState (conversation s) (isLoading s) (streamingMessageId s)
                  (error s) (systemPromptWarningOpen s) (selectedProvider s)
                  (selectedModel s) (sessionCost s)
                  (fun p => if ProviderId_eqb p provider
                            then Some (Js.trim tempApiKey)
                            else apiKeys s p)
                  (abortControllerRef s) (storedConversations s)
                  (preferencesSystemPrompt s) in
        (Storage.setApiKey provider (Js.trim tempApiKey) keys,
         setSelectedModel "" (setSelectedProvider provider s))
      else (keys, s)
  | None => (keys, s)
  end.

(** ** Requests in flight

    [await adapter.streamChat(...)] suspends the handler that started
    the request: until the promise settles, the page handles other
    events between the callbacks.  A callback is an updater of the state
    it finds when it fires ([setConversation(prev => ...)],
    [setSessionCost(prev => ...)]); what it closes over are the
    constants of the handler run that started the request.
    [awaitStreamChat] above is the run in which nothing is handled in
    between; [awaitAmong] below is the general one. *)

(** A request: the arguments of [adapter.streamChat], and the other
    constants that the callbacks and the [catch] block close over. *)
Record Request := mkRequest {
  req_call : AdapterCall;
  req_flavour : Flavour;
  req_detectUnsupported : bool;
  req_env : Env;
  req_targetId : string
}.

(** [selectedModel], as the handler run read it: [config.model]. *)
Definition req_model (r : Request) : string :=
  cfg_model (call_config (req_call r)).

(** The synchronous part of [handleSend(content, attachments)], up to
    the call of [adapter.streamChat]: the state it leaves and the request
    it starts, if any. *)
Definition startSend (env : Env) (content : string)
           (attachments : option (list Attachment.t)) (s : State)
  : State * option Request :=
  match apiKeys s (selectedProvider s) with
  | None => (setError (Some configurationError) s, None)
  | Some apiKey =>
    if negb (Js.truthy apiKey) || negb (Js.truthy (selectedModel s))
    then (setError (Some configurationError) s, None)
    else
      let s := setError None s in
      let s := setIsLoading true s in
      let currentConv :=
        match conversation s with
        | Some c => c
        | None =>
            Storage.createNewConversation
              (uuid_conversation env) (now_createdAt env)
              (now_createdUpdatedAt env)
              (selectedProvider s) (selectedModel s)
        end in
      let userMessage :=
        Message.mk (uuid_user env) user content (now_user env)
                   (Some (Storage.estimateTokens content attachments))
                   None None attachments in
      let assistantMessage :=
        placeholder (uuid_assistant env) (now_assistant env) in
      let updatedMessages :=
        Conversation.messages currentConv ++ [userMessage; assistantMessage] in
      let title :=
        if (length (Conversation.messages currentConv) =? 0)%nat
        then Storage.generateConversationTitle content
        else Conversation.title currentConv in
      let updatedConv :=
        Conversation.mk
          (Conversation.id currentConv) title updatedMessages
          (selectedProvider s) (selectedModel s)
          (Conversation.createdAt currentConv) (now_updatedAt env)
          (Conversation.totalCost currentConv)
          (Conversation.disableSystemPrompt currentConv)
          (Conversation.pinned currentConv)
          (Conversation.groupId currentConv) in
      let s := setConversation (Some updatedConv) s in
      let s := saveConversation updatedConv s in
      let s := setStreamingMessageId (Some (Message.id assistantMessage)) s in
      let s := setAbortControllerRef true s in
      let config := chatConfig s (preferencesSystemPrompt s) in
      let apiMessages := dropLast updatedMessages in
      let systemPrompt :=
        chooseSystemPrompt (preferencesSystemPrompt s) sendFallbackPrompt in
      let apiMessages :=
        if negb (flagSet (Conversation.disableSystemPrompt currentConv))
        then systemMessage systemPrompt (now_system env) :: apiMessages
        else apiMessages in
      (s,
       Some (mkRequest {| call_provider := selectedProvider s;
                          call_messages := apiMessages;
                          call_config := config;
                          call_apiKey := apiKey |}
                       SendOrRetry true env (Message.id assistantMessage)))
  end.

(** The synchronous part of [handleRetry(messageId)]. *)
Definition startRetry (env : Env) (messageId : string) (s : State)
  : State * option Request :=
  match retryPrepare env messageId s with
  | (s, None) => (s, None)
  | (s, Some (updatedConv, apiMessagesFull, assistantMessage, apiKey)) =>
      let config := chatConfig s (preferencesSystemPrompt s) in
      let systemPrompt :=
        chooseSystemPrompt (preferencesSystemPrompt s) retryFallbackPrompt in
      let apiMessages :=
        if negb (flagSet (Conversation.disableSystemPrompt updatedConv))
        then systemMessage systemPrompt (now_system env) :: apiMessagesFull
        else apiMessagesFull in
      (s,
       Some (mkRequest {| call_provider := selectedProvider s;
                          call_messages := apiMessages;
                          call_config := config;
                          call_apiKey := apiKey |}
                       SendOrRetry false env (Message.id assistantMessage)))
  end.

(** The synchronous part of [handleContinueWithoutSystemPrompt()]; the
    third component is [Rejected] when the handler throws before it
    reaches the [try]. *)
Definition startContinue (env : Env) (s : State)
  : State * option Request * Settled :=
  let s := setSystemPromptWarningOpen false s in
  match conversation s with
  | None => (s, None, Resolved)
  | Some conv =>
      match last (Conversation.messages conv) with
      | None =>
          (s, None,
           Rejected {| instanceofError := true; err_name := "TypeError";
                       err_message := "lastMessage is undefined" |})
      | Some lastMessage =>
          if negb (Role_eqb (Message.role lastMessage) assistant)
          then (s, None, Resolved)
          else
            let s := setIsLoading true s in
            let s := setStreamingMessageId (Some (Message.id lastMessage)) s in
            let s := setAbortControllerRef true s in
            let s := setError None s in
            match apiKeys s (selectedProvider s) with
            | None =>
                (catchRejection false (newError "No API key") s, None,
                 Resolved)
            | Some apiKey =>
              if negb (Js.truthy apiKey)
              then (catchRejection false (newError "No API key") s, None,
                    Resolved)
              else
                let config := chatConfig s None in
                let apiMessages := dropLast (Conversation.messages conv) in
                (s,
                 Some (mkRequest {| call_provider := selectedProvider s;
                                    call_messages := apiMessages;
                                    call_config := config;
                                    call_apiKey := apiKey |}
                                 Continue false env (Message.id lastMessage)),
                 Resolved)
            end
      end
  end.

(** What the page handles while a request is in flight: the handler of a
    user event, run to its end or, for the three that start a request, to
    the [await] that suspends them (what the network answers plays no
    part in that); a callback of a request, [fullResponse] being the
    variable of its handler run before the call; or the [catch] block of
    a request whose promise is rejected. *)
Inductive Event :=
| Starts (a : Action)
| Fires (r : Request) (fullResponse : string) (ev : CallbackEvent)
| Catches (r : Request) (err : JsError).

Definition starts (a : Action) (s : State) : State :=
  match a with
  | Send env _ content attachments =>
      fst (startSend env content attachments s)
  | Retry env _ messageId => fst (startRetry env messageId s)
  | ContinueWithoutSystemPrompt env _ => fst (fst (startContinue env s))
  | NewChat env => handleNewChat env s
  | SelectConversation i => handleSelectConversation i s
  | Stop => handleStop s
  | PinConversation i => handlePinConversation i s
  | RenameConversation now i newTitle => handleRenameConversation now i newTitle s
  | DeleteConversation i =>
      setStoredConversations
        (Storage.deleteConversation i (storedConversations s)) s
  | MoveConversationToGroup i groupId =>
      setStoredConversations
        (Storage.moveConversationToGroup i groupId (storedConversations s)) s
  | DeleteGroup i =>
      setStoredConversations
        (Storage.deleteGroup i (storedConversations s)) s
  end.

(** One callback of request [r], on the state it finds. *)
Definition fires (r : Request) (fullResponse : string) (ev : CallbackEvent)
           (s : State) : State :=
  let adapter := getAdapter (call_provider (req_call r)) in
  match ev with
  | OnToken token =>
      onToken (req_flavour r) (req_targetId r) (fullResponse ++ token)%string s
  | OnComplete response =>
      onComplete (req_flavour r) adapter (req_env r)
                 (call_messages (req_call r)) (req_model r) (req_targetId r)
                 response s
  | OnError err => onError err s
  end.

Definition handle (e : Event) (s : State) : State :=
  match e with
  | Starts a => starts a s
  | Fires r fullResponse ev => fires r fullResponse ev s
  | Catches r err => catchRejection (req_detectUnsupported r) err s
  end.

Definition handleAll (es : list Event) (s : State) : State :=
  fold_left (fun st e => handle e st) es s.

(** The callbacks of request [r] as the adapter invokes them, each after
    the events the page has handled since the previous one: [gaps] lists
    them, one list per callback, and none once it runs out.  The result
    is the state with the gaps not used. *)
Fixpoint deliverAmong (r : Request) (gaps : list (list Event))
         (events : list CallbackEvent) (fullResponse : string) (s : State)
  : State * list (list Event) :=
  match events with
  | [] => (s, gaps)
  | ev :: rest =>
      let s := handleAll (hd [] gaps) s in
      let fullResponse' :=
        match ev with
        | OnToken token => (fullResponse ++ token)%string
        | _ => fullResponse
        end in
      deliverAmong r (tl gaps) rest fullResponse' (fires r fullResponse ev s)
  end.

(** [await adapter.streamChat(...)] inside [try]/[catch], from the call
    to the moment the promise settles.  A rejection comes after an
    [await] of the adapter, as a callback does, so the [catch] block too
    follows a gap. *)
Definition awaitAmong (B : Builtins) (net : FetchResult)
           (gaps : list (list Event)) (r : Request) (s : State) : State :=
  let call := req_call r in
  let '(events, settled) :=
    streamChat (getAdapter (call_provider call)) B (call_messages call)
               (call_config call) (call_apiKey call) net in
  let '(s, gaps) := deliverAmong r gaps events "" s in
  match settled with
  | Resolved => s
  | Rejected err =>
      catchRejection (req_detectUnsupported r) err (handleAll (hd [] gaps) s)
  end.

(** [handleSend], [handleRetry] and [handleContinueWithoutSystemPrompt]
    with what the page handles while their request is in flight. *)
Definition handleSendAmong (B : Builtins) (env : Env) (net : FetchResult)
           (gaps : list (list Event)) (content : string)
           (attachments : option (list Attachment.t)) (s : State)
  : State * list AdapterCall :=
  match startSend env content attachments s with
  | (s, Some r) => (awaitAmong B net gaps r s, [req_call r])
  | (s, None) => (s, [])
  end.

Definition handleRetryAmong (B : Builtins) (env : Env) (net : FetchResult)
           (gaps : list (list Event)) (messageId : string) (s : State)
  : State * list AdapterCall :=
  match startRetry env messageId s with
  | (s, Some r) => (awaitAmong B net gaps r s, [req_call r])
  | (s, None) => (s, [])
  end.

Definition handleContinueWithoutSystemPromptAmong (B : Builtins) (env : Env)
           (net : FetchResult) (gaps : list (list Event)) (s : State)
  : State * list AdapterCall * Settled :=
  match startContinue env s with
  | (s, Some r, settled) => (awaitAmong B net gaps r s, [req_call r], settled)
  | (s, None, settled) => (s, [], settled)
  end.

End Page.

(* ===================================================================== *)
(** * components: the callers of the handlers *)
(* ===================================================================== *)

(** chat-input.tsx *)
Module ChatInput.

(** The component's own state. *)
Record State := mkState {
  message : string;
  attachments : list Attachment.t;
  isUploading : bool
}.

(** [handleSubmit()]: the arguments [onSend] is called with, if it is
    called, and the state afterwards.  [isLoading] and [disabled] are the
    props. *)
Definition handleSubmit (isLoading disabled : bool) (st : State)
  : option (string * option (list Attachment.t)) * State :=
  if (negb (Js.truthy (Js.trim (message st)))
      && (length (attachments st) =? 0)%nat)
     || isLoading || disabled || isUploading st
  then (None, st)
  else
    (Some (Js.trim (message st),
           if (0 <? length (attachments st))%nat
           then Some (attachments st) else None),
     mkState "" [] (isUploading st)).

(** A [File] of the input element, with what the environment answers for
    it: the result of [fileToBase64] ([None] when the read fails) and of
    the [uuidv4()] call made for it. *)
Record File := {
  file_name : string;
  file_type : string;
  file_size : Z;
  file_dataUrl : option string;
  file_uuid : string
}.

Definition maxFileSize : Z := 20 * 1024 * 1024.

(** The body of the [for] loop: what one file appends to
    [newAttachments]. *)
Definition attachmentsOf (file : File) : list Attachment.t :=
  if (maxFileSize <? file_size file)%Z then []
  else
    match file_dataUrl file with
    | Some base64 =>
        [ Attachment.mk (file_uuid file)
            (if Js.startsWith (file_type file) "image/" then "image"
             else "file")
            (file_name file) (file_type file) (file_size file) base64 ]
    | None => []
    end.

(** [handleFileSelect(e)]; [files] is [None] for a null [e.target.files]. *)
Definition handleFileSelect (files : option (list File)) (st : State)
  : State :=
  match files with
  | None | Some [] => st
  | Some files =>
      let newAttachments := flat_map attachmentsOf files in
      mkState (message st) (attachments st ++ newAttachments) false
  end.

End ChatInput.

(** sidebar.tsx *)
Module Sidebar.

(** [c.groupId] is truthy. *)
Definition grouped (c : Conversation.t) : bool :=
  match Conversation.groupId c with
  | Some g => Js.truthy g
  | None => false
  end.

(** [conversations.filter(c => c.pinned && !c.groupId)] *)
Definition pinnedConversations (conversations : list Conversation.t)
  : list Conversation.t :=
  List.filter (fun c => Page.flagSet (Conversation.pinned c)
                        && negb (grouped c))
              conversations.

(** [conversations.filter(c => !c.pinned && !c.groupId)] *)
Definition unpinnedConversations (conversations : list Conversation.t)
  : list Conversation.t :=
  List.filter (fun c => negb (Page.flagSet (Conversation.pinned c))
                        && negb (grouped c))
              conversations.

(** [conversationsByGroup[group.id]], as [renderGroupItem] reads it. *)
Definition groupConversations (conversations : list Conversation.t)
           (group : ChatGroup.t) : list Conversation.t :=
  List.filter (Storage.inGroup (ChatGroup.id group)) conversations.

(** [group.collapsed] is truthy. *)
Definition isCollapsed (group : ChatGroup.t) : bool :=
  Page.flagSet (ChatGroup.collapsed group).

(** The conversation items [renderGroupItem(group)] renders under the
    header of the group: those of the group, unless it is collapsed. *)
Definition renderGroupItem (conversations : list Conversation.t)
           (group : ChatGroup.t) : list Conversation.t :=
  if negb (isCollapsed group) then groupConversations conversations group
  else [].

(** The conversation items the sidebar renders, in the order of its
    sections: Pinned, the groups, Others.  [groups] and [conversations]
    are the component's state: it reads them from the store when the
    open conversation or [lastUpdated] changes and again after each of
    its own edits. *)
Definition listed (groups : list ChatGroup.t)
           (conversations : list Conversation.t) : list Conversation.t :=
  pinnedConversations conversations
  ++ concat (map (renderGroupItem conversations) groups)
  ++ unpinnedConversations conversations.

(** [props.currentConversationId === id] *)
Definition isCurrent (i : string) (s : Page.State) : bool :=
  match Page.conversation s with
  | Some c => String.eqb (Conversation.id c) i
  | None => false
  end.

(** [confirmClearAll()] *)
Definition confirmClearAll (env : Page.Env) (s : Page.State) : Page.State :=
  let all := Storage.getConversations (Page.storedConversations s) in
  let stored :=
    fold_left (fun st c => Storage.deleteConversation (Conversation.id c) st)
              all (Page.storedConversations s) in
  Page.handleNewChat env (Page.setStoredConversations stored s).

(** [saveEdit()]: the call of [onRename], if any. *)
Definition saveEdit (now : Z) (editingId : option string)
           (editTitle : string) (s : Page.State) : Page.State :=
  match editingId with
  | Some i =>
      if Js.truthy i && Js.truthy (Js.trim editTitle)
      then Page.handleRenameConversation now i (Js.trim editTitle) s
      else s
  | None => s
  end.

(** The two [localStorage] items the sidebar edits through storage.ts. *)
Record Store := mkStore {
  groups : Storage.GroupsItem;
  conversations : Storage.Item
}.

(** The edits of groups and conversations the sidebar offers:
    [handleCreateGroup], [handleRenameGroup], [handleToggleGroup],
    [handleMoveToGroup], [confirmDeleteGroup] and the storage part of
    [confirmDelete]. *)
Inductive Edit :=
| CreateGroup (uuid : string) (now : Z)
| RenameGroup (i title : string)
| ToggleGroup (i : string)
| MoveToGroup (i : string) (groupId : option string)
| DeleteGroup (i : string)
| DeleteConversation (i : string).

Definition edit (e : Edit) (st : Store) : Store :=
  match e with
  | CreateGroup uuid now =>
      mkStore (snd (Storage.createGroup uuid now "New Group" (groups st)))
              (conversations st)
  | RenameGroup i title =>
      mkStore (Storage.renameGroup i title (groups st)) (conversations st)
  | ToggleGroup i =>
      mkStore (Storage.toggleGroupCollapse i (groups st)) (conversations st)
  | MoveToGroup i groupId =>
      mkStore (groups st)
              (Storage.moveConversationToGroup i groupId (conversations st))
  | DeleteGroup i =>
      if Js.truthy i
      then mkStore (Storage.deleteGroupEntry i (groups st))
                   (Storage.deleteGroup i (conversations st))
      else st
  | DeleteConversation i =>
      if Js.truthy i
      then mkStore (groups st)
                   (Storage.deleteConversation i (conversations st))
      else st
  end.

End Sidebar.

(** settings-dialog.tsx *)
Module SettingsDialog.

(** [handleSave(providerId)] on the stored keys; [key] is
    [editingKeys[providerId]]. *)
Definition handleSave (providerId : ProviderId) (key : option string)
           (stored : Storage.KeysItem) : Storage.KeysItem :=
  match key with
  | Some key =>
      if Js.truthy (Js.trim key)
      then Storage.setApiKey providerId (Js.trim key) stored
      else Storage.removeApiKey providerId stored
  | None => stored
  end.

(** [handleSaveSystemPrompt()], with the text of the dialog's field. *)
Definition handleSaveSystemPrompt (systemPrompt : string)
           (stored : Storage.PreferencesItem) : Storage.PreferencesItem :=
  Storage.setPreferences
    (UserPreferences.mkPartial None None None (Some (Some systemPrompt))
                               None None)
    stored.

End SettingsDialog.


(* ===================================================================== *)
(** * Vocabulary of the properties *)
(* ===================================================================== *)

Module Spec.

(** The pricing lookup as the specification words it: the first table key
    that the model id contains, else the fallback.  It is compared with
    the adapters' [getModelPricing] below. *)
Fixpoint lookupByContainment (table : list (string * Pricing))
         (modelId : string) (fallback : Pricing) : Pricing :=
  match table with
  | [] => fallback
  | (key, pricing) :: rest =>
      if Js.includes modelId key then pricing
      else lookupByContainment rest modelId fallback
  end.

(** [FirstMatch test fallback table tier]: [tier] belongs to the first
    entry of [table] whose key passes [test], or is [fallback] when no key
    does. *)
Inductive FirstMatch (test : string -> bool) (fallback : Pricing)
  : list (string * Pricing) -> Pricing -> Prop :=
| FirstMatch_none : FirstMatch test fallback [] fallback
| FirstMatch_here key pricing rest :
    test key = true ->
    FirstMatch test fallback ((key, pricing) :: rest) pricing
| FirstMatch_later key pricing rest tier :
    test key = false ->
    FirstMatch test fallback rest tier ->
    FirstMatch test fallback ((key, pricing) :: rest) tier.

(** The static table of each adapter (OpenRouter has none). *)
Definition pricingTable (p : ProviderId) : list (string * Pricing) :=
  match p with
  | gemini => Gemini.GEMINI_PRICING
  | anthropic => Anthropic.ANTHROPIC_PRICING
  | openai => Openai.OPENAI_PRICING
  | xai => Xai.XAI_PRICING
  | groq => Groq.GROQ_PRICING
  | openrouter => []
  end.

Definition fallbackTier (p : ProviderId) : Pricing :=
  match p with
  | gemini => Gemini.fallback
  | anthropic => Anthropic.fallback
  | openai => Openai.fallback
  | xai => Xai.fallback
  | groq => Groq.fallback
  | openrouter => {| input := 1.0; output := 2.0 |}
  end.

(** What each adapter looks for inside the lower-cased model id. *)
Definition normalizedKey (p : ProviderId) (key : string) : string :=
  match p with
  | gemini => Js.replace (Js.toLowerCase key) "gemini-" ""
  | anthropic => Js.replace key "claude-" ""
  | _ => Js.toLowerCase key
  end.

(** The tier [estimateCost] of the adapter prices a model id with. *)
Definition tierOf (p : ProviderId) (modelId : string) : Pricing :=
  match p with
  | gemini => Gemini.getModelPricing modelId
  | anthropic => Anthropic.getModelPricing modelId
  | openai => Openai.getModelPricing modelId
  | xai => Xai.getModelPricing modelId
  | groq => Groq.getModelPricing modelId
  | openrouter => {| input := 1.0; output := 2.0 |}
  end.

(** The path of the token text in each adapter's events. *)
Definition tokenPathOf (p : ProviderId) : JsValue -> option JsValue :=
  match p with
  | gemini => Gemini.tokenPath
  | anthropic => Anthropic.tokenPath
  | _ => Provider.openaiTokenPath
  end.

(** The label each adapter puts before the response text in the message
    of the error it throws on a non-success status. *)
Definition apiErrorLabel (p : ProviderId) : string :=
  match p with
  | gemini => "Gemini API error: "
  | anthropic => "Anthropic API error: "
  | openai => "OpenAI API error: "
  | xai => "xAI API error: "
  | groq => "Groq API error: "
  | openrouter => "OpenRouter API error: "
  end.

Definition isOnComplete (ev : CallbackEvent) : bool :=
  match ev with OnComplete _ => true | _ => false end.

Definition isOnError (ev : CallbackEvent) : bool :=
  match ev with OnError _ => true | _ => false end.


Definition count (which : CallbackEvent -> bool) (trace : list CallbackEvent)
  : nat :=
  length (List.filter which trace).

(** The texts handed to [onToken], joined. *)
Definition joined (tokens : list string) : string :=
  String.concat "" tokens.

(** No message of the list has the [system] role. *)
Definition noSystemMessage (ms : list Message.t) : Prop :=
  Forall (fun m => Message.role m <> system) ms.

(** The conversations the page can read: the current one, and what
    [getConversation] finds in the store. *)
Definition readable (s : Page.State) (c : Conversation.t) : Prop :=
  Page.conversation s = Some c
  \/ exists i, Storage.getConversation i (Page.storedConversations s) = Some c.

Definition everywhere (P : Conversation.t -> Prop) (s : Page.State) : Prop :=
  forall c, readable s c -> P c.

(** [c], if it is the conversation [X], has [disableSystemPrompt = true]. *)
Definition flaggedConv (X : string) (c : Conversation.t) : Prop :=
  Conversation.id c = X -> Conversation.disableSystemPrompt c = Some true.

(** The conversation [X] carries the flag wherever the page reads it. *)
Definition flagged (X : string) : Page.State -> Prop :=
  everywhere (flaggedConv X).

(** No conversation the page reads holds a [system] message. *)
Definition systemFree : Page.State -> Prop :=
  everywhere (fun c => noSystemMessage (Conversation.messages c)).

(** The ways in which the handlers derive a conversation from one they
    read, as closure conditions on a property [P] of conversations:
    filling in messages (the streaming callbacks), appending the user
    message and the placeholder (Send), truncating and appending a
    placeholder (Retry), and editing title, pin, group or timestamps. *)
Record Closed (P : Conversation.t -> Prop) : Prop := {
  closed_fill :
    forall prev g cost flag,
      P prev ->
      (forall m, Message.role (g m) = Message.role m) ->
      flag = Conversation.disableSystemPrompt prev \/ flag = Some true ->
      P (Conversation.mk
           (Conversation.id prev) (Conversation.title prev)
           (map g (Conversation.messages prev))
           (Conversation.providerId prev) (Conversation.modelId prev)
           (Conversation.createdAt prev) (Conversation.updatedAt prev)
           cost flag (Conversation.pinned prev) (Conversation.groupId prev));
  closed_append :
    forall c title u a provider model updated,
      P c ->
      Message.role u <> system -> Message.role a <> system ->
      P (Conversation.mk
           (Conversation.id c) title (Conversation.messages c ++ [u; a])
           provider model (Conversation.createdAt c) updated
           (Conversation.totalCost c) (Conversation.disableSystemPrompt c)
           (Conversation.pinned c) (Conversation.groupId c));
  closed_truncate :
    forall c n a updated,
      P c ->
      Message.role a <> system ->
      P (Conversation.mk
           (Conversation.id c) (Conversation.title c)
           (take n (Conversation.messages c) ++ [a])
           (Conversation.providerId c) (Conversation.modelId c)
           (Conversation.createdAt c) updated
           (Conversation.totalCost c) (Conversation.disableSystemPrompt c)
           (Conversation.pinned c) (Conversation.groupId c));
  closed_meta :
    forall c title updated pin group,
      P c ->
      P (Conversation.mk
           (Conversation.id c) title (Conversation.messages c)
           (Conversation.providerId c) (Conversation.modelId c)
           (Conversation.createdAt c) updated
           (Conversation.totalCost c) (Conversation.disableSystemPrompt c)
           pin group)
}.

(** The conversations an action creates with a fresh id satisfy [P]. *)
Definition mintedOk (P : Conversation.t -> Prop) (a : Page.Action) : Prop :=
  match a with
  | Page.Send env _ _ _ | Page.NewChat env =>
      forall provider model,
        P (Storage.createNewConversation
             (Page.uuid_conversation env) (Page.now_createdAt env)
             (Page.now_createdUpdatedAt env) provider model)
  | _ => True
  end.

(** Both prices of a tier are non-negative. *)
Definition nonnegTier (tier : Pricing) : Prop :=
  (0 <= input tier)%Q /\ (0 <= output tier)%Q.

(** [c'] is [c] with some of its messages filled in: same conversation id,
    same message ids in the same order. *)
Definition sameIds (c c' : Conversation.t) : Prop :=
  Conversation.id c' = Conversation.id c
  /\ Message.id <$> Conversation.messages c'
     = Message.id <$> Conversation.messages c.

(** The store has an entry for the id [X]. *)
Definition isSaved (X : string) (s : Page.State) : Prop :=
  is_Some (Storage.getConversation X (Page.storedConversations s)).


(** Every group reference resolves: the group ids are distinct and not
    empty, and a conversation with a truthy [groupId] names a stored
    group. *)
Definition wellGrouped (st : Sidebar.Store) : Prop :=
  let ids := ChatGroup.id <$> Storage.getGroups (Sidebar.groups st) in
  NoDup ids
  /\ Forall (fun x => Js.truthy x = true) ids
  /\ Forall (fun c => Sidebar.grouped c = true ->
                      exists x, Conversation.groupId c = Some x /\ x ∈ ids)
            (Storage.getConversations (Sidebar.conversations st)).

(** The conversation belongs to a collapsed group of the list. *)
Definition folded (groups : list ChatGroup.t) (c : Conversation.t) : bool :=
  existsb (fun g => Sidebar.isCollapsed g
                    && Storage.inGroup (ChatGroup.id g) c)
          groups.

(** What the sidebar guarantees of an edit: a new group gets a fresh,
    non-empty id, and the context menu offers only stored groups as
    targets of a move. *)
Definition editOk (e : Sidebar.Edit) (st : Sidebar.Store) : Prop :=
  let ids := ChatGroup.id <$> Storage.getGroups (Sidebar.groups st) in
  match e with
  | Sidebar.CreateGroup uuid _ => Js.truthy uuid = true /\ uuid ∉ ids
  | Sidebar.MoveToGroup _ (Some g) => g ∈ ids
  | _ => True
  end.

Fixpoint editsOk (es : list Sidebar.Edit) (st : Sidebar.Store) : Prop :=
  match es with
  | [] => True
  | e :: rest => editOk e st /\ editsOk rest (Sidebar.edit e st)
  end.

(** The parts of a chat message whose [content] is an array. *)
Definition contentParts (v : JsValue) : list JsValue :=
  match JsValue.getOpt v "content" with
  | JArray parts => parts
  | _ => []
  end.

(** The [url] of an [image_url] part. *)
Definition imageUrlOf (part : JsValue) : option string :=
  if JsValue.isString (JsValue.getOpt part "type") "image_url" then
    match JsValue.getOpt (JsValue.getOpt part "image_url") "url" with
    | JString u => Some u
    | _ => None
    end
  else None.

(** The image URLs a chat message carries, in order. *)
Definition imageUrls (v : JsValue) : list string :=
  omap imageUrlOf (contentParts v).

(** The [text] of a [text] part. *)
Definition textOf (part : JsValue) : option string :=
  if JsValue.isString (JsValue.getOpt part "type") "text" then
    match JsValue.getOpt part "text" with
    | JString t => Some t
    | _ => None
    end
  else None.

(** The text a chat message carries: its string [content], or the texts
    of its [text] parts. *)
Definition textsOf (v : JsValue) : list string :=
  match JsValue.getOpt v "content" with
  | JString t => [t]
  | JArray parts => omap textOf parts
  | _ => []
  end.

(** [att.type === 'image'] *)
Definition isImage (att : Attachment.t) : bool :=
  String.eqb (Attachment.type att) "image".

(** [msg.attachments || []] *)
Definition attachmentsOf (msg : Message.t) : list Attachment.t :=
  match Message.attachments msg with
  | Some atts => atts
  | None => []
  end.

(** A part is a [document] block. *)
Definition isDocumentBlock (part : JsValue) : bool :=
  JsValue.isString (JsValue.getOpt part "type") "document".

(** Every character of [s] passes [p]. *)
Fixpoint allChars (p : ascii -> bool) (s : string) : bool :=
  match s with
  | EmptyString => true
  | String c rest => p c && allChars p rest
  end.

(** A MIME type as a data URL spells it: no comma, no semicolon, no line
    terminator, and not empty. *)
Definition plainMime (mime : string) : bool :=
  Js.truthy mime
  && allChars (fun c => negb (Ascii.eqb c ",") && negb (Ascii.eqb c ";")
                        && negb (Js.isLineTerminator c)) mime.

(** A catalog lists each model under the adapter's provider id and with
    prices, and [estimateCost] of that adapter charges the listed prices
    for the model's id. *)
Definition catalogOk (p : ProviderId) (result : JsError + list Model.t)
  : Prop :=
  match result with
  | inl _ => True
  | inr models =>
      Forall (fun m =>
                Model.providerId m = p
                /\ exists listed,
                     Model.pricing m = Some listed
                     /\ forall i o : Q,
                          estimateCost (getAdapter p) i o (Model.id m)
                          = Storage.calculateCost i o (input listed)
                                                  (output listed))
             models
  end.

(** The data URL of a file that becomes an image attachment: the file is
    not over the size limit, its MIME type is an image type, and it could
    be read. *)
Definition pickedImage (file : ChatInput.File) : option string :=
  if (ChatInput.file_size file <=? ChatInput.maxFileSize)%Z
     && Js.startsWith (ChatInput.file_type file) "image/"
  then ChatInput.file_dataUrl file
  else None.

(** [a.mimeType === 'application/pdf'] *)
Definition isPdf (att : Attachment.t) : bool :=
  String.eqb (Attachment.mimeType att) "application/pdf".

(** [currentConv] of [handleSend]: the open conversation, or a new one. *)
Definition currentConv (env : Page.Env) (s : Page.State) : Conversation.t :=
  match Page.conversation s with
  | Some c => c
  | None =>
      Storage.createNewConversation
        (Page.uuid_conversation env) (Page.now_createdAt env)
        (Page.now_createdUpdatedAt env)
        (Page.selectedProvider s) (Page.selectedModel s)
  end.

(** The user message [handleSend] appends. *)
Definition userMessage (env : Page.Env) (content : string)
           (attachments : option (list Attachment.t)) : Message.t :=
  Message.mk (Page.uuid_user env) user content (Page.now_user env)
             (Some (Storage.estimateTokens content attachments))
             None None attachments.

(** The system prompt Send chooses. *)
Definition sendPrompt (s : Page.State) : string :=
  Page.chooseSystemPrompt (Page.preferencesSystemPrompt s)
                          Page.sendFallbackPrompt.

(** What Send puts in front of the outbound messages of [c]. *)
Definition systemPrefix (env : Page.Env) (s : Page.State)
           (c : Conversation.t) : list Message.t :=
  if Page.flagSet (Conversation.disableSystemPrompt c) then []
  else [Page.systemMessage (sendPrompt s) (Page.now_system env)].

(** A key for the selected provider and a selected model. *)
Definition configured (s : Page.State) : Prop :=
  Page.hasKey s = true /\ Js.truthy (Page.selectedModel s) = true.





(** [{ ...c, messages, totalCost, disableSystemPrompt }] *)
Definition rebuild (c : Conversation.t) (messages : list Message.t)
           (cost : option Q) (flag : option bool) : Conversation.t :=
  Conversation.mk (Conversation.id c) (Conversation.title c) messages
                  (Conversation.providerId c) (Conversation.modelId c)
                  (Conversation.createdAt c) (Conversation.updatedAt c)
                  cost flag (Conversation.pinned c) (Conversation.groupId c).

(** [m => m.id === targetId ? g(m) : m] *)
Definition fill (targetId : string) (g : Message.t -> Message.t)
           (m : Message.t) : Message.t :=
  if String.eqb (Message.id m) targetId then g m else m.

(** [updatedConv] of [handleSend]. *)
Definition sendConversation (env : Page.Env) (content : string)
           (attachments : option (list Attachment.t)) (s : Page.State)
  : Conversation.t :=
  let c := currentConv env s in
  Conversation.mk
    (Conversation.id c)
    (if (length (Conversation.messages c) =? 0)%nat
     then Storage.generateConversationTitle content
     else Conversation.title c)
    (Conversation.messages c
     ++ [userMessage env content attachments;
         Page.placeholder (Page.uuid_assistant env) (Page.now_assistant env)])
    (Page.selectedProvider s) (Page.selectedModel s)
    (Conversation.createdAt c) (Page.now_updatedAt env)
    (Conversation.totalCost c) (Conversation.disableSystemPrompt c)
    (Conversation.pinned c) (Conversation.groupId c).

(** The state in which [handleSend] calls the adapter. *)
Definition sendPrepared (env : Page.Env) (content : string)
           (attachments : option (list Attachment.t)) (s : Page.State)
  : Page.State :=
  let updatedConv := sendConversation env content attachments s in
  Page.setAbortControllerRef true
    (Page.setStreamingMessageId (Some (Page.uuid_assistant env))
       (Page.saveConversation updatedConv
          (Page.setConversation (Some updatedConv)
             (Page.setIsLoading true (Page.setError None s))))).

(** The messages [handleSend] hands to the adapter. *)
Definition sendMessages (env : Page.Env) (content : string)
           (attachments : option (list Attachment.t)) (s : Page.State)
  : list Message.t :=
  let c := currentConv env s in
  systemPrefix env s c ++ Conversation.messages c
  ++ [userMessage env content attachments].

(** [inputTokens] of the callbacks of Send and Retry. *)
Definition inputTokens (apiMessages : list Message.t) : Z :=
  fold_left
    (fun acc m =>
       (acc + Storage.estimateTokens (Message.content m)
                                     (Message.attachments m))%Z)
    apiMessages 0%Z.

(** [cost] of [onComplete] in Send and Retry. *)
Definition costOf (s : Page.State) (apiMessages : list Message.t)
           (response : string) : Q :=
  estimateCost (getAdapter (Page.selectedProvider s))
               (inject_Z (inputTokens apiMessages))
               (inject_Z (Storage.estimateTokens response None))
               (Page.selectedModel s).

(** The assistant message [onComplete] leaves in place of the
    placeholder. *)
Definition answer (env : Page.Env) (s : Page.State) (response : string)
  : Message.t :=
  Message.mk (Page.uuid_assistant env) assistant response
             (Page.now_assistant env)
             (Some (Storage.estimateTokens response None))
             (Some (inject_Z (Page.endTime env - Page.startTime env) / 1000)%Q)
             (Some (Page.selectedModel s)) None.

(** [cost] of [onComplete], for the callbacks of either flavour. *)
Definition completionCost (f : Page.Flavour) (adapter : ProviderAdapter)
           (apiMessages : list Message.t) (model response : string) : Q :=
  estimateCost adapter
    (inject_Z (fold_left (fun acc m => (acc + Page.inputTokensOf f m)%Z)
                         apiMessages 0%Z))
    (inject_Z (Storage.estimateTokens response None)) model.

(** What Retry puts in front of the outbound messages of [c]. *)
Definition retryPrefix (env : Page.Env) (s : Page.State)
           (c : Conversation.t) : list Message.t :=
  if Page.flagSet (Conversation.disableSystemPrompt c) then []
  else [Page.systemMessage
          (Page.chooseSystemPrompt (Page.preferencesSystemPrompt s)
                                   Page.retryFallbackPrompt)
          (Page.now_system env)].

(** [updatedConv] of [handleRetry] for the message at [index]. *)
Definition retryConversation (env : Page.Env) (conv : Conversation.t)
           (index : nat) : Conversation.t :=
  Conversation.mk
    (Conversation.id conv) (Conversation.title conv)
    (take (index + 1) (Conversation.messages conv)
     ++ [Page.placeholder (Page.uuid_assistant env) (Page.now_assistant env)])
    (Conversation.providerId conv) (Conversation.modelId conv)
    (Conversation.createdAt conv) (Page.now_updatedAt env)
    (Conversation.totalCost conv) (Conversation.disableSystemPrompt conv)
    (Conversation.pinned conv) (Conversation.groupId conv).

(** The state in which [handleRetry] calls the adapter. *)
Definition retryPrepared (env : Page.Env) (conv : Conversation.t)
           (index : nat) (s : Page.State) : Page.State :=
  let updatedConv := retryConversation env conv index in
  Page.setAbortControllerRef true
    (Page.setStreamingMessageId (Some (Page.uuid_assistant env))
       (Page.saveConversation updatedConv
          (Page.setConversation (Some updatedConv)
             (Page.setIsLoading true (Page.setError None s))))).



(** An event that leaves conversation [X] alone, in the page and in the
    store: Stop, and the pin, the rename, the deletion or the move of
    another conversation. *)
Definition quiet (X : string) (e : Page.Event) : bool :=
  match e with
  | Page.Starts Page.Stop => true
  | Page.Starts (Page.PinConversation i)
  | Page.Starts (Page.RenameConversation _ i _)
  | Page.Starts (Page.DeleteConversation i)
  | Page.Starts (Page.MoveConversationToGroup i _) => negb (String.eqb i X)
  | _ => false
  end.

(** Every event of every gap leaves conversation [X] alone. *)
Definition undisturbed (X : string) (gaps : list (list Page.Event)) : Prop :=
  Forall (Forall (fun e => quiet X e = true)) gaps.

(** The conversation [X] is the open one. *)
Definition opened (X : string) (s : Page.State) : Prop :=
  exists c, Page.conversation s = Some c /\ Conversation.id c = X.

(** Two states agree on what a request reads and reports: on everything
    but the loading flags, the abort controller and the stored
    conversations other than [X]. *)
Definition alike (X : string) (s1 s2 : Page.State) : Prop :=
  Page.conversation s1 = Page.conversation s2
  /\ Page.error s1 = Page.error s2
  /\ Page.systemPromptWarningOpen s1 = Page.systemPromptWarningOpen s2
  /\ Page.selectedProvider s1 = Page.selectedProvider s2
  /\ Page.selectedModel s1 = Page.selectedModel s2
  /\ Page.sessionCost s1 = Page.sessionCost s2
  /\ Page.apiKeys s1 = Page.apiKeys s2
  /\ Page.preferencesSystemPrompt s1 = Page.preferencesSystemPrompt s2
  /\ Storage.getConversation X (Page.storedConversations s1)
     = Storage.getConversation X (Page.storedConversations s2).

(** The request of a Send that passed the configuration check. *)
Definition sendRequest (env : Page.Env) (content : string)
           (attachments : option (list Attachment.t)) (s : Page.State)
           (apiKey : string) : Page.Request :=
  Page.mkRequest
    {| Page.call_provider := Page.selectedProvider s;
       Page.call_messages := sendMessages env content attachments s;
       Page.call_config := Page.chatConfig s (Page.preferencesSystemPrompt s);
       Page.call_apiKey := apiKey |}
    Page.SendOrRetry true env (Page.uuid_assistant env).

(** The request of a Retry of the message at [index] that passed the
    early returns. *)
Definition retryRequest (env : Page.Env) (s : Page.State)
           (conv : Conversation.t) (index : nat) (apiKey : string)
  : Page.Request :=
  Page.mkRequest
    {| Page.call_provider := Page.selectedProvider s;
       Page.call_messages :=
         retryPrefix env s conv
         ++ take (index + 1) (Conversation.messages conv);
       Page.call_config := Page.chatConfig s (Page.preferencesSystemPrompt s);
       Page.call_apiKey := apiKey |}
    Page.SendOrRetry false env (Page.uuid_assistant env).

(** The state in which Continue calls the adapter. *)
Definition continuePrepared (lastMessage : Message.t) (s : Page.State)
  : Page.State :=
  Page.setError None
    (Page.setAbortControllerRef true
       (Page.setStreamingMessageId (Some (Message.id lastMessage))
          (Page.setIsLoading true
             (Page.setSystemPromptWarningOpen false s)))).

(** The request of a Continue on conversation [conv], whose last message
    is [lastMessage]. *)
Definition continueRequest (env : Page.Env) (s : Page.State)
           (conv : Conversation.t) (lastMessage : Message.t)
           (apiKey : string) : Page.Request :=
  Page.mkRequest
    {| Page.call_provider := Page.selectedProvider s;
       Page.call_messages := Page.dropLast (Conversation.messages conv);
       Page.call_config := Page.chatConfig s None;
       Page.call_apiKey := apiKey |}
    Page.Continue false env (Message.id lastMessage).

End Spec.

(* ===================================================================== *)
(** * Sample inputs *)
(* ===================================================================== *)

Module Sample.

(** A stand-in for [JSON.parse]: the payload [p] is read as the event
    [{ choices: [ { delta: { content: p } } ] }]; a payload that starts
    with an opening bracket is rejected as [JSON.parse] rejects the
    sentinel. *)
Definition builtins : Builtins :=
  {| JSON_parse := fun p =>
       if Js.startsWith p "[" then None
       else Some (JObject
                    [("choices",
                      JArray [JObject
                                [("delta", JObject [("content", JString p)])]])]);
     ToString := fun _ => "" |}.

Definition config : ChatConfig :=
  {| cfg_model := "grok-2"; cfg_temperature := Some 0.7%Q;
     cfg_maxTokens := Some 4096%Z; cfg_systemPrompt := None |}.

Definition env : Page.Env :=
  {| Page.uuid_conversation := "conv-2";
     Page.now_createdAt := 100; Page.now_createdUpdatedAt := 100;
     Page.uuid_user := "u-9"; Page.now_user := 101;
     Page.uuid_assistant := "a-9"; Page.now_assistant := 102;
     Page.now_updatedAt := 103; Page.now_system := 104;
     Page.startTime := 105; Page.endTime := 2105 |}.

Definition userMsg (i content : string) : Message.t :=
  Message.mk i user content 1 None None None None.

Definition assistantMsg (i content : string) : Message.t :=
  Message.mk i assistant content 2 None None None None.

Definition conv : Conversation.t :=
  Conversation.mk "conv-1" "Hi"
    [ userMsg "u-1" "Hi"; assistantMsg "a-1" "Hello!";
      userMsg "u-2" "More"; assistantMsg "a-2" "Sure." ]
    xai "grok-2" 1 2 (Some 0%Q) None None None.

(** A conversation whose request was rejected: the placeholder is last. *)
Definition pending : Conversation.t :=
  Conversation.mk "conv-1" "Hi"
    [ userMsg "u-1" "Hi"; assistantMsg "a-1" "" ]
    gemini "gemini-2.0-flash" 1 2 (Some 0%Q) None None None.

Definition state (c : option Conversation.t) (p : ProviderId)
           (model : string) (key : option string) : Page.State :=
  Page.mkState c false None None false p model 0%Q
               (fun _ => key) false
               (match c with Some x => Some [x] | None => None end)
               None.

Definition newline : string := String Js.newline EmptyString.

(** A body that streams [Hel], [lo] and the sentinel, then ends. *)
Definition helloReader (e : ReadEnd) : Reader :=
  {| chunks := [ ("data: Hel" ++ newline)%string;
                 ("data: lo" ++ newline ++ "data: [DONE]" ++ newline)%string ];
     ending := e |}.

Definition okResponse (r : Reader) : FetchResult :=
  FetchResolves {| ok := true; text := inr ""; body := Some r |}.

Definition httpError (message : string) : FetchResult :=
  FetchResolves {| ok := false; text := inr message; body := None |}.


Definition group (i title : string) : ChatGroup.t :=
  ChatGroup.mk i title (Some false) (Some 7%Z).

Definition conversation (i : string) (pin : option bool)
           (g : option string) : Conversation.t :=
  Conversation.mk i "Hi" [ userMsg "u-1" "Hi" ] xai "grok-2" 1 2
                  (Some 0%Q) None pin g.

(** Two groups; one conversation in the second group, one pinned, one
    plain. *)
Definition sidebarStore : Sidebar.Store :=
  Sidebar.mkStore
    (Some [ group "g-1" "Work"; group "g-2" "Home" ])
    (Some [ conversation "c-1" None (Some "g-2");
            conversation "c-2" (Some true) None;
            conversation "c-3" None None ]).

(** A second conversation of the store. *)
Definition other : Conversation.t :=
  Conversation.mk "c-2" "Plans"
    [ userMsg "u-5" "Plan"; assistantMsg "a-5" "Done." ]
    xai "grok-2" 3 4 (Some 0%Q) None None None.

(** A page with [pending] open and both conversations stored: the state
    after a Send that the vendor rejected. *)
Definition twoStored : Page.State :=
  Page.mkState (Some pending) false None None true openai "gpt-4o" 0%Q
               (fun _ => Some "sk") false (Some [pending; other]) None.

(** The stored keys: one key, for xAI. *)
Definition keys : Storage.KeysItem := Storage.setApiKey xai "sk" None.

(** The stored preferences: xAI and one of its models are selected. *)
Definition preferences : Storage.PreferencesItem :=
  Some (UserPreferences.mk "system" xai (Some "grok-2") (Some "")
                           (Some "User") None).

(** The first render of the page, before the mount effect has run. *)
Definition firstRender : Page.State :=
  Page.mkState None false None None false openai "" 0%Q
               (fun _ => None) false None None.

(** A page with [conv] open, both conversations stored, and xAI
    selected with its key. *)
Definition busy : Page.State :=
  Page.mkState (Some conv) false None None false xai "grok-2" 0%Q
               (fun _ => Some "sk") false (Some [conv; other]) None.

(** What the page handles while a reply to [conv] streams, in one run:
    the user pins the other conversation, renames it, and stops the
    stream. *)
Definition meanwhile : list (list Page.Event) :=
  [ [ Page.Starts (Page.PinConversation "c-2") ];
    [ Page.Starts (Page.RenameConversation 9 "c-2" "Trip") ];
    [ Page.Starts Page.Stop ] ].

(** The body of [helloReader], cut short by the abort of the request. *)
Definition stopped : FetchResult :=
  okResponse (helloReader (ReadThrows (AbortError "The user aborted a request."))).

End Sample.
(* ===================================================================== *)
(** * Strings *)
(* ===================================================================== *)

Section StringFacts.

Lemma append_cons (c : ascii) (p rest : string) :
  (String c p ++ rest)%string = String c (p ++ rest)%string.
Proof. reflexivity. Qed.

Lemma append_nil_l (s : string) : ("" ++ s)%string = s.
Proof. reflexivity. Qed.

Lemma prefix_app (p s : string) :
  String.prefix p s = true <-> exists rest, s = (p ++ rest)%string.
Proof.
  revert s. induction p as [|c p IH]; intros s; simpl.
  - split; [intros _; by exists s | by destruct s].
  - destruct s as [|d s]; simpl.
    + split; [done | intros [rest H]; rewrite append_cons in H; discriminate].
    + destruct (ascii_dec c d) as [->|Hne].
      * rewrite IH.
        split; intros [rest H]; exists rest; rewrite append_cons in *; congruence.
      * split; [done | intros [rest H]; rewrite append_cons in H; congruence].
Qed.

(** [includes] decides containment as a substring. *)
Lemma includes_spec (s sub : string) :
  Js.includes s sub = true
  <-> exists before after, s = (before ++ sub ++ after)%string.
Proof.
  induction s as [|c s IH]; cbn [Js.includes].
  - destruct (String.prefix sub "") eqn:Hp.
    + apply prefix_app in Hp as [rest H].
      split; [intros _; by exists "", rest | done].
    + split; [done|]. intros [[|b before] [after H]];
        rewrite ?append_cons, ?append_nil_l in H.
      * assert (String.prefix sub "" = true) as Hp'
          by (apply prefix_app; by exists after).
        congruence.
      * discriminate.
  - destruct (String.prefix sub (String c s)) eqn:Hp.
    + apply prefix_app in Hp as [rest H].
      split; [intros _; by exists "", rest | done].
    + rewrite IH. split.
      * intros (before & after & ->). by exists (String c before), after.
      * intros ([|b before] & after & H);
          rewrite ?append_cons, ?append_nil_l in H.
        -- assert (String.prefix sub (String c s) = true) as Hp'
             by (apply prefix_app; by exists after).
           congruence.
        -- injection H as -> ->. by exists before, after.
Qed.

End StringFacts.

(* ===================================================================== *)
(** * storage.ts: token estimate *)
(* ===================================================================== *)

Lemma Math_ceil_quarter (n : Z) :
  Storage.Math_ceil (inject_Z n / 4)%Q = ((n + 3) / 4)%Z.
Proof.
  unfold Storage.Math_ceil, Qceiling, Qfloor, Qdiv, Qmult, Qinv, Qopp, inject_Z.
  simpl. change (Z.pos (1 * 4)) with 4%Z.
  Z.div_mod_to_equations. lia.
Qed.

(** C8. The token estimator returns the least integer [k] that is at least
    [text.length / 4] (that is, [ceil(text.length / 4)]) plus 1000 for each
    attachment; the text [Hello] alone gives 2. *)
Theorem estimateTokens_formula (text : string)
        (attachments : option (list Attachment.t)) :
  let len := Z.of_nat (String.length text) in
  let attachmentCount :=
    Z.of_nat (match attachments with Some atts => length atts | None => 0 end) in
  (exists k : Z,
      (4 * (k - 1) < len <= 4 * k)%Z
      /\ Storage.estimateTokens text attachments = (k + 1000 * attachmentCount)%Z)
  /\ Storage.estimateTokens "Hello" None = 2%Z.
Proof.
  split; [|reflexivity].
  exists ((Z.of_nat (String.length text) + 3) / 4)%Z.
  split; [Z.div_mod_to_equations; lia|].
  unfold Storage.estimateTokens. rewrite Math_ceil_quarter.
  destruct attachments as [atts|]; [|lia].
  destruct atts as [|a atts]; simpl length; [simpl; lia|].
  replace (0 <? S (length atts))%nat with true by (symmetry; apply Nat.ltb_lt; lia).
  lia.
Qed.

(* ===================================================================== *)
(** * storage.ts: the conversation store *)
(* ===================================================================== *)

Section Store.
Implicit Types (c : Conversation.t) (cs : list Conversation.t)
         (stored : Storage.Item) (i : string).

Lemma getConversations_save c stored :
  Storage.getConversations (Storage.saveConversation c stored)
  = match list_find (Storage.hasId (Conversation.id c))
                    (Storage.getConversations stored) with
    | Some (index, _) => <[index := c]> (Storage.getConversations stored)
    | None => c :: Storage.getConversations stored
    end.
Proof.
  unfold Storage.saveConversation.
  by destruct (list_find _ _) as [[index old]|].
Qed.

(** After [findIndex] has answered [index], the saved list has [c] as its
    first entry carrying the id of [c]. *)
Lemma find_after_save c stored :
  exists index,
    list_find (Storage.hasId (Conversation.id c))
              (Storage.getConversations (Storage.saveConversation c stored))
    = Some (index, c).
Proof.
  rewrite getConversations_save.
  destruct (list_find _ (Storage.getConversations stored))
    as [[index old]|] eqn:Hfind.
  - exists index. apply list_find_Some in Hfind as (Hlook & Hid & Hmin).
    apply list_find_Some. split_and!.
    + apply list_lookup_insert_eq. by eapply lookup_lt_Some.
    + done.
    + intros j y Hj Hlt. rewrite list_lookup_insert_ne in Hj by lia. eauto.
  - exists 0. apply list_find_Some. split_and!; [done..|]. intros; lia.
Qed.

Lemma getConversation_save_same c stored :
  Storage.getConversation (Conversation.id c) (Storage.saveConversation c stored)
  = Some c.
Proof.
  unfold Storage.getConversation.
  destruct (find_after_save c stored) as [index ->]. done.
Qed.

(** Saving a conversation does not change what another id resolves to. *)
Lemma getConversation_save_other c stored i :
  Conversation.id c <> i ->
  Storage.getConversation i (Storage.saveConversation c stored)
  = Storage.getConversation i stored.
Proof.
  intros Hne. unfold Storage.getConversation.
  rewrite getConversations_save.
  destruct (list_find (Storage.hasId (Conversation.id c)) _)
    as [[index old]|] eqn:Hfind.
  - apply list_find_Some in Hfind as (Hlook & Hid & _).
    assert (~ Storage.hasId i old) as Hold
        by (unfold Storage.hasId in *; congruence).
    assert (~ Storage.hasId i c) as Hc by done.
    destruct (list_find (Storage.hasId i) (Storage.getConversations stored))
      as [[j y]|] eqn:Hj.
    + assert (list_find (Storage.hasId i)
                        (<[index:=c]> (Storage.getConversations stored))
              = Some (j, y)) as ->; [|done].
      apply list_find_Some in Hj as (Hlj & Hpj & Hminj).
      assert (j <> index) by (intros ->; congruence).
      apply list_find_Some. split_and!; [|done|].
      * by rewrite list_lookup_insert_ne.
      * intros k z Hk Hlt.
        destruct (decide (k = index)) as [->|Hki].
        -- rewrite list_lookup_insert_eq in Hk
             by (by eapply lookup_lt_Some). by simplify_eq.
        -- rewrite list_lookup_insert_ne in Hk by done. eauto.
    + assert (list_find (Storage.hasId i)
                        (<[index:=c]> (Storage.getConversations stored))
              = None) as ->; [|done].
      apply list_find_None. apply list_find_None in Hj.
      rewrite Forall_lookup in Hj |- *. intros k z Hk.
      destruct (decide (k = index)) as [->|Hki].
      * rewrite list_lookup_insert_eq in Hk
          by (by eapply lookup_lt_Some). by simplify_eq.
      * rewrite list_lookup_insert_ne in Hk by done. eauto.
  - simpl. rewrite decide_False by done.
    destruct (list_find (Storage.hasId i) _) as [[? ?]|]; reflexivity.
Qed.

Lemma save_ids c stored :
  NoDup (Conversation.id <$> Storage.getConversations stored) ->
  NoDup (Conversation.id <$> Storage.getConversations
                               (Storage.saveConversation c stored)).
Proof.
  intros Hnd. rewrite getConversations_save.
  destruct (list_find _ (Storage.getConversations stored))
    as [[index old]|] eqn:Hfind.
  - apply list_find_Some in Hfind as (Hlook & Hid & _).
    rewrite list_fmap_insert, list_insert_id; [done|].
    rewrite list_lookup_fmap, Hlook. simpl. by f_equal.
  - apply list_find_None in Hfind. rewrite fmap_cons.
    apply NoDup_cons. split; [|done].
    intros (y & Hy & Hin)%list_elem_of_fmap.
    rewrite Forall_forall in Hfind. by apply (Hfind y).
Qed.

Lemma save_idempotent c stored :
  Storage.saveConversation c (Storage.saveConversation c stored)
  = Storage.saveConversation c stored.
Proof.
  destruct (find_after_save c stored) as [index Hfind].
  unfold Storage.saveConversation at 1. rewrite Hfind.
  apply list_find_Some in Hfind as (Hlook & _).
  rewrite list_insert_id by done.
  unfold Storage.saveConversation.
  by destruct (list_find _ _) as [[? ?]|].
Qed.

Lemma find_cons (P : Conversation.t -> Prop) `{!forall x, Decision (P x)}
      (a : Conversation.t) cs :
  snd <$> list_find P (a :: cs)
  = if decide (P a) then Some a else snd <$> list_find P cs.
Proof.
  simpl. case_decide; [done|]. by destruct (list_find P cs) as [[? ?]|].
Qed.

(** What [getConversation] finds after a deletion was there before. *)
Lemma getConversation_delete i j stored c :
  Storage.getConversation i (Storage.deleteConversation j stored) = Some c ->
  Storage.getConversation i stored = Some c.
Proof.
  unfold Storage.getConversation, Storage.deleteConversation.
  cbn [Storage.getConversations].
  generalize (Storage.getConversations stored) as cs.
  induction cs as [|a cs IH]; [done|].
  rewrite filter_cons, find_cons.
  destruct (decide (~ Storage.hasId j a)) as [Hkeep|Hdrop].
  - rewrite find_cons. by destruct (decide (Storage.hasId i a)).
  - apply dec_stable in Hdrop. intros Hfound.
    destruct (decide (Storage.hasId i a)) as [Hia|_]; [|by apply IH].
    exfalso. unfold Storage.hasId in *.
    destruct (list_find _ _) as [[k y]|] eqn:Hfind; [|done].
    apply list_find_Some in Hfind as (Hlook & Hy & _).
    apply list_elem_of_lookup_2, list_elem_of_filter in Hlook as [Hne _].
    apply Hne. unfold Storage.hasId in *. congruence.
Qed.

(** Moving a conversation to a group saves it with the new [groupId]. *)
Lemma moveConversationToGroup_save j groupId stored :
  exists g,
    Storage.moveConversationToGroup j groupId stored
    = match Storage.getConversation j stored with
      | Some c => Storage.saveConversation (Conversation.with_groupId g c) stored
      | None => stored
      end.
Proof.
  unfold Storage.moveConversationToGroup, Storage.getConversation.
  cbv zeta. eexists.
  destruct (list_find (Storage.hasId j) _) as [[index c]|] eqn:Hfind;
    [|reflexivity].
  simpl. unfold Storage.saveConversation. simpl.
  pose proof Hfind as Hfind'.
  apply list_find_Some in Hfind' as (_ & Hid & _).
  unfold Storage.hasId in Hid. rewrite Hid, Hfind. reflexivity.
Qed.

Lemma find_map (h : Conversation.t -> Conversation.t) i cs :
  (forall c, Conversation.id (h c) = Conversation.id c) ->
  snd <$> list_find (Storage.hasId i) (map h cs)
  = h <$> (snd <$> list_find (Storage.hasId i) cs).
Proof.
  intros Hid. induction cs as [|a cs IH]; [done|].
  rewrite map_cons, !find_cons, IH. unfold Storage.hasId.
  destruct (decide (Conversation.id (h a) = i)) as [H1|H1],
           (decide (Conversation.id a = i)) as [H2|H2];
    try done; rewrite Hid in H1; done.
Qed.

(** What [getConversation] finds after a group was deleted is an entry
    that was there, possibly without its [groupId]. *)
Lemma getConversation_deleteGroup i g stored c' :
  Storage.getConversation i (Storage.deleteGroup g stored) = Some c' ->
  exists c,
    Storage.getConversation i stored = Some c
    /\ (c' = c \/ c' = Conversation.with_groupId None c).
Proof.
  unfold Storage.deleteGroup. cbv zeta.
  destruct (existsb _ _); [|by eauto].
  unfold Storage.getConversation at 1. cbn [Storage.getConversations].
  rewrite find_map by (intros c; by destruct (Storage.inGroup g c)).
  fold (Storage.getConversation i stored).
  destruct (Storage.getConversation i stored) as [c|]; [|done].
  intros [= <-]. exists c. split; [done|].
  destruct (Storage.inGroup g c); auto.
Qed.

End Store.

(** C9. Right after [saveConversation(c)], [getConversation(c.id)] returns
    [c]; the save overwrites, in place, the first stored entry with the id
    of [c] when there is one and otherwise puts [c] in front; ids that were
    unique stay unique; saving [c] twice equals saving it once. *)
Theorem saveConversation_contract (c : Conversation.t) (stored : Storage.Item) :
  let before := Storage.getConversations stored in
  let saved := Storage.saveConversation c stored in
  Storage.getConversation (Conversation.id c) saved = Some c
  /\ ((exists index old,
          before !! index = Some old
          /\ Conversation.id old = Conversation.id c
          /\ (forall j y, before !! j = Some y -> (j < index)%nat ->
                          Conversation.id y <> Conversation.id c)
          /\ Storage.getConversations saved = <[index := c]> before
          /\ length (Storage.getConversations saved) = length before)
      \/ (Forall (fun y => Conversation.id y <> Conversation.id c) before
          /\ Storage.getConversations saved = c :: before))
  /\ (NoDup (Conversation.id <$> before) ->
      NoDup (Conversation.id <$> Storage.getConversations saved))
  /\ Storage.saveConversation c saved = saved.
Proof.
  cbv zeta. split_and!.
  - apply getConversation_save_same.
  - rewrite getConversations_save.
    destruct (list_find _ (Storage.getConversations stored))
      as [[index old]|] eqn:Hfind.
    + left. exists index, old.
      apply list_find_Some in Hfind as (Hlook & Hid & Hmin).
      split_and!; [done..| |done|by rewrite length_insert].
      intros j y Hj Hlt. by apply (Hmin j y).
    + right. by apply list_find_None in Hfind.
  - apply save_ids.
  - apply save_idempotent.
Qed.

(** The store of the example holds [c] once after two saves. *)
Example saveConversation_twice :
  Storage.saveConversation Sample.conv
    (Storage.saveConversation Sample.conv (Some [Sample.pending; Sample.conv]))
  = Some [Sample.conv; Sample.conv].
Proof. reflexivity. Qed.

(* ===================================================================== *)
(** * providers: pricing lookup and cost *)
(* ===================================================================== *)

Section Pricing.
Implicit Types (entries : list (string * Pricing)) (test : string -> bool)
         (fallback tier : Pricing).

(** The loop of [getModelPricing] returns the tier of the first entry
    whose key passes the test. *)
Lemma forEntries_FirstMatch entries test fallback :
  Spec.FirstMatch test fallback entries
                  (Provider.forEntries entries test fallback).
Proof.
  induction entries as [|[key pricing] rest IH]; simpl.
  - constructor.
  - destruct (test key) eqn:Hkey; by constructor.
Qed.

(** There is one such tier: the outcome does not depend on how the table
    is walked. *)
Lemma FirstMatch_unique entries test fallback tier1 tier2 :
  Spec.FirstMatch test fallback entries tier1 ->
  Spec.FirstMatch test fallback entries tier2 ->
  tier1 = tier2.
Proof.
  induction 1; inversion 1; subst; try congruence. auto.
Qed.

Lemma forEntries_preserves (P : Pricing -> Prop) entries test fallback :
  P fallback ->
  Forall (fun kp => P kp.2) entries ->
  P (Provider.forEntries entries test fallback).
Proof.
  intros Hfb. induction 1 as [|[key pricing] rest Hp _ IH]; simpl; [done|].
  by destruct (test key).
Qed.
End Pricing.

Lemma nonnegTier_bool (tier : Pricing) :
  Qle_bool 0 (input tier) && Qle_bool 0 (output tier) = true -> Spec.nonnegTier tier.
Proof.
  intros [H1 H2]%andb_prop. split; by apply Qle_bool_iff.
Qed.

Lemma tables_nonneg (p : ProviderId) :
  Spec.nonnegTier (Spec.fallbackTier p)
  /\ Forall (fun kp => Spec.nonnegTier kp.2) (Spec.pricingTable p).
Proof.
  destruct p; (split; [by apply nonnegTier_bool|]);
    repeat (apply Forall_cons; split; [by apply nonnegTier_bool|]);
    apply Forall_nil_2.
Qed.

Lemma tierOf_forEntries (p : ProviderId) (modelId : string) :
  Spec.tierOf p modelId
  = Provider.forEntries
      (Spec.pricingTable p)
      (fun key => Js.includes (Js.toLowerCase modelId) (Spec.normalizedKey p key))
      (Spec.fallbackTier p).
Proof. by destruct p. Qed.

Lemma tierOf_nonneg (p : ProviderId) (modelId : string) :
  Spec.nonnegTier (Spec.tierOf p modelId).
Proof.
  rewrite tierOf_forEntries.
  destruct (tables_nonneg p). by apply forEntries_preserves.
Qed.

Lemma estimateCost_tierOf (p : ProviderId) (i o : Q) (modelId : string) :
  estimateCost (getAdapter p) i o modelId
  = Storage.calculateCost i o (input (Spec.tierOf p modelId))
                          (output (Spec.tierOf p modelId)).
Proof. by destruct p. Qed.

Lemma calculateCost_mono (i1 i2 o1 o2 pin pout : Q) :
  (0 <= pin)%Q -> (0 <= pout)%Q -> (i1 <= i2)%Q -> (o1 <= o2)%Q ->
  (Storage.calculateCost i1 o1 pin pout <= Storage.calculateCost i2 o2 pin pout)%Q.
Proof.
  intros Hpin Hpout Hi Ho. unfold Storage.calculateCost. cbv zeta.
  apply Qplus_le_compat; apply Qmult_le_compat_r; try done;
    unfold Qdiv; apply Qmult_le_compat_r; done.
Qed.

Lemma calculateCost_nonneg (i o pin pout : Q) :
  (0 <= pin)%Q -> (0 <= pout)%Q -> (0 <= i)%Q -> (0 <= o)%Q ->
  (0 <= Storage.calculateCost i o pin pout)%Q.
Proof.
  intros Hpin Hpout Hi Ho.
  assert (Storage.calculateCost 0 0 pin pout == 0)%Q as <-
      by (unfold Storage.calculateCost; cbv zeta; field).
  by apply calculateCost_mono.
Qed.

(** What Gemini and Anthropic look for: the keys without the vendor prefix. *)
Example gemini_normalized_keys :
  map (fun kp => Spec.normalizedKey gemini kp.1) Gemini.GEMINI_PRICING
  = ["2.5-pro"; "2.5-flash"; "2.0-flash"; "1.5-pro"; "1.5-flash"; "1.0-pro"].
Proof. reflexivity. Qed.

Example anthropic_normalized_keys :
  map (fun kp => Spec.normalizedKey anthropic kp.1) Anthropic.ANTHROPIC_PRICING
  = ["3-5-sonnet"; "3-5-haiku"; "3-opus"; "3-sonnet"; "3-haiku"].
Proof. reflexivity. Qed.

(** The earlier key wins: [grok-2-mini] is priced as [grok-2]. *)
Example xai_first_match_wins :
  Xai.getModelPricing "grok-2-mini" = {| input := 2.00; output := 10.00 |}.
Proof. reflexivity. Qed.

(** The model id of the scenario has no entry: OpenRouter prices it with
    its fallback tier. *)
Example openrouter_scenario :
  estimateCost (getAdapter openrouter) 1000000 1000000 "anthropic/claude-3-5-sonnet"
  = Storage.calculateCost 1000000 1000000 1.0 2.0.
Proof. reflexivity. Qed.

(** C5, as the code has it.  [estimateCost] prices a model id with the tier
    of the first table entry, in declaration order, whose normalized key
    (lower-cased; for Gemini and Anthropic with the vendor prefix removed)
    occurs in the lower-cased model id, and with the vendor's fallback tier
    when none does; that tier is unique.  OpenRouter has no table and uses
    the tier 1.0 / 2.0, which is not zero, for every model id. *)
Theorem estimateCost_tier_lookup (p : ProviderId) (modelId : string) :
  let test := fun key =>
    Js.includes (Js.toLowerCase modelId) (Spec.normalizedKey p key) in
  (exists tier,
      Spec.FirstMatch test (Spec.fallbackTier p) (Spec.pricingTable p) tier
      /\ (forall tier',
             Spec.FirstMatch test (Spec.fallbackTier p) (Spec.pricingTable p) tier'
             -> tier' = tier)
      /\ (forall i o,
             estimateCost (getAdapter p) i o modelId
             = Storage.calculateCost i o (input tier) (output tier)))
  /\ Spec.pricingTable openrouter = []
  /\ (0 < input (Spec.fallbackTier openrouter))%Q
  /\ (0 < output (Spec.fallbackTier openrouter))%Q.
Proof.
  cbv zeta. split_and!; [|done..].
  exists (Spec.tierOf p modelId). split_and!.
  - rewrite tierOf_forEntries. apply forEntries_FirstMatch.
  - intros tier' H. eapply FirstMatch_unique; [exact H|].
    rewrite tierOf_forEntries. apply forEntries_FirstMatch.
  - intros i o. apply estimateCost_tierOf.
Qed.

(** C5 as worded fails: a Gemini model id that contains no table key is not
    priced with the fallback tier, because the adapter looks for the key
    without its [gemini-] prefix. *)
Lemma pricing_lookup_is_not_plain_containment :
  let modelId := "learnlm-1.5-pro-experimental" in
  let worded :=
    Spec.lookupByContainment Gemini.GEMINI_PRICING modelId Gemini.fallback in
  worded = Gemini.fallback
  /\ Spec.tierOf gemini modelId = {| input := 1.25; output := 5.00 |}
  /\ ~ (estimateCost (getAdapter gemini) 1000000 0 modelId
        == Storage.calculateCost 1000000 0 (input worded) (output worded))%Q.
Proof.
  cbv zeta. split_and!; [reflexivity..|].
  vm_compute. discriminate.
Qed.

(** C7. For every adapter and model id, [estimateCost] does not decrease
    when the input or the output token count grows. *)
Theorem estimateCost_monotone (p : ProviderId) (modelId : string)
        (i1 i2 o1 o2 : nat) :
  (i1 <= i2)%nat -> (o1 <= o2)%nat ->
  (estimateCost (getAdapter p) (inject_Z (Z.of_nat i1)) (inject_Z (Z.of_nat o1))
                modelId
   <= estimateCost (getAdapter p) (inject_Z (Z.of_nat i2))
                   (inject_Z (Z.of_nat o2)) modelId)%Q.
Proof.
  intros Hi Ho. rewrite !estimateCost_tierOf.
  destruct (tierOf_nonneg p modelId).
  apply calculateCost_mono; try done.
  - rewrite <- Zle_Qle. lia.
  - rewrite <- Zle_Qle. lia.
Qed.

Lemma estimateCost_monotone_witness :
  (estimateCost (getAdapter xai) (inject_Z (Z.of_nat 1000)) (inject_Z (Z.of_nat 20))
                "grok-beta"
   <= estimateCost (getAdapter xai) (inject_Z (Z.of_nat 2000))
                   (inject_Z (Z.of_nat 20)) "grok-beta")%Q.
Proof. apply (estimateCost_monotone xai "grok-beta" 1000 2000 20 20); lia. Defined.

(** C10. For every adapter, model id and non-negative token counts,
    [estimateCost] is the linear formula over a tier whose two prices are
    non-negative, and its value is non-negative. *)
Theorem estimateCost_nonneg (p : ProviderId) (modelId : string)
        (inputTokens outputTokens : Q) :
  (0 <= inputTokens)%Q -> (0 <= outputTokens)%Q ->
  exists tier,
    (0 <= input tier)%Q /\ (0 <= output tier)%Q
    /\ estimateCost (getAdapter p) inputTokens outputTokens modelId
       = Storage.calculateCost inputTokens outputTokens (input tier) (output tier)
    /\ (0 <= estimateCost (getAdapter p) inputTokens outputTokens modelId)%Q.
Proof.
  intros Hi Ho. exists (Spec.tierOf p modelId).
  destruct (tierOf_nonneg p modelId) as [Hin Hout].
  split_and!; [done..|apply estimateCost_tierOf|].
  rewrite estimateCost_tierOf. by apply calculateCost_nonneg.
Qed.

Lemma estimateCost_nonneg_witness :
  exists tier,
    (0 <= input tier)%Q /\ (0 <= output tier)%Q
    /\ estimateCost (getAdapter groq) 1200 300 "no-such-model"
       = Storage.calculateCost 1200 300 (input tier) (output tier)
    /\ (0 <= estimateCost (getAdapter groq) 1200 300 "no-such-model")%Q.
Proof. apply (estimateCost_nonneg groq "no-such-model" 1200 300); lra. Defined.

(* ===================================================================== *)
(** * providers: streamChat *)
(* ===================================================================== *)

Section Joined.

Lemma append_nil_r (s : string) : (s ++ "")%string = s.
Proof. induction s as [|c s IH]; [done|]. by rewrite append_cons, IH. Qed.

Lemma append_assoc (a b c : string) :
  (a ++ (b ++ c))%string = ((a ++ b) ++ c)%string.
Proof.
  induction a as [|x a IH]; [done|]. by rewrite !append_cons, IH.
Qed.

Lemma joined_cons (t : string) (tokens : list string) :
  Spec.joined (t :: tokens) = (t ++ Spec.joined tokens)%string.
Proof.
  unfold Spec.joined. destruct tokens as [|u tokens]; simpl.
  - by rewrite append_nil_r.
  - done.
Qed.

Lemma joined_app (xs ys : list string) :
  Spec.joined (xs ++ ys) = (Spec.joined xs ++ Spec.joined ys)%string.
Proof.
  induction xs as [|x xs IH]; [done|].
  rewrite <- app_comm_cons, !joined_cons, IH. apply append_assoc.
Qed.

End Joined.

Section Counting.
Implicit Types (trace : list CallbackEvent) (tokens : list string).

Lemma count_app which trace1 trace2 :
  Spec.count which (trace1 ++ trace2)
  = Spec.count which trace1 + Spec.count which trace2.
Proof. unfold Spec.count. by rewrite List.filter_app, length_app. Qed.

Lemma count_tokens which tokens :
  (forall t, which (OnToken t) = false) ->
  Spec.count which (map OnToken tokens) = 0.
Proof.
  intros Hw. unfold Spec.count.
  induction tokens as [|t tokens IH]; simpl; [done|]. by rewrite Hw.
Qed.

Lemma count_tokens_then which tokens ev :
  (forall t, which (OnToken t) = false) ->
  Spec.count which (map OnToken tokens ++ [ev])
  = if which ev then 1 else 0.
Proof.
  intros Hw. rewrite count_app, count_tokens by done.
  unfold Spec.count. simpl. by destruct (which ev).
Qed.
End Counting.

Section StreamShape.
Variable B : Builtins.
Variable tokenPath : JsValue -> option JsValue.

(** A line delivers at most one token and appends it to [fullResponse]. *)
Lemma processLine_tokens (line fullResponse : string) :
  exists tokens,
    Provider.processLine B tokenPath line fullResponse
    = ((fullResponse ++ Spec.joined tokens)%string, map OnToken tokens).
Proof.
  unfold Provider.processLine.
  repeat match goal with
         | |- context [if ?b then _ else _] => destruct b
         | |- context [match ?o with Some _ => _ | None => _ end] => destruct o
         end;
    first [ by exists []; rewrite append_nil_r
          | eexists [_]; by rewrite joined_cons, append_nil_r ].
Qed.

Lemma forLines_tokens (lines : list string) (fullResponse : string) :
  exists tokens,
    Provider.forLines B tokenPath lines fullResponse
    = ((fullResponse ++ Spec.joined tokens)%string, map OnToken tokens).
Proof.
  revert fullResponse. induction lines as [|line rest IH]; intros fr; simpl.
  - exists []. by rewrite append_nil_r.
  - destruct (processLine_tokens line fr) as [ts ->].
    destruct (IH (fr ++ Spec.joined ts)%string) as [ts' ->].
    exists (ts ++ ts'). by rewrite joined_app, append_assoc, map_app.
Qed.

Lemma whileChunks_tokens (cs : list string) (fullResponse : string) :
  exists tokens,
    Provider.whileChunks B tokenPath cs fullResponse
    = ((fullResponse ++ Spec.joined tokens)%string, map OnToken tokens).
Proof.
  revert fullResponse. induction cs as [|chunk rest IH]; intros fr; simpl.
  - exists []. by rewrite append_nil_r.
  - destruct (forLines_tokens (Js.split Js.newline chunk) fr) as [ts ->].
    destruct (IH (fr ++ Spec.joined ts)%string) as [ts' ->].
    exists (ts ++ ts'). by rewrite joined_app, append_assoc, map_app.
Qed.

(** Once the body is being read, the callbacks are the tokens followed by
    exactly one terminal callback, chosen by the way the reads end. *)
Lemma readBody_shape (reader : Reader) :
  exists tokens,
    Provider.readBody B tokenPath reader
    = map OnToken tokens
      ++ [match ending reader with
          | ReadDone => OnComplete (Spec.joined tokens)
          | ReadThrows error =>
              if isAbortError error then OnComplete (Spec.joined tokens)
              else OnError error
          end].
Proof.
  unfold Provider.readBody.
  destruct (whileChunks_tokens (chunks reader) "") as [tokens ->].
  exists tokens. rewrite append_nil_l.
  destruct (ending reader) as [|error]; [done|].
  by destruct (isAbortError error).
Qed.
End StreamShape.

(** The six [streamChat] methods are one body, up to the path of the token
    text and the label of the HTTP error. *)
Lemma streamChat_getAdapter (p : ProviderId) B messages config apiKey net :
  streamChat (getAdapter p) B messages config apiKey net
  = Provider.streamChatBody B (Spec.tokenPathOf p) (Spec.apiErrorLabel p) net.
Proof. by destruct p. Qed.

(** The scenario of the specification: [Hel], [lo], then the sentinel. *)
Example stream_hello :
  streamChat (getAdapter openai) Sample.builtins [] Sample.config "sk"
             (Sample.okResponse (Sample.helloReader ReadDone))
  = ([OnToken "Hel"; OnToken "lo"; OnComplete "Hello"], Resolved).
Proof. reflexivity. Qed.

(** C1. For every adapter, when reading the response body raises an
    AbortError, the callbacks are the tokens delivered so far followed by
    one [onComplete] that carries their concatenation; [onError] is not
    called. *)
Theorem abort_mid_stream_completes
        (p : ProviderId) (B : Builtins) (messages : list Message.t)
        (config : ChatConfig) (apiKey : string) (responseText : JsError + string)
        (received : list string) (error : JsError) :
  isAbortError error = true ->
  let net :=
    FetchResolves {| ok := true; text := responseText;
                     body := Some {| chunks := received;
                                     ending := ReadThrows error |} |} in
  let trace := fst (streamChat (getAdapter p) B messages config apiKey net) in
  exists tokens,
    trace = map OnToken tokens ++ [OnComplete (Spec.joined tokens)]
    /\ Spec.count Spec.isOnComplete trace = 1
    /\ Spec.count Spec.isOnError trace = 0.
Proof.
  intros Habort. cbv zeta. rewrite streamChat_getAdapter.
  unfold Provider.streamChatBody. simpl.
  destruct (readBody_shape B (Spec.tokenPathOf p)
              {| chunks := received; ending := ReadThrows error |})
    as [tokens ->].
  simpl. rewrite Habort. exists tokens.
  split_and!; [done|..]; by rewrite count_tokens_then.
Qed.

Lemma abort_mid_stream_completes_witness :
  exists tokens,
    fst (streamChat (getAdapter xai) Sample.builtins [] Sample.config "sk"
           (Sample.okResponse
              (Sample.helloReader (ReadThrows (AbortError "The user aborted a request.")))))
    = map OnToken tokens ++ [OnComplete (Spec.joined tokens)]
    /\ Spec.count Spec.isOnComplete
         (fst (streamChat (getAdapter xai) Sample.builtins [] Sample.config "sk"
                 (Sample.okResponse
                    (Sample.helloReader
                       (ReadThrows (AbortError "The user aborted a request.")))))) = 1
    /\ Spec.count Spec.isOnError
         (fst (streamChat (getAdapter xai) Sample.builtins [] Sample.config "sk"
                 (Sample.okResponse
                    (Sample.helloReader
                       (ReadThrows (AbortError "The user aborted a request.")))))) = 0.
Proof.
  apply (abort_mid_stream_completes
           xai Sample.builtins [] Sample.config "sk" (inr "")
           (chunks (Sample.helloReader ReadDone))
           (AbortError "The user aborted a request.")).
  reflexivity.
Defined.



(* ===================================================================== *)
(** * page.tsx: properties kept by every handler *)
(* ===================================================================== *)

Lemma getConversation_id (i : string) (stored : Storage.Item) (c : Conversation.t) :
  Storage.getConversation i stored = Some c -> Conversation.id c = i.
Proof.
  unfold Storage.getConversation.
  destruct (list_find _ _) as [[index y]|] eqn:Hfind; [|done].
  intros [= <-]. by apply list_find_Some in Hfind as (_ & Hid & _).
Qed.

Section Everywhere.
Variable P : Conversation.t -> Prop.
Implicit Types (s : Page.State) (c : Conversation.t).

(** Only [conversation] and the store matter. *)
Lemma everywhere_same s s' :
  Page.conversation s' = Page.conversation s ->
  Page.storedConversations s' = Page.storedConversations s ->
  Spec.everywhere P s -> Spec.everywhere P s'.
Proof.
  intros Hc Hs H c [Hcur|[i Hi]]; apply H.
  - left. congruence.
  - right. exists i. congruence.
Qed.

Lemma everywhere_setIsLoading v s :
  Spec.everywhere P s -> Spec.everywhere P (Page.setIsLoading v s).
Proof. by apply everywhere_same. Qed.

Lemma everywhere_setStreamingMessageId v s :
  Spec.everywhere P s -> Spec.everywhere P (Page.setStreamingMessageId v s).
Proof. by apply everywhere_same. Qed.

Lemma everywhere_setError v s :
  Spec.everywhere P s -> Spec.everywhere P (Page.setError v s).
Proof. by apply everywhere_same. Qed.

Lemma everywhere_setSystemPromptWarningOpen v s :
  Spec.everywhere P s ->
  Spec.everywhere P (Page.setSystemPromptWarningOpen v s).
Proof. by apply everywhere_same. Qed.

Lemma everywhere_setSelectedProvider v s :
  Spec.everywhere P s -> Spec.everywhere P (Page.setSelectedProvider v s).
Proof. by apply everywhere_same. Qed.

Lemma everywhere_setSelectedModel v s :
  Spec.everywhere P s -> Spec.everywhere P (Page.setSelectedModel v s).
Proof. by apply everywhere_same. Qed.

Lemma everywhere_setSessionCost v s :
  Spec.everywhere P s -> Spec.everywhere P (Page.setSessionCost v s).
Proof. by apply everywhere_same. Qed.

Lemma everywhere_setAbortControllerRef v s :
  Spec.everywhere P s -> Spec.everywhere P (Page.setAbortControllerRef v s).
Proof. by apply everywhere_same. Qed.

Lemma everywhere_current s c :
  Spec.everywhere P s -> Page.conversation s = Some c -> P c.
Proof. intros H Hc. apply H. by left. Qed.

Lemma everywhere_stored s i c :
  Spec.everywhere P s ->
  Storage.getConversation i (Page.storedConversations s) = Some c -> P c.
Proof. intros H Hc. apply H. right. by exists i. Qed.

Lemma everywhere_setConversation s c :
  P c -> Spec.everywhere P s ->
  Spec.everywhere P (Page.setConversation (Some c) s).
Proof.
  intros Hc H c' [Hcur|[i Hi]].
  - simpl in Hcur. by simplify_eq.
  - apply H. right. by exists i.
Qed.

Lemma everywhere_saveConversation s c :
  P c -> Spec.everywhere P s ->
  Spec.everywhere P (Page.saveConversation c s).
Proof.
  intros Hc H c' [Hcur|[i Hi]].
  - apply H. by left.
  - simpl in Hi. destruct (decide (Conversation.id c = i)) as [<-|Hne].
    + rewrite getConversation_save_same in Hi. by simplify_eq.
    + rewrite getConversation_save_other in Hi by done.
      apply H. right. by exists i.
Qed.

(** Peels the setters that touch neither the conversation nor the store. *)
Ltac peel :=
  repeat first
    [ apply everywhere_setIsLoading
    | apply everywhere_setStreamingMessageId
    | apply everywhere_setError
    | apply everywhere_setSystemPromptWarningOpen
    | apply everywhere_setSelectedProvider
    | apply everywhere_setSelectedModel
    | apply everywhere_setSessionCost
    | apply everywhere_setAbortControllerRef ].

Hypothesis closed : Spec.Closed P.

Section Callbacks.
Variables (f : Page.Flavour) (adapter : ProviderAdapter) (env : Page.Env)
          (apiMessages : list Message.t) (model targetId : string).

Lemma flagAfter_cases prev :
  Page.flagAfter f prev = Conversation.disableSystemPrompt prev
  \/ Page.flagAfter f prev = Some true.
Proof. destruct f; auto. Qed.

Lemma onToken_everywhere fullResponse s :
  Spec.everywhere P s ->
  Spec.everywhere P (Page.onToken f targetId fullResponse s).
Proof.
  intros H. unfold Page.onToken.
  destruct (Page.conversation s) as [prev|] eqn:Hprev; [|done].
  apply everywhere_setConversation; [|done].
  apply (Spec.closed_fill P closed); [by eapply everywhere_current| |].
  - intros m. by destruct (String.eqb _ _).
  - apply flagAfter_cases.
Qed.

Lemma onComplete_everywhere response s :
  Spec.everywhere P s ->
  Spec.everywhere P
    (Page.onComplete f adapter env apiMessages model targetId response s).
Proof.
  intros H. unfold Page.onComplete. cbv zeta. peel.
  destruct (Page.conversation s) as [prev|] eqn:Hprev; [|done].
  assert (P prev) as Hp by (by eapply everywhere_current).
  match goal with
  | |- Spec.everywhere P (Page.setConversation (Some ?u) _) =>
      assert (P u) as Hu
  end.
  { apply (Spec.closed_fill P closed); [done| |].
    - intros m. by destruct (String.eqb _ _).
    - apply flagAfter_cases. }
  apply everywhere_setConversation; [done|].
  by apply everywhere_saveConversation.
Qed.

Lemma onError_everywhere err s :
  Spec.everywhere P s -> Spec.everywhere P (Page.onError err s).
Proof. intros H. unfold Page.onError. cbv zeta. by peel. Qed.

Lemma deliver_everywhere events fullResponse s :
  Spec.everywhere P s ->
  Spec.everywhere P
    (Page.deliver f adapter env apiMessages model targetId events
                  fullResponse s).
Proof.
  revert fullResponse s.
  induction events as [|[token|response|err] events IH];
    intros fr s H; simpl; [done|apply IH..].
  - by apply onToken_everywhere.
  - by apply onComplete_everywhere.
  - by apply onError_everywhere.
Qed.
End Callbacks.

Lemma catchRejection_everywhere detect err s :
  Spec.everywhere P s -> Spec.everywhere P (Page.catchRejection detect err s).
Proof.
  intros H. unfold Page.catchRejection. cbv zeta.
  repeat match goal with |- context [if ?b then _ else _] => destruct b end;
    by peel.
Qed.

Lemma awaitStreamChat_everywhere B f detect env net apiMessages config apiKey
      targetId s :
  Spec.everywhere P s ->
  Spec.everywhere P
    (Page.awaitStreamChat B f detect env net apiMessages config apiKey
                          targetId s).
Proof.
  intros H. unfold Page.awaitStreamChat.
  destruct (streamChat _ _ _ _ _ _) as [events [|err]].
  - by apply deliver_everywhere.
  - by apply catchRejection_everywhere, deliver_everywhere.
Qed.

Lemma handleSend_everywhere B env net content attachments s :
  Spec.mintedOk P (Page.Send env net content attachments) ->
  Spec.everywhere P s ->
  Spec.everywhere P (Page.handleSend B env net content attachments s).1.
Proof.
  intros Hmint H. unfold Page.handleSend.
  destruct (Page.apiKeys s (Page.selectedProvider s)) as [apiKey|];
    [|by peel].
  destruct (negb (Js.truthy apiKey) || negb (Js.truthy (Page.selectedModel s)));
    [by peel|].
  cbv zeta. cbn [fst]. apply awaitStreamChat_everywhere. peel.
  match goal with
  | |- Spec.everywhere P (Page.saveConversation ?u _) => assert (P u) as Hu
  end.
  { apply (Spec.closed_append P closed); [|done..].
    cbn [Page.conversation Page.setIsLoading Page.setError].
    destruct (Page.conversation s) as [c|] eqn:Hc.
    - by eapply everywhere_current.
    - apply Hmint. }
  apply everywhere_saveConversation; [done|].
  apply everywhere_setConversation; [done|]. by peel.
Qed.

Lemma retryPrepare_everywhere env messageId s :
  Spec.everywhere P s ->
  Spec.everywhere P (Page.retryPrepare env messageId s).1.
Proof.
  intros H. unfold Page.retryPrepare.
  destruct (Page.conversation s) as [conv|] eqn:Hconv; [|done].
  destruct (list_find _ _) as [[index target]|]; [|done].
  destruct (Page.apiKeys s (Page.selectedProvider s)) as [apiKey|];
    [|by peel].
  destruct (negb (Js.truthy apiKey) || negb (Js.truthy (Page.selectedModel s)));
    [by peel|].
  cbv zeta. cbn [fst]. peel.
  match goal with
  | |- Spec.everywhere P (Page.saveConversation ?u _) => assert (P u) as Hu
  end.
  { apply (Spec.closed_truncate P closed); [|done]. by eapply everywhere_current. }
  apply everywhere_saveConversation; [done|].
  apply everywhere_setConversation; [done|]. by peel.
Qed.

Lemma handleRetry_everywhere B env net messageId s :
  Spec.everywhere P s ->
  Spec.everywhere P (Page.handleRetry B env net messageId s).1.
Proof.
  intros H. unfold Page.handleRetry.
  pose proof (retryPrepare_everywhere env messageId s H) as Hprep.
  destruct (Page.retryPrepare env messageId s)
    as [s0 [[[[updatedConv full] placeholder] apiKey]|]]; [|done].
  cbn [fst] in *. by apply awaitStreamChat_everywhere.
Qed.

Lemma handleContinue_everywhere B env net s :
  Spec.everywhere P s ->
  Spec.everywhere P (Page.handleContinueWithoutSystemPrompt B env net s).1.1.
Proof.
  intros H. unfold Page.handleContinueWithoutSystemPrompt. cbv zeta.
  cbn [Page.conversation Page.setSystemPromptWarningOpen].
  destruct (Page.conversation s) as [conv|] eqn:Hconv;
    [|by peel].
  destruct (last (Conversation.messages conv)) as [lastMessage|];
    [|by peel].
  destruct (negb (Role_eqb (Message.role lastMessage) assistant));
    [by peel|].
  cbn [Page.apiKeys Page.selectedProvider Page.setError
       Page.setAbortControllerRef Page.setStreamingMessageId
       Page.setIsLoading Page.setSystemPromptWarningOpen].
  destruct (Page.apiKeys s (Page.selectedProvider s)) as [apiKey|].
  - destruct (negb (Js.truthy apiKey)); cbn [fst].
    + apply catchRejection_everywhere. by peel.
    + apply awaitStreamChat_everywhere. by peel.
  - cbn [fst]. apply catchRejection_everywhere. by peel.
Qed.

Lemma handleNewChat_everywhere env s :
  Spec.mintedOk P (Page.NewChat env) ->
  Spec.everywhere P s -> Spec.everywhere P (Page.handleNewChat env s).
Proof.
  intros Hmint H. unfold Page.handleNewChat.
  destruct (Js.truthy (Page.selectedModel s)); [|done]. cbv zeta. peel.
  apply everywhere_setConversation; [apply Hmint|done].
Qed.

Lemma handleSelectConversation_everywhere i s :
  Spec.everywhere P s -> Spec.everywhere P (Page.handleSelectConversation i s).
Proof.
  intros H. unfold Page.handleSelectConversation.
  destruct (Storage.getConversation i _) as [conv|] eqn:Hget; [|done].
  cbv zeta. peel.
  apply everywhere_setConversation; [|done]. by eapply everywhere_stored.
Qed.

Lemma handlePinConversation_everywhere i s :
  Spec.everywhere P s -> Spec.everywhere P (Page.handlePinConversation i s).
Proof.
  intros H. unfold Page.handlePinConversation. cbv zeta.
  match goal with
  | |- context [Page.conversation ?s1] =>
      assert (Spec.everywhere P s1) as H1
  end.
  { destruct (Storage.getConversation i _) as [conv|] eqn:Hget; [|done].
    apply everywhere_saveConversation; [|done].
    apply (Spec.closed_meta P closed). by eapply everywhere_stored. }
  match goal with
  | |- context [Page.conversation ?s1] =>
      destruct (Page.conversation s1) as [prev|] eqn:Hprev; [|done]
  end.
  destruct (String.eqb _ _); [|done].
  apply everywhere_setConversation; [|done].
  apply (Spec.closed_meta P closed). by eapply everywhere_current.
Qed.

Lemma handleRenameConversation_everywhere now i newTitle s :
  Spec.everywhere P s ->
  Spec.everywhere P (Page.handleRenameConversation now i newTitle s).
Proof.
  intros H. unfold Page.handleRenameConversation.
  destruct (Storage.getConversation i _) as [conv|] eqn:Hget; [|done].
  cbv zeta.
  match goal with
  | |- context [Page.saveConversation ?u s] => assert (P u) as Hu
  end.
  { apply (Spec.closed_meta P closed). by eapply everywhere_stored. }
  pose proof (everywhere_saveConversation s _ Hu H) as Hsaved.
  destruct (Page.conversation s) as [cur|]; [|done].
  destruct (String.eqb _ _); [|done].
  by apply everywhere_setConversation.
Qed.

(** Every handler keeps [P] on the conversations the page reads. *)
Lemma step_everywhere B a s :
  Spec.mintedOk P a ->
  Spec.everywhere P s -> Spec.everywhere P (Page.step B a s).
Proof.
  intros Hmint H. destruct a; simpl.
  - by apply handleSend_everywhere.
  - by apply handleRetry_everywhere.
  - by apply handleContinue_everywhere.
  - by apply handleNewChat_everywhere.
  - by apply handleSelectConversation_everywhere.
  - unfold Page.handleStop. by peel.
  - by apply handlePinConversation_everywhere.
  - by apply handleRenameConversation_everywhere.
  - intros c [Hcur|[j Hj]]; [by eapply everywhere_current|].
    simpl in Hj. apply getConversation_delete in Hj.
    by eapply everywhere_stored.
  - destruct (moveConversationToGroup_save i groupId (Page.storedConversations s))
      as [g Hmove].
    rewrite Hmove.
    destruct (Storage.getConversation i _) as [c|] eqn:Hget.
    + apply (everywhere_saveConversation s (Conversation.with_groupId g c));
        [|done].
      apply (Spec.closed_meta P closed). by eapply everywhere_stored.
    + by eapply everywhere_same.
  - intros c' [Hcur|[j Hj]]; [by eapply everywhere_current|].
    simpl in Hj. apply getConversation_deleteGroup in Hj as (c & Hc & [->| ->]).
    + by eapply everywhere_stored.
    + apply (Spec.closed_meta P closed). by eapply everywhere_stored.
Qed.

Lemma run_everywhere B actions s :
  Forall (Spec.mintedOk P) actions ->
  Spec.everywhere P s -> Spec.everywhere P (Page.run B actions s).
Proof.
  unfold Page.run. intros Hmint. revert s.
  induction Hmint as [|a actions Ha _ IH]; intros s H; simpl; [done|].
  apply IH. by apply step_everywhere.
Qed.
End Everywhere.

Lemma flaggedConv_closed (X : string) : Spec.Closed (Spec.flaggedConv X).
Proof.
  split; unfold Spec.flaggedConv; simpl.
  - intros prev g cost flag Hp _ [->| ->]; auto.
  - auto.
  - auto.
  - auto.
Qed.

Lemma systemFree_closed :
  Spec.Closed (fun c => Spec.noSystemMessage (Conversation.messages c)).
Proof.
  split; unfold Spec.noSystemMessage; simpl.
  - intros prev g cost flag Hp Hrole _. rewrite Forall_fmap.
    eapply Forall_impl; [exact Hp|]. intros m Hm. simpl. by rewrite Hrole.
  - intros c _ u a _ _ _ Hc Hu Ha. apply Forall_app. split; [done|].
    by repeat constructor.
  - intros c n a _ Hc Ha. apply Forall_app. split; [by apply Forall_take|].
    by repeat constructor.
  - auto.
Qed.

(** A page that only ever reads conversations free of [system] messages
    keeps doing so, whatever the user does. *)
Lemma systemFree_run (B : Builtins) (actions : list Page.Action) (s : Page.State) :
  Spec.systemFree s -> Spec.systemFree (Page.run B actions s).
Proof.
  apply run_everywhere; [apply systemFree_closed|].
  apply Forall_forall. intros a _.
  destruct a; simpl; try done; intros; constructor.
Qed.

(** A page that starts with no conversation and an empty store reads no
    [system] message, and so never will. *)
Lemma systemFree_from_empty (B : Builtins) (actions : list Page.Action)
      (s : Page.State) :
  Page.conversation s = None ->
  Page.storedConversations s = None ->
  Spec.systemFree (Page.run B actions s).
Proof.
  intros Hc Hs. apply systemFree_run.
  intros c [Hcur|[i Hi]]; [congruence|]. by rewrite Hs in Hi.
Qed.

Lemma flagged_run (B : Builtins) (X : string) (actions : list Page.Action)
      (s : Page.State) :
  Forall (fun a => Page.mintedConversationId a <> Some X) actions ->
  Spec.flagged X s -> Spec.flagged X (Page.run B actions s).
Proof.
  intros Hmint. apply run_everywhere; [apply flaggedConv_closed|].
  eapply Forall_impl; [exact Hmint|].
  intros a Ha. destruct a; simpl in *; try done;
    intros provider model Hid; simpl in Hid; congruence.
Qed.

(* ===================================================================== *)
(** * page.tsx: Send without configuration *)
(* ===================================================================== *)

(** The guard of [handleSend] reads the page's own copy of the keys:
    when that copy has no key for the active provider (none, or the empty
    string) or no model is selected, the handler only sets the error
    message; it calls no adapter, and it leaves the conversation, its
    messages and the store as they were. *)
Lemma handleSend_unconfigured
      (B : Builtins) (env : Page.Env) (net : FetchResult) (content : string)
      (attachments : option (list Attachment.t)) (s : Page.State) :
  Page.apiKeys s (Page.selectedProvider s) = None
  \/ Page.apiKeys s (Page.selectedProvider s) = Some ""
  \/ Page.selectedModel s = "" ->
  let result := Page.handleSend B env net content attachments s in
  result = (Page.setError (Some Page.configurationError) s, [])
  /\ result.2 = []
  /\ Page.error result.1 = Some "Please configure an API key and select a model"
  /\ Page.conversation result.1 = Page.conversation s
  /\ Page.storedConversations result.1 = Page.storedConversations s
  /\ Page.isLoading result.1 = Page.isLoading s.
Proof.
  intros Hmissing. cbv zeta.
  assert (Page.handleSend B env net content attachments s
          = (Page.setError (Some Page.configurationError) s, [])) as ->.
  { unfold Page.handleSend.
    destruct (Page.apiKeys s (Page.selectedProvider s)) as [apiKey|] eqn:Hkey;
      [|done].
    destruct Hmissing as [?|[[= ->]| ->]]; [done|done|].
    by rewrite orb_true_r. }
  done.
Qed.

(** Right after the mount the copy is the stored keys, so a provider
    without a stored key cannot send. *)
Lemma mounted_without_key_cannot_send
      (B : Builtins) (env : Page.Env) (net : FetchResult) (content : string)
      (attachments : option (list Attachment.t)) (s0 : Page.State)
      (keys : Storage.KeysItem) (stored : Storage.PreferencesItem) :
  let s := Page.mount keys stored s0 in
  Storage.hasApiKey (Page.selectedProvider s) keys = false ->
  Page.handleSend B env net content attachments s
  = (Page.setError (Some Page.configurationError) s, []).
Proof.
  cbv zeta. intros Hnone. unfold Page.handleSend.
  unfold Storage.hasApiKey in Hnone.
  change (Page.apiKeys (Page.mount keys stored s0))
    with (Storage.getApiKeys keys).
  destruct (Storage.getApiKeys keys _) as [apiKey|]; [|done].
  by rewrite Hnone.
Qed.

(** C6. The failing input: the page is mounted with a stored xAI key and
    the stored selection (xAI, grok-2); in the settings dialog the user
    clears the key field of xAI and saves, which removes the stored key;
    closing the dialog leaves the page's copy of the keys as it is.  The
    next Send is not refused: it calls the xAI adapter once, with the
    removed key, and appends the two messages.  (The page's own key
    prompt, [handleSaveTempApiKey], writes a key to the store and to the
    copy together.) *)
Theorem send_uses_a_removed_key :
  let page :=
    (Page.mounted Sample.keys Sample.preferences (inr [])
                  Sample.firstRender (Page.mkPicker [] false "")).1 in
  let keys := SettingsDialog.handleSave xai (Some "") Sample.keys in
  let result :=
    Page.handleSend Sample.builtins Sample.env
                    (Sample.okResponse (Sample.helloReader ReadDone))
                    "Hi" None page in
  Storage.hasApiKey xai Sample.keys = true
  /\ Page.selectedProvider page = xai
  /\ Page.selectedModel page = "grok-2"
  /\ Storage.hasApiKey xai keys = false
  /\ Storage.getApiKeys keys xai = None
  /\ Page.apiKeys page xai = Some "sk"
  /\ (exists call,
         result.2 = [call]
         /\ Page.call_provider call = xai
         /\ Page.call_apiKey call = "sk")
  /\ Page.error result.1 = None
  /\ ((fun c => Message.content <$> Conversation.messages c)
        <$> Page.conversation result.1)
     = Some ["Hi"; "Hello"]
  /\ (let saved :=
        Page.handleSaveTempApiKey (Some openai) "k-2" Sample.keys page in
      Storage.getApiKeys saved.1 openai = Some "k-2"
      /\ Page.apiKeys saved.2 openai = Some "k-2").
Proof.
  cbv zeta. split_and!; try reflexivity.
  eexists. split_and!; reflexivity.
Qed.

(** With a key and a model, the same call appends the user message and the
    placeholder and calls the adapter once. *)
Example handleSend_configured :
  let s := Sample.state (Some Sample.conv) xai "grok-2" (Some "sk") in
  let result :=
    Page.handleSend Sample.builtins Sample.env
                    (Sample.okResponse (Sample.helloReader ReadDone))
                    "Hello" None s in
  length result.2 = 1
  /\ ((fun c => Message.content <$> Conversation.messages c)
        <$> Page.conversation result.1)
     = Some ["Hi"; "Hello!"; "More"; "Sure."; "Hello"; "Hello"]
  /\ ((fun c => Message.tokenCount <$> Conversation.messages c)
        <$> Page.conversation result.1)
     = Some [None; None; None; None; Some 2%Z; Some 2%Z].
Proof. cbv zeta. split_and!; reflexivity. Qed.

(* ===================================================================== *)
(** * page.tsx: Retry *)
(* ===================================================================== *)

(** With unique ids, [findIndex] on the id of the message at [index]
    answers [index]. *)
Lemma findIndex_unique (ms : list Message.t) (index : nat) (target : Message.t) :
  NoDup (Message.id <$> ms) ->
  ms !! index = Some target ->
  list_find (Page.hasMessageId (Message.id target)) ms = Some (index, target).
Proof.
  intros Hnd Hlook. apply list_find_Some. split_and!; [done..|].
  intros j y Hj Hlt Hid. unfold Page.hasMessageId in Hid.
  assert (j = index); [|lia].
  eapply NoDup_lookup; [exact Hnd| |].
  - rewrite list_lookup_fmap, Hj. simpl. by rewrite Hid.
  - by rewrite list_lookup_fmap, Hlook.
Qed.

(** A retry calls the adapter only after its synchronous part went through. *)
Lemma handleRetry_started B env net messageId s :
  (Page.handleRetry B env net messageId s).2 <> [] ->
  exists s0 updatedConv full placeholder apiKey,
    Page.retryPrepare env messageId s
    = (s0, Some (updatedConv, full, placeholder, apiKey)).
Proof.
  unfold Page.handleRetry.
  destruct (Page.retryPrepare env messageId s)
    as [s0 [[[[updatedConv full] placeholder] apiKey]|]]; [|done].
  intros _. by exists s0, updatedConv, full, placeholder, apiKey.
Qed.

(** C3. Retry on the message at index [index] of a conversation with unique
    message ids: in every run that starts a request, the state [before]
    that the synchronous part of the handler leaves, and in which the
    adapter is called, holds the conversation whose messages are the
    original ones up to and including [index], followed by one new
    assistant placeholder with empty content (and that conversation has
    been saved). *)
Theorem handleRetry_truncates
        (B : Builtins) (env : Page.Env) (net : FetchResult) (s : Page.State)
        (conv : Conversation.t) (index : nat) (target : Message.t) :
  Page.conversation s = Some conv ->
  Conversation.messages conv !! index = Some target ->
  NoDup (Message.id <$> Conversation.messages conv) ->
  (Page.handleRetry B env net (Message.id target) s).2 <> [] ->
  let kept := take (S index) (Conversation.messages conv) in
  let placeholder :=
    Page.placeholder (Page.uuid_assistant env) (Page.now_assistant env) in
  exists before updatedConv apiMessages config apiKey,
    Page.retryPrepare env (Message.id target) s
    = (before, Some (updatedConv, kept, placeholder, apiKey))
    /\ Page.handleRetry B env net (Message.id target) s
    = (Page.awaitStreamChat B Page.SendOrRetry false env net apiMessages config
                            apiKey (Message.id placeholder) before,
       [ {| Page.call_provider := Page.selectedProvider before;
            Page.call_messages := apiMessages;
            Page.call_config := config;
            Page.call_apiKey := apiKey |} ])
    /\ Page.conversation before = Some updatedConv
    /\ Conversation.messages updatedConv = kept ++ [placeholder]
    /\ kept = take index (Conversation.messages conv) ++ [target]
    /\ Message.role placeholder = assistant
    /\ Message.content placeholder = ""
    /\ Conversation.id updatedConv = Conversation.id conv
    /\ Storage.getConversation (Conversation.id conv)
                               (Page.storedConversations before)
       = Some updatedConv.
Proof.
  intros Hconv Hlook Hnd Hstarted. cbv zeta.
  apply handleRetry_started in Hstarted
    as (s0 & updatedConv & full & ph & apiKey & Hprep).
  unfold Page.handleRetry. rewrite Hprep.
  exists s0, updatedConv. revert Hprep.
  unfold Page.retryPrepare. rewrite Hconv.
  rewrite (findIndex_unique _ index target Hnd Hlook).
  destruct (Page.apiKeys s (Page.selectedProvider s)) as [key|]; [|done].
  destruct (negb (Js.truthy key) || negb (Js.truthy (Page.selectedModel s)));
    [done|].
  cbv zeta. replace (index + 1) with (S index) by lia.
  intros [= <- <- <- <- <-].
  eexists _, _, _. split; [reflexivity|]. split; [reflexivity|].
  split_and!; try reflexivity.
  - by apply take_S_r.
  - match goal with
    | |- _ = Some ?u => exact (getConversation_save_same u _)
    end.
Qed.

Lemma handleRetry_truncates_witness :
  let s := Sample.state (Some Sample.conv) xai "grok-2" (Some "sk") in
  let net := Sample.okResponse (Sample.helloReader ReadDone) in
  let kept := take 1 (Conversation.messages Sample.conv) in
  let placeholder :=
    Page.placeholder (Page.uuid_assistant Sample.env)
                     (Page.now_assistant Sample.env) in
  exists before updatedConv apiMessages config apiKey,
    Page.retryPrepare Sample.env "u-1" s
    = (before, Some (updatedConv, kept, placeholder, apiKey))
    /\ Page.handleRetry Sample.builtins Sample.env net "u-1" s
    = (Page.awaitStreamChat Sample.builtins Page.SendOrRetry false Sample.env
                            net apiMessages config apiKey
                            (Message.id placeholder) before,
       [ {| Page.call_provider := Page.selectedProvider before;
            Page.call_messages := apiMessages;
            Page.call_config := config;
            Page.call_apiKey := apiKey |} ])
    /\ Page.conversation before = Some updatedConv
    /\ Conversation.messages updatedConv = kept ++ [placeholder]
    /\ kept = take 0 (Conversation.messages Sample.conv)
              ++ [Sample.userMsg "u-1" "Hi"]
    /\ Message.role placeholder = assistant
    /\ Message.content placeholder = ""
    /\ Conversation.id updatedConv = Conversation.id Sample.conv
    /\ Storage.getConversation (Conversation.id Sample.conv)
                               (Page.storedConversations before)
       = Some updatedConv.
Proof.
  apply (handleRetry_truncates
           Sample.builtins Sample.env
           (Sample.okResponse (Sample.helloReader ReadDone))
           (Sample.state (Some Sample.conv) xai "grok-2" (Some "sk"))
           Sample.conv 0 (Sample.userMsg "u-1" "Hi")).
  - reflexivity.
  - reflexivity.
  - apply (bool_decide_unpack _). vm_compute. exact I.
  - vm_compute. discriminate.
Defined.

(** The retry of the example, run to its end: the later messages are gone
    and the placeholder holds the streamed text. *)
Example handleRetry_run :
  let s := Sample.state (Some Sample.conv) xai "grok-2" (Some "sk") in
  let result :=
    Page.handleRetry Sample.builtins Sample.env
                     (Sample.okResponse (Sample.helloReader ReadDone)) "u-1" s in
  ((fun c => (fun m => (Message.id m, Message.content m))
                <$> Conversation.messages c)
     <$> Page.conversation result.1)
  = Some [("u-1", "Hi"); ("a-9", "Hello")].
Proof. reflexivity. Qed.

(* ===================================================================== *)
(** * page.tsx: Continue without system prompt *)
(* ===================================================================== *)

Section KeepsIds.
Variables (f : Page.Flavour) (adapter : ProviderAdapter) (env : Page.Env)
          (apiMessages : list Message.t) (model targetId : string).
Implicit Types (s : Page.State) (c : Conversation.t).

Lemma fill_ids (g : Message.t -> Message.t) (ms : list Message.t) :
  (forall m, Message.id (g m) = Message.id m) ->
  Message.id <$> map g ms = Message.id <$> ms.
Proof.
  intros Hg. induction ms as [|m ms IH]; [done|].
  csimpl. rewrite Hg. f_equal. exact IH.
Qed.

Lemma onToken_ids fullResponse s c :
  Page.conversation s = Some c ->
  exists c', Page.conversation (Page.onToken f targetId fullResponse s) = Some c'
             /\ Spec.sameIds c c'.
Proof.
  intros Hc. unfold Page.onToken. rewrite Hc. eexists. split; [reflexivity|].
  split; [done|]. simpl. apply fill_ids.
  intros m. by destruct (String.eqb _ _).
Qed.

Lemma onComplete_ids response s c :
  Page.conversation s = Some c ->
  exists c',
    Page.conversation
      (Page.onComplete f adapter env apiMessages model targetId response s)
    = Some c'
    /\ Spec.sameIds c c'.
Proof.
  intros Hc. unfold Page.onComplete. rewrite Hc. cbv zeta.
  eexists. split; [reflexivity|].
  split; [done|]. simpl. apply fill_ids.
  intros m. by destruct (String.eqb _ _).
Qed.

Lemma deliver_ids events fullResponse s c :
  Page.conversation s = Some c ->
  exists c',
    Page.conversation
      (Page.deliver f adapter env apiMessages model targetId events
                    fullResponse s)
    = Some c'
    /\ Spec.sameIds c c'.
Proof.
  revert fullResponse s c.
  induction events as [|[token|response|err] events IH]; intros fr s c Hc; simpl.
  - by exists c.
  - destruct (onToken_ids (fr ++ token)%string s c Hc) as (c1 & Hc1 & [? ?]).
    destruct (IH (fr ++ token)%string _ c1 Hc1) as (c2 & Hc2 & [? ?]).
    exists c2. split; [done|]. split; congruence.
  - destruct (onComplete_ids response s c Hc) as (c1 & Hc1 & [? ?]).
    destruct (IH fr _ c1 Hc1) as (c2 & Hc2 & [? ?]).
    exists c2. split; [done|]. split; congruence.
  - apply (IH fr (Page.onError err s) c). exact Hc.
Qed.
End KeepsIds.

Lemma catchRejection_conversation detect err s :
  Page.conversation (Page.catchRejection detect err s) = Page.conversation s.
Proof.
  unfold Page.catchRejection.
  repeat match goal with |- context [if ?b then _ else _] => destruct b end;
    reflexivity.
Qed.

Lemma awaitStreamChat_ids B f detect env net apiMessages config apiKey targetId
      s c :
  Page.conversation s = Some c ->
  exists c',
    Page.conversation
      (Page.awaitStreamChat B f detect env net apiMessages config apiKey
                            targetId s)
    = Some c'
    /\ Spec.sameIds c c'.
Proof.
  intros Hc. unfold Page.awaitStreamChat.
  destruct (streamChat _ _ _ _ _ _) as [events [|err]].
  - by apply deliver_ids.
  - rewrite catchRejection_conversation. by apply deliver_ids.
Qed.

Section ContinueSuccess.
Variables (adapter : ProviderAdapter) (env : Page.Env)
          (apiMessages : list Message.t) (model targetId : string).

(** [onComplete] of the Continue flow leaves the current conversation
    flagged, in the state and in the store. *)
Lemma onComplete_continue_flagged response s c :
  Page.conversation s = Some c ->
  Spec.flagged (Conversation.id c)
    (Page.onComplete Page.Continue adapter env apiMessages model targetId
                     response s).
Proof.
  intros Hc. unfold Page.onComplete. rewrite Hc. cbv zeta.
  unfold Spec.flagged.
  apply everywhere_setStreamingMessageId, everywhere_setIsLoading,
    everywhere_setSessionCost.
  intros c' [Hcur|[i Hi]] Hid.
  - simpl in Hcur. by simplify_eq.
  - pose proof (getConversation_id _ _ _ Hi) as Hi'.
    simpl in Hi. rewrite <- Hi', Hid in Hi.
    match type of Hi with
    | Storage.getConversation _ (Storage.saveConversation ?u _) = _ =>
        rewrite (getConversation_save_same u) in Hi
    end.
    by simplify_eq.
Qed.

Lemma deliver_continue_flagged events fullResponse response s c :
  Page.conversation s = Some c ->
  In (OnComplete response) events ->
  Spec.flagged (Conversation.id c)
    (Page.deliver Page.Continue adapter env apiMessages model targetId events
                  fullResponse s).
Proof.
  revert fullResponse s c.
  induction events as [|ev events IH]; intros fr s c Hc Hin; [done|].
  destruct Hin as [->|Hin].
  - simpl. apply deliver_everywhere; [apply flaggedConv_closed|].
    by apply onComplete_continue_flagged.
  - destruct ev as [token|response'|err]; simpl.
    + destruct (onToken_ids Page.Continue targetId (fr ++ token)%string s c Hc)
        as (c1 & Hc1 & [<- _]).
      by apply IH.
    + destruct (onComplete_ids Page.Continue adapter env apiMessages model
                               targetId response' s c Hc)
        as (c1 & Hc1 & [<- _]).
      by apply IH.
    + by apply IH.
Qed.
End ContinueSuccess.

Section KeepsSaved.
Variables (f : Page.Flavour) (adapter : ProviderAdapter) (env : Page.Env)
          (apiMessages : list Message.t) (model targetId : string)
          (X : string).

Lemma saveConversation_isSaved c s :
  Spec.isSaved X s \/ Conversation.id c = X ->
  Spec.isSaved X (Page.saveConversation c s).
Proof.
  unfold Spec.isSaved. simpl. intros H.
  destruct (decide (Conversation.id c = X)) as [<-|Hne].
  - by rewrite getConversation_save_same.
  - rewrite getConversation_save_other by done. by destruct H.
Qed.

Lemma onComplete_isSaved response s :
  Spec.isSaved X s \/ (exists c, Page.conversation s = Some c /\ Conversation.id c = X) ->
  Spec.isSaved X (Page.onComplete f adapter env apiMessages model targetId
                             response s).
Proof.
  intros H. unfold Page.onComplete. cbv zeta.
  destruct (Page.conversation s) as [prev|] eqn:Hprev.
  - unfold Spec.isSaved. simpl. apply saveConversation_isSaved.
    destruct H as [?|(c & [= <-] & ?)]; auto.
  - by destruct H as [?|(c & ? & ?)].
Qed.

Lemma deliver_isSaved events fullResponse s :
  Spec.isSaved X s ->
  Spec.isSaved X (Page.deliver f adapter env apiMessages model targetId events
                          fullResponse s).
Proof.
  revert fullResponse s.
  induction events as [|[token|response|err] events IH];
    intros fr s H; simpl; [done|apply IH..].
  - unfold Page.onToken. by destruct (Page.conversation s).
  - apply onComplete_isSaved. by left.
  - done.
Qed.

Lemma deliver_success_isSaved events fullResponse response s c :
  Page.conversation s = Some c ->
  Conversation.id c = X ->
  In (OnComplete response) events ->
  Spec.isSaved X (Page.deliver f adapter env apiMessages model targetId events
                          fullResponse s).
Proof.
  revert fullResponse s c.
  induction events as [|ev events IH]; intros fr s c Hc Hid Hin; [done|].
  destruct Hin as [->|Hin].
  - simpl. apply deliver_isSaved, onComplete_isSaved. right. by exists c.
  - destruct ev as [token|response'|err]; simpl.
    + destruct (onToken_ids f targetId (fr ++ token)%string s c Hc)
        as (c1 & Hc1 & [Hid1 _]).
      eapply IH; [exact Hc1|congruence|done].
    + destruct (onComplete_ids f adapter env apiMessages model targetId
                               response' s c Hc)
        as (c1 & Hc1 & [Hid1 _]).
      eapply IH; [exact Hc1|congruence|done].
    + by eapply IH.
Qed.
End KeepsSaved.

(** The callbacks read the environment's clock only; no handler reads a
    [uuidv4()] after the adapter has been called. *)
Section OnlyTheClock.
Variables (f : Page.Flavour) (adapter : ProviderAdapter)
          (env env' : Page.Env) (apiMessages : list Message.t)
          (model targetId : string).
Hypothesis sameStart : Page.startTime env' = Page.startTime env.
Hypothesis sameEnd : Page.endTime env' = Page.endTime env.

Lemma onComplete_clock response s :
  Page.onComplete f adapter env' apiMessages model targetId response s
  = Page.onComplete f adapter env apiMessages model targetId response s.
Proof. unfold Page.onComplete. by rewrite sameStart, sameEnd. Qed.

Lemma deliver_clock events fullResponse s :
  Page.deliver f adapter env' apiMessages model targetId events fullResponse s
  = Page.deliver f adapter env apiMessages model targetId events fullResponse s.
Proof.
  revert fullResponse s.
  induction events as [|[token|response|err] events IH]; intros fr s; simpl;
    [done|by rewrite IH|by rewrite onComplete_clock, IH|by rewrite IH].
Qed.
End OnlyTheClock.

Lemma handleContinue_clock B env env' net s :
  Page.startTime env' = Page.startTime env ->
  Page.endTime env' = Page.endTime env ->
  Page.handleContinueWithoutSystemPrompt B env' net s
  = Page.handleContinueWithoutSystemPrompt B env net s.
Proof.
  intros Hstart Hend.
  unfold Page.handleContinueWithoutSystemPrompt, Page.awaitStreamChat.
  cbv zeta.
  repeat match goal with
         | |- context [match ?x with _ => _ end] =>
             lazymatch x with
             | Page.deliver _ _ _ _ _ _ _ _ _ => fail
             | _ => destruct x eqn:?
             end
         end;
    try reflexivity; by rewrite (deliver_clock _ _ env env').
Qed.

Lemma dropLast_noSystem (ms : list Message.t) :
  Spec.noSystemMessage ms -> Spec.noSystemMessage (Page.dropLast ms).
Proof. apply Forall_take. Qed.

(** The handler under its preconditions: one adapter call on the history
    without the placeholder. *)
Lemma handleContinue_unfold B env net s conv lastMessage apiKey :
  Page.conversation s = Some conv ->
  last (Conversation.messages conv) = Some lastMessage ->
  Message.role lastMessage = assistant ->
  Page.apiKeys s (Page.selectedProvider s) = Some apiKey ->
  Js.truthy apiKey = true ->
  exists before,
    Page.conversation before = Some conv
    /\ Page.storedConversations before = Page.storedConversations s
    /\ Page.selectedProvider before = Page.selectedProvider s
    /\ Page.selectedModel before = Page.selectedModel s
    /\ Page.handleContinueWithoutSystemPrompt B env net s
       = (Page.awaitStreamChat B Page.Continue false env net
                               (Page.dropLast (Conversation.messages conv))
                               (Page.chatConfig s None) apiKey
                               (Message.id lastMessage) before,
          [ {| Page.call_provider := Page.selectedProvider s;
               Page.call_messages := Page.dropLast (Conversation.messages conv);
               Page.call_config := Page.chatConfig s None;
               Page.call_apiKey := apiKey |} ],
          Resolved).
Proof.
  intros Hconv Hlast Hrole Hkey Htruthy.
  unfold Page.handleContinueWithoutSystemPrompt. cbv zeta.
  cbn [Page.conversation Page.setSystemPromptWarningOpen].
  rewrite Hconv, Hlast, Hrole. cbn [Role_eqb negb].
  cbn [Page.apiKeys Page.selectedProvider Page.setError
       Page.setAbortControllerRef Page.setStreamingMessageId
       Page.setIsLoading Page.setSystemPromptWarningOpen].
  rewrite Hkey, Htruthy. cbn [negb].
  eexists. split_and!; [| | | |reflexivity]; [exact Hconv|reflexivity..].
Qed.

(** Continue-without-system-prompt when the page handles nothing while
    the request is in flight, for a conversation whose last message is the
    assistant placeholder and with an API key in the page's copy: it calls
    the adapter once, on the history without the placeholder, with no
    system prompt in the configuration and no synthesized system message;
    the conversation keeps its id and exactly its message ids, and the run
    does not depend on what [uuidv4()] would return; when the adapter
    reports completion, the conversation carries
    [disableSystemPrompt = true] in the state and in the store; and no
    later event handled after the request has settled takes the flag
    away. *)
Lemma continue_uninterrupted
        (B : Builtins) (env : Page.Env) (net : FetchResult) (s : Page.State)
        (conv : Conversation.t) (lastMessage : Message.t) (apiKey : string) :
  Page.conversation s = Some conv ->
  last (Conversation.messages conv) = Some lastMessage ->
  Message.role lastMessage = assistant ->
  Page.apiKeys s (Page.selectedProvider s) = Some apiKey ->
  Js.truthy apiKey = true ->
  let outbound := Page.dropLast (Conversation.messages conv) in
  let result := Page.handleContinueWithoutSystemPrompt B env net s in
  let after := result.1.1 in
  let X := Conversation.id conv in
  (exists call,
      result.1.2 = [call]
      /\ Page.call_messages call = outbound
      /\ cfg_systemPrompt (Page.call_config call) = None
      /\ (Spec.noSystemMessage (Conversation.messages conv) ->
          Spec.noSystemMessage (Page.call_messages call)))
  /\ (exists conv',
         Page.conversation after = Some conv'
         /\ Conversation.id conv' = X
         /\ Message.id <$> Conversation.messages conv'
            = Message.id <$> Conversation.messages conv)
  /\ (forall env',
         Page.startTime env' = Page.startTime env ->
         Page.endTime env' = Page.endTime env ->
         Page.handleContinueWithoutSystemPrompt B env' net s = result)
  /\ (forall response,
         In (OnComplete response)
            (streamChat (getAdapter (Page.selectedProvider s)) B outbound
                        (Page.chatConfig s None) apiKey net).1 ->
         Spec.flagged X after
         /\ exists conv',
             Page.conversation after = Some conv'
             /\ Conversation.disableSystemPrompt conv' = Some true
             /\ exists saved,
                 Storage.getConversation X (Page.storedConversations after)
                 = Some saved
                 /\ Conversation.disableSystemPrompt saved = Some true)
  /\ (forall actions,
         Forall (fun a => Page.mintedConversationId a <> Some X) actions ->
         Spec.flagged X after ->
         Spec.flagged X (Page.run B actions after)).
Proof.
  intros Hconv Hlast Hrole Hkey Htruthy. cbv zeta.
  assert (forall env',
             Page.startTime env' = Page.startTime env ->
             Page.endTime env' = Page.endTime env ->
             Page.handleContinueWithoutSystemPrompt B env' net s
             = Page.handleContinueWithoutSystemPrompt B env net s) as Hclock
      by (intros env'; apply handleContinue_clock).
  revert Hclock.
  destruct (handleContinue_unfold B env net s conv lastMessage apiKey
              Hconv Hlast Hrole Hkey Htruthy)
    as (before & Hbefore & Hstored & Hprov & Hmodel & ->).
  intros Hclock. cbn [fst snd].
  destruct (awaitStreamChat_ids B Page.Continue false env net
              (Page.dropLast (Conversation.messages conv))
              (Page.chatConfig s None) apiKey (Message.id lastMessage)
              before conv Hbefore)
    as (conv' & Hafter & Hid & Hids).
  split_and!.
  - eexists. split_and!; [reflexivity..|]. simpl. apply dropLast_noSystem.
  - by exists conv'.
  - exact Hclock.
  - intros response Hin.
    assert (Spec.flagged (Conversation.id conv)
              (Page.awaitStreamChat B Page.Continue false env net
                 (Page.dropLast (Conversation.messages conv))
                 (Page.chatConfig s None) apiKey (Message.id lastMessage) before))
      as Hflag.
    { unfold Page.awaitStreamChat. rewrite Hprov.
      destruct (streamChat _ _ _ _ _ _) as [events settled]. simpl in Hin.
      assert (Spec.flagged (Conversation.id conv)
                (Page.deliver Page.Continue (getAdapter (Page.selectedProvider s))
                   env (Page.dropLast (Conversation.messages conv))
                   (Page.selectedModel before) (Message.id lastMessage)
                   events "" before))
        by (by eapply deliver_continue_flagged).
      destruct settled; [done|].
      by apply catchRejection_everywhere. }
    assert (Spec.isSaved (Conversation.id conv)
              (Page.awaitStreamChat B Page.Continue false env net
                 (Page.dropLast (Conversation.messages conv))
                 (Page.chatConfig s None) apiKey (Message.id lastMessage) before))
      as [saved Hsaved].
    { unfold Page.awaitStreamChat. rewrite Hprov.
      destruct (streamChat _ _ _ _ _ _) as [events settled]. simpl in Hin.
      assert (Spec.isSaved (Conversation.id conv)
                (Page.deliver Page.Continue (getAdapter (Page.selectedProvider s))
                   env (Page.dropLast (Conversation.messages conv))
                   (Page.selectedModel before) (Message.id lastMessage)
                   events "" before))
        by (by eapply deliver_success_isSaved).
      destruct settled; [done|].
      unfold Spec.isSaved, Page.catchRejection in *. cbv zeta.
      repeat match goal with |- context [if ?b then _ else _] => destruct b end;
        done. }
    split; [exact Hflag|].
    exists conv'. split; [done|]. split.
    + apply (Hflag conv'); [by left|done].
    + exists saved. split; [done|].
      apply (Hflag saved); [right; by eexists|].
      by eapply getConversation_id.
  - intros actions. apply flagged_run.
Qed.

(** C4. The failing input: the page shows the conversation [conv-1]
    whose Send the vendor rejected (its last message is the empty
    placeholder [a-1]), and the store holds it and the conversation
    [c-2]; the user confirms Continue-without-system-prompt and, while the
    reply is awaited, opens [c-2] from the sidebar.  The request is as the
    claim says: one call, on the history without the placeholder, with no
    system prompt and no system message, and it completes.  But the
    callbacks update the conversation that is open when they fire:
    [conv-1] keeps its empty placeholder and stays without
    [disableSystemPrompt] in the store, while [c-2], which holds no
    message with the id [a-1], gets [disableSystemPrompt = true] and the
    cost of the request, in the page and in the store. *)
Theorem continue_flags_the_open_conversation :
  let s := Sample.twoStored in
  let net := Sample.okResponse (Sample.helloReader ReadDone) in
  let gaps := [ [ Page.Starts (Page.SelectConversation "c-2") ] ] in
  let result :=
    Page.handleContinueWithoutSystemPromptAmong Sample.builtins Sample.env
                                                net gaps s in
  let after := result.1.1 in
  let stored i := Storage.getConversation i (Page.storedConversations after) in
  (exists call,
      result.1.2 = [call]
      /\ Page.call_messages call = [ Sample.userMsg "u-1" "Hi" ]
      /\ cfg_systemPrompt (Page.call_config call) = None
      /\ (streamChat (getAdapter (Page.call_provider call)) Sample.builtins
                     (Page.call_messages call) (Page.call_config call)
                     (Page.call_apiKey call) net)
         = ([ OnToken "Hel"; OnToken "lo"; OnComplete "Hello" ], Resolved))
  /\ stored "conv-1" = Some Sample.pending
  /\ Conversation.disableSystemPrompt Sample.pending = None
  /\ ~ Spec.flagged "conv-1" after
  /\ (Conversation.id <$> Page.conversation after) = Some "c-2"
  /\ (Conversation.disableSystemPrompt <$> Page.conversation after)
     = Some (Some true)
  /\ (Conversation.disableSystemPrompt <$> stored "c-2") = Some (Some true)
  /\ (Conversation.messages <$> stored "c-2")
     = Some (Conversation.messages Sample.other)
  /\ (exists q,
         (Conversation.totalCost <$> stored "c-2") = Some (Some q)
         /\ (0 < q)%Q)
  /\ Page.isLoading after = false.
Proof.
  cbv zeta. split_and!; try reflexivity.
  - eexists. split_and!; reflexivity.
  - intros Hflagged.
    specialize (Hflagged Sample.pending).
    discriminate Hflagged; [right; by exists "conv-1"|reflexivity].
  - eexists. split; reflexivity.
Qed.

(** The same Continue with nothing handled while the reply is awaited:
    [conv-1] gets the answer and the flag, and [c-2] is left alone. *)
Example continue_undisturbed :
  let result :=
    Page.handleContinueWithoutSystemPromptAmong
      Sample.builtins Sample.env
      (Sample.okResponse (Sample.helloReader ReadDone)) [] Sample.twoStored in
  let after := result.1.1 in
  let stored i := Storage.getConversation i (Page.storedConversations after) in
  (Conversation.id <$> Page.conversation after) = Some "conv-1"
  /\ (Conversation.disableSystemPrompt <$> stored "conv-1") = Some (Some true)
  /\ ((fun c => (fun m => (Message.id m, Message.content m))
                  <$> Conversation.messages c) <$> stored "conv-1")
     = Some [("u-1", "Hi"); ("a-1", "Hello")]
  /\ stored "c-2" = Some Sample.other.
Proof. cbv zeta. split_and!; reflexivity. Qed.

(** The flow of the example, run to its end and followed by a Send: the
    placeholder [a-1] holds the streamed text, the flag is set in the state
    and in the store, and the later Send keeps it and sends no system
    message. *)
Example continue_then_send :
  let s := Sample.state (Some Sample.pending) openai "gpt-4o" (Some "sk") in
  let net := Sample.okResponse (Sample.helloReader ReadDone) in
  let after :=
    (Page.handleContinueWithoutSystemPrompt Sample.builtins Sample.env net s).1.1 in
  let sent := Page.handleSend Sample.builtins Sample.env net "More" None after in
  ((fun c => (fun m => (Message.id m, Message.content m))
               <$> Conversation.messages c)
     <$> Page.conversation after)
  = Some [("u-1", "Hi"); ("a-1", "Hello")]
  /\ (Conversation.disableSystemPrompt <$> Page.conversation after)
     = Some (Some true)
  /\ (Conversation.disableSystemPrompt
        <$> Storage.getConversation "conv-1" (Page.storedConversations after))
     = Some (Some true)
  /\ (Conversation.disableSystemPrompt <$> Page.conversation sent.1)
     = Some (Some true)
  /\ ((fun call => Message.role <$> Page.call_messages call) <$> sent.2)
     = [[user; assistant; user]].
Proof. cbv zeta. split_and!; reflexivity. Qed.

(** Without the flag, Send puts the synthesized system message first. *)
Example send_with_system_prompt :
  let s := Sample.state (Some Sample.pending) openai "gpt-4o" (Some "sk") in
  let net := Sample.okResponse (Sample.helloReader ReadDone) in
  let sent := Page.handleSend Sample.builtins Sample.env net "More" None s in
  ((fun call => Message.role <$> Page.call_messages call) <$> sent.2)
  = [[system; user; assistant; user]].
Proof. reflexivity. Qed.

(** The recovery flow from its start: the vendor rejects the system
    instruction, Send opens the warning instead of reporting an error, and
    Continue fills the placeholder that Send had created. *)
Example send_rejected_then_continue :
  let s := Sample.state None openai "gpt-4o" (Some "sk") in
  let rejected :=
    (Page.handleSend Sample.builtins Sample.env
       (Sample.httpError "Developer instruction is not enabled for this model")
       "Hi" None s).1 in
  let continued :=
    (Page.handleContinueWithoutSystemPrompt
       Sample.builtins Sample.env
       (Sample.okResponse (Sample.helloReader ReadDone)) rejected).1.1 in
  let summary (st : Page.State) :=
    (fun c => (fun m => (Message.id m, Message.content m))
                <$> Conversation.messages c)
      <$> Page.conversation st in
  Page.systemPromptWarningOpen rejected = true
  /\ Page.error rejected = None
  /\ summary rejected = Some [("u-9", "Hi"); ("a-9", "")]
  /\ Page.systemPromptWarningOpen continued = false
  /\ summary continued = Some [("u-9", "Hi"); ("a-9", "Hello")]
  /\ (Conversation.disableSystemPrompt <$> Page.conversation continued)
     = Some (Some true).
Proof. cbv zeta. split_and!; reflexivity. Qed.
(* ===================================================================== *)
(** * storage.ts: deleting, grouping, and the sidebar that calls them *)
(* ===================================================================== *)

Section Deleting.
Implicit Types (c : Conversation.t) (cs : list Conversation.t)
         (stored : Storage.Item) (i j : string).

Lemma find_filter_other i j cs :
  i <> j ->
  snd <$> list_find (Storage.hasId i) (filter (fun c => ~ Storage.hasId j c) cs)
  = snd <$> list_find (Storage.hasId i) cs.
Proof.
  intros Hne. induction cs as [|a cs IH]; [done|].
  rewrite filter_cons, (find_cons (Storage.hasId i) a cs).
  destruct (decide (~ Storage.hasId j a)) as [Hkeep|Hdrop].
  - rewrite find_cons. by rewrite IH.
  - apply dec_stable in Hdrop. rewrite IH.
    rewrite decide_False; [done|].
    unfold Storage.hasId in *. congruence.
Qed.

Lemma find_filter_same j cs :
  list_find (Storage.hasId j) (filter (fun c => ~ Storage.hasId j c) cs) = None.
Proof.
  apply list_find_None, Forall_forall. intros x Hx.
  by apply list_elem_of_filter in Hx as [Hne _].
Qed.

(** Deleting where no entry has the id changes nothing. *)
Lemma filter_absent j cs :
  list_find (Storage.hasId j) cs = None ->
  filter (fun c => ~ Storage.hasId j c) cs = cs.
Proof.
  intros Hnone%list_find_None.
  induction Hnone as [|a cs Ha _ IH]; [done|].
  rewrite filter_cons, decide_True by done. by rewrite IH.
Qed.

(** A save followed by the deletion of the same id leaves what the
    deletion alone leaves. *)
Lemma delete_save c stored :
  Storage.deleteConversation (Conversation.id c)
                             (Storage.saveConversation c stored)
  = Storage.deleteConversation (Conversation.id c) stored.
Proof.
  unfold Storage.deleteConversation. f_equal.
  rewrite getConversations_save.
  destruct (list_find _ (Storage.getConversations stored))
    as [[index old]|] eqn:Hfind.
  - apply list_find_Some in Hfind as (Hlook & Hid & _).
    revert index Hlook.
    induction (Storage.getConversations stored) as [|a cs IH];
      intros index Hlook; [done|].
    destruct index as [|index]; simpl in Hlook.
    + simplify_eq. simpl. rewrite !filter_cons.
      rewrite !decide_False; [done|..]; by intros H; apply H.
    + simpl. rewrite !filter_cons. rewrite (IH _ Hlook). done.
  - rewrite filter_cons, decide_False; [done|]. by intros H; apply H.
Qed.
End Deleting.

(** X1. After [deleteConversation(j)], [getConversation(j)] finds nothing,
    and every other id resolves to what it resolved to before. *)
Theorem deleteConversation_lookup (i j : string) (stored : Storage.Item) :
  Storage.getConversation i (Storage.deleteConversation j stored)
  = if decide (i = j) then None else Storage.getConversation i stored.
Proof.
  unfold Storage.getConversation, Storage.deleteConversation.
  cbn [Storage.getConversations].
  destruct (decide (i = j)) as [->|Hne].
  - by rewrite find_filter_same.
  - by apply find_filter_other.
Qed.

(** X2. Saving a conversation whose id is not in the store and then
    deleting that id gives back the stored list as it was, in its order. *)
Theorem deleteConversation_undoes_save (c : Conversation.t)
        (stored : Storage.Item) :
  Storage.getConversation (Conversation.id c) stored = None ->
  Storage.getConversations
    (Storage.deleteConversation (Conversation.id c)
                                (Storage.saveConversation c stored))
  = Storage.getConversations stored.
Proof.
  intros Habsent. rewrite delete_save.
  unfold Storage.deleteConversation. cbn [Storage.getConversations].
  apply filter_absent.
  unfold Storage.getConversation in Habsent.
  by destruct (list_find _ _) as [[? ?]|].
Qed.

Lemma deleteConversation_undoes_save_witness :
  Storage.getConversations
    (Storage.deleteConversation "conv-9"
       (Storage.saveConversation
          (Storage.createNewConversation "conv-9" 5 5 xai "grok-2")
          (Some [Sample.conv; Sample.pending])))
  = [Sample.conv; Sample.pending].
Proof.
  apply (deleteConversation_undoes_save
           (Storage.createNewConversation "conv-9" 5 5 xai "grok-2")
           (Some [Sample.conv; Sample.pending])).
  reflexivity.
Defined.

Section ClearAll.
Implicit Types (c : Conversation.t) (stored : Storage.Item).

(** What survives the deletions of [forEach] was stored before and has
    none of the deleted ids. *)
Lemma forEach_delete (all : list Conversation.t) stored c :
  c ∈ Storage.getConversations
        (fold_left
           (fun st x => Storage.deleteConversation (Conversation.id x) st)
           all stored) ->
  c ∈ Storage.getConversations stored
  /\ Conversation.id c ∉ Conversation.id <$> all.
Proof.
  revert stored. induction all as [|a all IH]; intros stored; simpl.
  - intros Hc. split; [done|]. apply not_elem_of_nil.
  - intros Hc. apply IH in Hc as [Hc Hnot].
    unfold Storage.deleteConversation in Hc. cbn [Storage.getConversations] in Hc.
    apply list_elem_of_filter in Hc as [Hne Hc]. split; [done|].
    apply not_elem_of_cons. split; [|done].
    unfold Storage.hasId in Hne. congruence.
Qed.
End ClearAll.

(** X3. [confirmClearAll] leaves no conversation in the store, whatever was
    stored, so the empty list the sidebar then shows is the stored one.  The
    page gets a fresh conversation when a model is selected and keeps the
    open one otherwise. *)
Theorem confirmClearAll_empties_store (env : Page.Env) (s : Page.State) :
  let s' := Sidebar.confirmClearAll env s in
  Storage.getConversations (Page.storedConversations s') = []
  /\ (forall i, Storage.getConversation i (Page.storedConversations s') = None)
  /\ Page.conversation s'
     = if Js.truthy (Page.selectedModel s)
       then Some (Storage.createNewConversation
                    (Page.uuid_conversation env) (Page.now_createdAt env)
                    (Page.now_createdUpdatedAt env)
                    (Page.selectedProvider s) (Page.selectedModel s))
       else Page.conversation s.
Proof.
  cbv zeta. unfold Sidebar.confirmClearAll.
  set (stored' := fold_left _ _ _).
  assert (Storage.getConversations stored' = []) as Hempty.
  { destruct (Storage.getConversations stored') as [|c rest] eqn:Hl; [done|].
    exfalso.
    destruct (forEach_delete
                (Storage.getConversations (Page.storedConversations s))
                (Page.storedConversations s) c) as [Hin Hnot].
    - fold stored'. rewrite Hl. apply list_elem_of_here.
    - apply Hnot. by apply list_elem_of_fmap_2. }
  assert (Page.storedConversations
            (Page.handleNewChat env (Page.setStoredConversations stored' s))
          = stored') as ->.
  { unfold Page.handleNewChat. simpl. by destruct (Js.truthy _). }
  split_and!.
  - done.
  - intros i. unfold Storage.getConversation. by rewrite Hempty.
  - unfold Page.handleNewChat. simpl. by destruct (Js.truthy _).
Qed.

Section Grouping.
Implicit Types (c : Conversation.t) (cs : list Conversation.t)
         (stored : Storage.Item) (i j : string).

Lemma insert_ids (index : nat) c c' cs :
  cs !! index = Some c ->
  Conversation.id c' = Conversation.id c ->
  Conversation.id <$> <[index := c']> cs = Conversation.id <$> cs.
Proof.
  intros Hlook Hid. rewrite list_fmap_insert. apply list_insert_id.
  rewrite list_lookup_fmap, Hlook. simpl. by f_equal.
Qed.

Lemma find_insert_same (index : nat) c c' cs i :
  list_find (Storage.hasId i) cs = Some (index, c) ->
  Conversation.id c' = i ->
  list_find (Storage.hasId i) (<[index := c']> cs) = Some (index, c').
Proof.
  intros (Hlook & Hid & Hmin)%list_find_Some Hid'.
  apply list_find_Some. split_and!.
  - apply list_lookup_insert_eq. by eapply lookup_lt_Some.
  - done.
  - intros k y Hk Hlt. rewrite list_lookup_insert_ne in Hk by lia. eauto.
Qed.

Lemma find_insert_other (index : nat) c c' cs i j :
  cs !! index = Some c ->
  Conversation.id c = j -> Conversation.id c' = j -> i <> j ->
  snd <$> list_find (Storage.hasId i) (<[index := c']> cs)
  = snd <$> list_find (Storage.hasId i) cs.
Proof.
  intros Hlook Hc Hc' Hne.
  revert index Hlook. induction cs as [|a cs IH]; intros index Hlook; [done|].
  destruct index as [|index]; simpl in Hlook.
  - simplify_eq. cbn [list_insert insert]. 
    rewrite !find_cons. rewrite !decide_False; [done|..];
      unfold Storage.hasId; congruence.
  - change (<[S index := c']> (a :: cs)) with (a :: <[index := c']> cs).
    rewrite !find_cons. by rewrite (IH _ Hlook).
Qed.
End Grouping.

(** X4. [moveConversationToGroup(j, groupId)] changes the stored [groupId]
    of the conversation [j] and nothing else: a truthy [groupId] is
    written, a missing or empty one removes the field; every other id
    resolves as before, and the stored ids keep their order (nothing is
    created for an unknown [j]). *)
Theorem moveConversationToGroup_lookup (i j : string)
        (groupId : option string) (stored : Storage.Item) :
  let g := match groupId with
           | Some g => if Js.truthy g then Some g else None
           | None => None
           end in
  let stored' := Storage.moveConversationToGroup j groupId stored in
  Storage.getConversation i stored'
  = (if decide (i = j)
     then Conversation.with_groupId g <$> Storage.getConversation j stored
     else Storage.getConversation i stored)
  /\ Conversation.id <$> Storage.getConversations stored'
     = Conversation.id <$> Storage.getConversations stored.
Proof.
  cbv zeta. unfold Storage.moveConversationToGroup, Storage.getConversation.
  cbv zeta.
  destruct (list_find (Storage.hasId j) (Storage.getConversations stored))
    as [[index c]|] eqn:Hfind.
  - pose proof Hfind as (Hlook & Hid & _)%list_find_Some.
    cbn [Storage.getConversations]. split.
    + destruct (decide (i = j)) as [->|Hne].
      * by rewrite (find_insert_same index c (Conversation.with_groupId _ c)
                                     _ j Hfind Hid).
      * by eapply find_insert_other.
    + by eapply insert_ids.
  - split; [|done].
    destruct (decide (i = j)) as [->|Hne]; [by rewrite Hfind|done].
Qed.

(** X5. [deleteGroup(g)] removes every group with the id [g] and leaves
    no stored conversation in that group, without deleting or reordering
    any conversation: the stored conversations are the former ones, those
    of the group without their [groupId]. *)
Theorem deleteGroup_ungroups (g : string) (groups : Storage.GroupsItem)
        (stored : Storage.Item) :
  let groups' := Storage.deleteGroupEntry g groups in
  let stored' := Storage.deleteGroup g stored in
  Forall (fun x => ChatGroup.id x <> g) (Storage.getGroups groups')
  /\ (forall x, x ∈ Storage.getGroups groups ->
                ChatGroup.id x <> g -> x ∈ Storage.getGroups groups')
  /\ Storage.getConversations stored'
     = map (fun c => if Storage.inGroup g c
                     then Conversation.with_groupId None c else c)
           (Storage.getConversations stored)
  /\ Forall (fun c => Storage.inGroup g c = false)
            (Storage.getConversations stored').
Proof.
  cbv zeta.
  assert (Storage.getConversations (Storage.deleteGroup g stored)
          = map (fun c => if Storage.inGroup g c
                          then Conversation.with_groupId None c else c)
                (Storage.getConversations stored)) as Hmap.
  { unfold Storage.deleteGroup. cbv zeta.
    destruct (existsb _ _) eqn:Hex; [done|].
    induction (Storage.getConversations stored) as [|a cs IH]; [done|].
    simpl in Hex. apply orb_false_iff in Hex as [Ha Hcs].
    simpl. rewrite Ha. f_equal. by apply IH. }
  split_and!.
  - unfold Storage.deleteGroupEntry, Storage.saveGroups. simpl.
    apply Forall_forall. intros x Hx.
    by apply list_elem_of_filter in Hx as [Hne _].
  - intros x Hx Hne. unfold Storage.deleteGroupEntry, Storage.saveGroups.
    simpl. by apply list_elem_of_filter.
  - exact Hmap.
  - rewrite Hmap. apply Forall_forall. intros c Hc.
    apply list_elem_of_fmap in Hc as (c0 & -> & _).
    destruct (Storage.inGroup g c0) eqn:Hin; [|done].
    reflexivity.
Qed.

(* ===================================================================== *)
(** * sidebar.tsx: the three sections *)
(* ===================================================================== *)

Section Sections.
Implicit Types (c : Conversation.t) (cs : list Conversation.t)
         (g : ChatGroup.t) (gs : list ChatGroup.t).

Lemma inGroup_eqb c x i :
  Conversation.groupId c = Some x ->
  Storage.inGroup i c = String.eqb x i.
Proof. unfold Storage.inGroup. by intros ->. Qed.

(** A conversation that no group claims adds nothing to the groups'
    lists. *)
Lemma groups_skip c cs gs :
  Forall (fun g => Storage.inGroup (ChatGroup.id g) c = false) gs ->
  concat (map (Sidebar.groupConversations (c :: cs)) gs)
  = concat (map (Sidebar.groupConversations cs) gs).
Proof.
  induction 1 as [|g gs Hg _ IH]; [done|].
  simpl. rewrite IH. f_equal.
  unfold Sidebar.groupConversations. simpl. by rewrite Hg.
Qed.

(** A conversation of a stored group is added to the list of exactly one
    group. *)
Lemma groups_take c cs gs x :
  Conversation.groupId c = Some x ->
  NoDup (ChatGroup.id <$> gs) ->
  x ∈ ChatGroup.id <$> gs ->
  Permutation
    (concat (map (Sidebar.groupConversations (c :: cs)) gs))
    (c :: concat (map (Sidebar.groupConversations cs) gs)).
Proof.
  intros Hx. induction gs as [|g gs IH]; intros Hnd Hin.
  - by apply elem_of_nil in Hin.
  - rewrite fmap_cons in Hnd, Hin. apply NoDup_cons in Hnd as [Hfresh Hnd].
    simpl. unfold Sidebar.groupConversations at 1. simpl.
    rewrite (inGroup_eqb c x _ Hx).
    destruct (String.eqb x (ChatGroup.id g)) eqn:Heq.
    + apply String.eqb_eq in Heq. subst x.
      rewrite groups_skip; [done|].
      apply Forall_forall. intros g' Hg'.
      rewrite (inGroup_eqb c _ _ Hx). apply String.eqb_neq.
      intros Hsame. apply Hfresh. rewrite Hsame.
      by apply list_elem_of_fmap_2.
    + apply String.eqb_neq in Heq.
      apply elem_of_cons in Hin as [->|Hin]; [done|].
      fold (Sidebar.groupConversations cs g).
      rewrite (IH Hnd Hin). symmetry. apply Permutation_middle.
Qed.

(** Under [wellGrouped], every stored conversation belongs to exactly
    one of the Pinned section, the groups and the Others section. *)
Lemma sections_permutation gs cs :
  NoDup (ChatGroup.id <$> gs) ->
  Forall (fun x => Js.truthy x = true) (ChatGroup.id <$> gs) ->
  Forall (fun c => Sidebar.grouped c = true ->
                   exists x, Conversation.groupId c = Some x
                             /\ x ∈ ChatGroup.id <$> gs) cs ->
  Permutation
    (Sidebar.pinnedConversations cs
     ++ concat (map (Sidebar.groupConversations cs) gs)
     ++ Sidebar.unpinnedConversations cs)
    cs.
Proof.
  intros Hnd Htruthy Hrefs.
  induction Hrefs as [|c cs Hc _ IH].
  - simpl. induction gs as [|g gs IHg]; [done|].
    apply NoDup_cons in Hnd as [_ Hnd]. apply Forall_cons in Htruthy as [_ Ht].
    simpl. by apply IHg.
  - unfold Sidebar.pinnedConversations, Sidebar.unpinnedConversations in *.
    simpl. destruct (Sidebar.grouped c) eqn:Hgrouped.
    + destruct (Hc eq_refl) as (x & Hx & Hin).
      rewrite !andb_false_r.
      rewrite (groups_take c cs gs x Hx Hnd Hin).
      etransitivity; [|apply perm_skip, IH].
      symmetry. apply Permutation_middle.
    + rewrite groups_skip.
      * rewrite !andb_true_r.
        destruct (Page.flagSet (Conversation.pinned c)); simpl.
        -- by apply perm_skip.
        -- etransitivity; [|apply perm_skip, IH]. rewrite !app_assoc.
           symmetry. apply Permutation_middle.
      * apply Forall_forall. intros g Hg.
        unfold Sidebar.grouped in Hgrouped. unfold Storage.inGroup.
        destruct (Conversation.groupId c) as [y|]; [|done].
        apply String.eqb_neq. intros ->.
        rewrite Forall_forall in Htruthy.
        rewrite Htruthy in Hgrouped; [done|]. by apply list_elem_of_fmap_2.
Qed.

Lemma filter_Permutation_bool (p : Conversation.t -> bool) cs cs' :
  Permutation cs cs' -> Permutation (List.filter p cs) (List.filter p cs').
Proof.
  induction 1 as [|c l l' _ IH|c c' l|l l' l'' _ IH1 _ IH2]; simpl.
  - done.
  - destruct (p c); [by apply perm_skip|done].
  - destruct (p c), (p c'); try done. apply perm_swap.
  - by etransitivity.
Qed.

Lemma filter_all (p : Conversation.t -> bool) cs :
  Forall (fun c => p c = true) cs -> List.filter p cs = cs.
Proof. induction 1 as [|c l Hc _ IH]; simpl; [done|]. by rewrite Hc, IH. Qed.

Lemma filter_none (p : Conversation.t -> bool) cs :
  Forall (fun c => p c = false) cs -> List.filter p cs = [].
Proof. induction 1 as [|c l Hc _ IH]; simpl; [done|]. by rewrite Hc, IH. Qed.

(** A conversation outside every group is under no collapsed group. *)
Lemma folded_ungrouped gs c :
  Forall (fun x => Js.truthy x = true) (ChatGroup.id <$> gs) ->
  Sidebar.grouped c = false ->
  Spec.folded gs c = false.
Proof.
  intros Htruthy Hc. unfold Spec.folded.
  induction gs as [|g gs IH]; [done|].
  rewrite fmap_cons in Htruthy. apply Forall_cons in Htruthy as [Hg Hgs].
  simpl. rewrite (IH Hgs), orb_false_r.
  apply andb_false_iff. right.
  unfold Sidebar.grouped in Hc. unfold Storage.inGroup.
  destruct (Conversation.groupId c) as [y|]; [|done].
  apply String.eqb_neq. intros ->. congruence.
Qed.

(** A conversation of a group is folded exactly when that group is
    collapsed. *)
Lemma folded_in_group gs g c :
  NoDup (ChatGroup.id <$> gs) ->
  g ∈ gs ->
  Storage.inGroup (ChatGroup.id g) c = true ->
  Spec.folded gs c = Sidebar.isCollapsed g.
Proof.
  intros Hnd Hg Hc. unfold Spec.folded.
  assert (exists x, Conversation.groupId c = Some x /\ x = ChatGroup.id g)
    as (x & Hx & ->).
  { unfold Storage.inGroup in Hc.
    destruct (Conversation.groupId c) as [y|]; [|done].
    apply String.eqb_eq in Hc. by exists y. }
  induction gs as [|g' gs IH]; [by apply elem_of_nil in Hg|].
  rewrite fmap_cons in Hnd. apply NoDup_cons in Hnd as [Hfresh Hnd].
  simpl. apply elem_of_cons in Hg as [<-|Hg].
  - rewrite Hc, andb_true_r.
    assert (existsb (fun g' => Sidebar.isCollapsed g'
                               && Storage.inGroup (ChatGroup.id g') c) gs
            = false) as ->; [|apply orb_false_r].
    apply not_true_iff_false. intros Hex.
    apply existsb_exists in Hex as (g' & Hg' & Hboth).
    apply andb_true_iff in Hboth as [_ Hin].
    rewrite (inGroup_eqb c _ _ Hx) in Hin. apply String.eqb_eq in Hin.
    apply Hfresh. rewrite Hin. apply list_elem_of_fmap_2.
    by apply list_elem_of_In.
  - rewrite (IH Hnd Hg).
    assert (Storage.inGroup (ChatGroup.id g') c = false) as ->;
      [|by rewrite andb_false_r].
    rewrite (inGroup_eqb c _ _ Hx). apply String.eqb_neq.
    intros Hsame. apply Hfresh. rewrite <- Hsame.
    by apply list_elem_of_fmap_2.
Qed.

(** What a group renders are its conversations that are not folded. *)
Lemma renderGroupItem_filter gs g cs :
  NoDup (ChatGroup.id <$> gs) ->
  g ∈ gs ->
  List.filter (fun c => negb (Spec.folded gs c))
              (Sidebar.groupConversations cs g)
  = Sidebar.renderGroupItem cs g.
Proof.
  intros Hnd Hg. unfold Sidebar.renderGroupItem.
  assert (Forall (fun c => Spec.folded gs c = Sidebar.isCollapsed g)
                 (Sidebar.groupConversations cs g)) as Hall.
  { apply Forall_forall. intros c Hc.
    apply list_elem_of_In, filter_In in Hc as [_ Hc].
    by apply folded_in_group. }
  destruct (Sidebar.isCollapsed g); simpl.
  - apply filter_none. eapply Forall_impl; [exact Hall|].
    simpl. by intros c ->.
  - apply filter_all. eapply Forall_impl; [exact Hall|].
    simpl. by intros c ->.
Qed.

(** Under [wellGrouped], the conversation items the sidebar renders are
    the stored conversations that are not under a collapsed group, each
    once. *)
Lemma listed_permutation gs cs :
  NoDup (ChatGroup.id <$> gs) ->
  Forall (fun x => Js.truthy x = true) (ChatGroup.id <$> gs) ->
  Forall (fun c => Sidebar.grouped c = true ->
                   exists x, Conversation.groupId c = Some x
                             /\ x ∈ ChatGroup.id <$> gs) cs ->
  Permutation (Sidebar.listed gs cs)
              (List.filter (fun c => negb (Spec.folded gs c)) cs).
Proof.
  intros Hnd Htruthy Hrefs.
  rewrite <- (filter_Permutation_bool _ _ _
                (sections_permutation gs cs Hnd Htruthy Hrefs)).
  rewrite !List.filter_app, <- concat_filter_map, map_map.
  unfold Sidebar.listed.
  assert (forall q,
             (forall c, q c = true -> Sidebar.grouped c = false) ->
             List.filter (fun c => negb (Spec.folded gs c)) (List.filter q cs)
             = List.filter q cs) as Hout.
  { intros q Hq. apply filter_all, Forall_forall. intros c Hc.
    apply list_elem_of_In, filter_In in Hc as [_ Hc].
    by rewrite folded_ungrouped by auto. }
  unfold Sidebar.pinnedConversations, Sidebar.unpinnedConversations.
  rewrite !Hout.
  2,3: intros c [_ Hc]%andb_true_iff; by apply negb_true_iff.
  assert (map (fun g => List.filter (fun c => negb (Spec.folded gs c))
                                    (Sidebar.groupConversations cs g)) gs
          = map (Sidebar.renderGroupItem cs) gs) as ->; [|done].
  apply map_ext_in. intros g Hg.
  apply renderGroupItem_filter; [done|]. by apply list_elem_of_In.
Qed.
End Sections.

(** X6. When every group reference resolves (distinct non-empty group ids,
    and each truthy [groupId] names a stored group), every stored
    conversation belongs to exactly one of the Pinned section, the groups
    and the Others section; and the conversation items the sidebar
    renders are, each once, the stored conversations that are not in a
    collapsed group: those of a collapsed group are not rendered. *)
Theorem sidebar_sections_partition (st : Sidebar.Store) :
  Spec.wellGrouped st ->
  let gs := Storage.getGroups (Sidebar.groups st) in
  let cs := Storage.getConversations (Sidebar.conversations st) in
  Permutation
    (Sidebar.pinnedConversations cs
     ++ concat (map (Sidebar.groupConversations cs) gs)
     ++ Sidebar.unpinnedConversations cs)
    cs
  /\ Permutation (Sidebar.listed gs cs)
                 (List.filter (fun c => negb (Spec.folded gs c)) cs).
Proof.
  intros (Hnd & Htruthy & Hrefs). cbv zeta. split.
  - by apply sections_permutation.
  - by apply listed_permutation.
Qed.
Lemma sidebar_sections_partition_witness :
  let st :=
    Sidebar.edit (Sidebar.ToggleGroup "g-2") Sample.sidebarStore in
  let gs := Storage.getGroups (Sidebar.groups st) in
  let cs := Storage.getConversations (Sidebar.conversations st) in
  Permutation
    (Sidebar.pinnedConversations cs
     ++ concat (map (Sidebar.groupConversations cs) gs)
     ++ Sidebar.unpinnedConversations cs)
    cs
  /\ Permutation (Sidebar.listed gs cs)
                 (List.filter (fun c => negb (Spec.folded gs c)) cs).
Proof.
  apply (sidebar_sections_partition
           (Sidebar.edit (Sidebar.ToggleGroup "g-2") Sample.sidebarStore)).
  unfold Spec.wellGrouped. simpl. split_and!.
  - apply (bool_decide_unpack _). vm_compute. exact I.
  - repeat constructor.
  - repeat constructor; intros Hg; try discriminate Hg.
    exists "g-2". split; [reflexivity|].
    apply (bool_decide_unpack _). vm_compute. exact I.
Defined.

(** In the sample store with its second group collapsed, the conversation
    of that group is not rendered; the other two are. *)
Example collapsed_group_hides_its_conversations :
  let st :=
    Sidebar.edit (Sidebar.ToggleGroup "g-2") Sample.sidebarStore in
  Conversation.id
    <$> Sidebar.listed (Storage.getGroups (Sidebar.groups st))
                       (Storage.getConversations (Sidebar.conversations st))
  = ["c-2"; "c-3"]
  /\ Conversation.id
       <$> Sidebar.listed
             (Storage.getGroups (Sidebar.groups Sample.sidebarStore))
             (Storage.getConversations
                (Sidebar.conversations Sample.sidebarStore))
     = ["c-2"; "c-1"; "c-3"].
Proof. split; reflexivity. Qed.

Section GroupInvariant.
Implicit Types (st : Sidebar.Store) (gs : list ChatGroup.t).

Lemma insert_group_ids (index : nat) (g g' : ChatGroup.t) gs :
  gs !! index = Some g ->
  ChatGroup.id g' = ChatGroup.id g ->
  ChatGroup.id <$> <[index := g']> gs = ChatGroup.id <$> gs.
Proof.
  intros Hlook Hid. rewrite list_fmap_insert. apply list_insert_id.
  rewrite list_lookup_fmap, Hlook. simpl. by f_equal.
Qed.

Lemma renameGroup_ids i title stored :
  ChatGroup.id <$> Storage.getGroups (Storage.renameGroup i title stored)
  = ChatGroup.id <$> Storage.getGroups stored.
Proof.
  unfold Storage.renameGroup. cbv zeta.
  destruct (list_find _ _) as [[index g]|] eqn:Hfind; [|done].
  apply list_find_Some in Hfind as (Hlook & _). simpl.
  by eapply insert_group_ids.
Qed.

Lemma toggleGroupCollapse_ids i stored :
  ChatGroup.id <$> Storage.getGroups (Storage.toggleGroupCollapse i stored)
  = ChatGroup.id <$> Storage.getGroups stored.
Proof.
  unfold Storage.toggleGroupCollapse. cbv zeta.
  destruct (list_find _ _) as [[index g]|] eqn:Hfind; [|done].
  apply list_find_Some in Hfind as (Hlook & _). simpl.
  by eapply insert_group_ids.
Qed.

Lemma deleteGroupEntry_ids i stored x :
  x ∈ ChatGroup.id <$> Storage.getGroups (Storage.deleteGroupEntry i stored)
  <-> x ∈ ChatGroup.id <$> Storage.getGroups stored /\ x <> i.
Proof.
  unfold Storage.deleteGroupEntry, Storage.saveGroups. simpl.
  rewrite !list_elem_of_fmap. split.
  - intros (g & -> & Hg). apply list_elem_of_filter in Hg as [Hne Hg].
    split; [by exists g|done].
  - intros [(g & -> & Hg) Hne]. exists g. split; [done|].
    by apply list_elem_of_filter.
Qed.

Lemma deleteGroupEntry_NoDup i stored :
  NoDup (ChatGroup.id <$> Storage.getGroups stored) ->
  NoDup (ChatGroup.id <$> Storage.getGroups (Storage.deleteGroupEntry i stored)).
Proof.
  unfold Storage.deleteGroupEntry, Storage.saveGroups. simpl.
  induction (Storage.getGroups stored) as [|g gs IH]; [done|].
  rewrite fmap_cons. intros [Hfresh Hnd]%NoDup_cons.
  rewrite filter_cons. destruct (decide _); [|by apply IH].
  rewrite fmap_cons. apply NoDup_cons. split; [|by apply IH].
  intros (g' & Hid & Hg')%list_elem_of_fmap.
  apply list_elem_of_filter in Hg' as [_ Hg'].
  apply Hfresh. rewrite Hid. by apply list_elem_of_fmap_2.
Qed.

(** Each edit the sidebar offers keeps the group references resolved. *)
Lemma edit_wellGrouped (e : Sidebar.Edit) st :
  Spec.wellGrouped st -> Spec.editOk e st ->
  Spec.wellGrouped (Sidebar.edit e st).
Proof.
  intros (Hnd & Htruthy & Hrefs) Hok. unfold Spec.wellGrouped.
  destruct e as [uuid now|i title|i|i groupId|i|i]; simpl in *.
  - destruct Hok as [Huuid Hfresh].
    rewrite fmap_app. simpl. split_and!.
    + apply NoDup_app. split_and!; [done| |apply NoDup_singleton].
      intros x Hx ->%list_elem_of_singleton. done.
    + apply Forall_app. split; [done|]. by repeat constructor.
    + eapply Forall_impl; [exact Hrefs|]. simpl.
      intros c Hc Hg. destruct (Hc Hg) as (x & Hx & Hin).
      exists x. split; [done|]. apply elem_of_app. by left.
  - by rewrite renameGroup_ids.
  - by rewrite toggleGroupCollapse_ids.
  - split_and!; [done..|].
    unfold Storage.moveConversationToGroup. cbv zeta.
    destruct (list_find _ _) as [[index c]|] eqn:Hfind; [|done].
    cbn [Storage.getConversations].
    apply Forall_insert; [done|].
    unfold Sidebar.grouped. simpl.
    destruct groupId as [g|]; [|done].
    destruct (Js.truthy g); [|done]. intros _. by exists g.
  - destruct (Js.truthy i); [|done]. simpl. split_and!.
    + by apply deleteGroupEntry_NoDup.
    + apply Forall_forall. intros x [Hx _]%deleteGroupEntry_ids.
      rewrite Forall_forall in Htruthy. by apply Htruthy.
    + assert (Storage.getConversations
                (Storage.deleteGroup i (Sidebar.conversations st))
              = map (fun c => if Storage.inGroup i c
                              then Conversation.with_groupId None c else c)
                    (Storage.getConversations (Sidebar.conversations st)))
        as ->.
      { unfold Storage.deleteGroup. cbv zeta.
        destruct (existsb _ _) eqn:Hex; [done|].
        induction (Storage.getConversations (Sidebar.conversations st))
          as [|a cs IH]; [done|].
        simpl in Hex. apply orb_false_iff in Hex as [Ha Hcs].
        apply Forall_cons in Hrefs as [_ Hrefs].
        simpl. rewrite Ha. f_equal. by apply IH. }
      apply Forall_fmap. eapply Forall_impl; [exact Hrefs|]. simpl.
      intros c Hc. unfold compose.
      destruct (Storage.inGroup i c) eqn:Hin; [done|].
      intros Hg. destruct (Hc Hg) as (x & Hx & Hxin).
      exists x. split; [done|]. apply deleteGroupEntry_ids. split; [done|].
      rewrite (inGroup_eqb c x i Hx) in Hin. by apply String.eqb_neq.
  - destruct (Js.truthy i); [|done]. simpl. split_and!; [done..|].
    unfold Storage.deleteConversation. cbn [Storage.getConversations].
    apply Forall_forall. intros c [_ Hc]%list_elem_of_filter.
    rewrite Forall_forall in Hrefs. by apply Hrefs.
Qed.
End GroupInvariant.

(** X7. The group references stay resolved under every sequence of
    edits the sidebar makes through storage.ts (creating, renaming,
    collapsing and deleting groups, moving and deleting conversations) in
    which new groups get fresh non-empty ids and moves target stored
    groups.  So after the edits every stored conversation still belongs
    to exactly one section or group, and the sidebar renders, each once,
    the stored conversations that are not in a collapsed group. *)
Theorem sidebar_edits_keep_conversations_listed
        (es : list Sidebar.Edit) (st : Sidebar.Store) :
  Spec.wellGrouped st ->
  Spec.editsOk es st ->
  let st' := fold_left (fun acc e => Sidebar.edit e acc) es st in
  let gs := Storage.getGroups (Sidebar.groups st') in
  let cs := Storage.getConversations (Sidebar.conversations st') in
  Spec.wellGrouped st'
  /\ Permutation
       (Sidebar.pinnedConversations cs
        ++ concat (map (Sidebar.groupConversations cs) gs)
        ++ Sidebar.unpinnedConversations cs)
       cs
  /\ Permutation (Sidebar.listed gs cs)
                 (List.filter (fun c => negb (Spec.folded gs c)) cs).
Proof.
  cbv zeta. revert st. induction es as [|e es IH]; intros st Hwell Hok.
  - simpl. split; [done|].
    destruct Hwell as (Hnd & Htruthy & Hrefs).
    split; [by apply sections_permutation|by apply listed_permutation].
  - destruct Hok as [He Hes]. simpl. apply IH; [|done].
    by apply edit_wellGrouped.
Qed.

Lemma sidebar_edits_keep_conversations_listed_witness :
  let es := [ Sidebar.CreateGroup "g-3" 9;
              Sidebar.MoveToGroup "c-3" (Some "g-3");
              Sidebar.ToggleGroup "g-3";
              Sidebar.DeleteGroup "g-2";
              Sidebar.RenameGroup "g-3" "Later";
              Sidebar.DeleteConversation "c-2" ] in
  let st' := fold_left (fun acc e => Sidebar.edit e acc) es
                       Sample.sidebarStore in
  let gs := Storage.getGroups (Sidebar.groups st') in
  let cs := Storage.getConversations (Sidebar.conversations st') in
  Spec.wellGrouped st'
  /\ Permutation
       (Sidebar.pinnedConversations cs
        ++ concat (map (Sidebar.groupConversations cs) gs)
        ++ Sidebar.unpinnedConversations cs)
       cs
  /\ Permutation (Sidebar.listed gs cs)
                 (List.filter (fun c => negb (Spec.folded gs c)) cs).
Proof.
  apply (sidebar_edits_keep_conversations_listed
           [ Sidebar.CreateGroup "g-3" 9;
             Sidebar.MoveToGroup "c-3" (Some "g-3");
             Sidebar.ToggleGroup "g-3";
             Sidebar.DeleteGroup "g-2";
             Sidebar.RenameGroup "g-3" "Later";
             Sidebar.DeleteConversation "c-2" ]
           Sample.sidebarStore).
  - unfold Spec.wellGrouped. simpl. split_and!.
    + apply (bool_decide_unpack _). vm_compute. exact I.
    + repeat constructor.
    + repeat constructor; intros Hg; try discriminate Hg.
      exists "g-2". split; [reflexivity|].
      apply (bool_decide_unpack _). vm_compute. exact I.
  - simpl. split_and!; try exact I; try reflexivity;
      apply (bool_decide_unpack _); vm_compute; exact I.
Defined.

(** After those edits the store holds the first conversation, ungrouped,
    and the third in the collapsed new group: only the first is
    rendered. *)
Example edits_then_rendered :
  let es := [ Sidebar.CreateGroup "g-3" 9;
              Sidebar.MoveToGroup "c-3" (Some "g-3");
              Sidebar.ToggleGroup "g-3";
              Sidebar.DeleteGroup "g-2";
              Sidebar.RenameGroup "g-3" "Later";
              Sidebar.DeleteConversation "c-2" ] in
  let st' := fold_left (fun acc e => Sidebar.edit e acc) es
                       Sample.sidebarStore in
  Conversation.id <$> Storage.getConversations (Sidebar.conversations st')
  = ["c-1"; "c-3"]
  /\ Conversation.id
       <$> Sidebar.listed (Storage.getGroups (Sidebar.groups st'))
                          (Storage.getConversations (Sidebar.conversations st'))
     = ["c-1"].
Proof. split; reflexivity. Qed.

(* ===================================================================== *)
(** * Titles and what the input box submits *)
(* ===================================================================== *)

Section Trimming.
Implicit Types (s t : string) (c : ascii).

Lemma length_append s t :
  String.length (s ++ t)%string = String.length s + String.length t.
Proof.
  induction s as [|c s IH]; [done|]. rewrite append_cons. simpl. by rewrite IH.
Qed.

Lemma length_sliceTo (n : nat) s : String.length (Js.sliceTo n s) <= n.
Proof.
  revert s. induction n as [|n IH]; intros [|c s]; simpl; try lia.
  specialize (IH s). lia.
Qed.

Lemma sliceTo_all (n : nat) s : String.length s <= n -> Js.sliceTo n s = s.
Proof.
  revert s. induction n as [|n IH]; intros [|c s]; simpl; try done; try lia.
  intros Hlen. rewrite IH; [done|lia].
Qed.

Lemma length_trimStart s : String.length (Js.trimStart s) <= String.length s.
Proof.
  induction s as [|c s IH]; simpl; [lia|].
  destruct (Js.isWhiteSpace c); simpl; lia.
Qed.

Lemma length_trimEnd s : String.length (Js.trimEnd s) <= String.length s.
Proof.
  induction s as [|c s IH]; simpl; [lia|].
  destruct (Js.trimEnd s) as [|d r]; simpl in *.
  - destruct (Js.isWhiteSpace c); simpl; lia.
  - lia.
Qed.

Lemma length_trim s : String.length (Js.trim s) <= String.length s.
Proof.
  unfold Js.trim. pose proof (length_trimEnd (Js.trimStart s)).
  pose proof (length_trimStart s). lia.
Qed.

(** What [trimStart] returns is empty or starts with a character that is
    not white space. *)
Lemma trimStart_head s :
  Js.trimStart s = ""
  \/ exists c r, Js.trimStart s = String c r /\ Js.isWhiteSpace c = false.
Proof.
  induction s as [|c s IH]; cbn [Js.trimStart]; [by left|].
  destruct (Js.isWhiteSpace c) eqn:Hc; [done|]. right. by exists c, s.
Qed.

Lemma trimEnd_idempotent s : Js.trimEnd (Js.trimEnd s) = Js.trimEnd s.
Proof.
  induction s as [|c s IH]; [done|]. cbn [Js.trimEnd].
  destruct (Js.trimEnd s) as [|d r] eqn:Hr.
  - destruct (Js.isWhiteSpace c) eqn:Hc; [done|].
    cbn [Js.trimEnd]. by rewrite Hc.
  - change (Js.trimEnd (String c (String d r)))
      with (match Js.trimEnd (String d r) with
            | EmptyString =>
                if Js.isWhiteSpace c then EmptyString
                else String c EmptyString
            | r2 => String c r2
            end).
    by rewrite IH.
Qed.

Lemma trimStart_trimEnd c r :
  Js.isWhiteSpace c = false ->
  Js.trimStart (Js.trimEnd (String c r)) = Js.trimEnd (String c r).
Proof.
  intros Hc. cbn [Js.trimEnd].
  destruct (Js.trimEnd r) as [|d r']; rewrite ?Hc; cbn [Js.trimStart];
    by rewrite Hc.
Qed.

Lemma trim_idempotent s : Js.trim (Js.trim s) = Js.trim s.
Proof.
  unfold Js.trim.
  destruct (trimStart_head s) as [->|(c & r & -> & Hc)]; [done|].
  by rewrite trimStart_trimEnd, trimEnd_idempotent.
Qed.
End Trimming.

(** X8. A generated title is never longer than 53 characters: at most 50
    of the message, and the three dots. *)
Theorem generateConversationTitle_length (firstMessage : string) :
  String.length (Storage.generateConversationTitle firstMessage) <= 53.
Proof.
  unfold Storage.generateConversationTitle. cbv zeta.
  pose proof (length_trim (Js.sliceTo 50 firstMessage)) as Htrim.
  pose proof (length_sliceTo 50 firstMessage) as Hslice.
  destruct (_ <? _)%nat.
  - rewrite length_append. change (String.length "...") with 3. lia.
  - lia.
Qed.

(** X9. The text [handleSubmit] of the input box hands to [onSend] is
    trimmed, and it is not empty unless a file is attached.  The title
    generated from it is the text itself when it has at most 50
    characters; a longer text gives its trimmed first 50 characters and the
    three dots. *)
Theorem submitted_text_title (isLoading disabled : bool)
        (st st' : ChatInput.State) (content : string)
        (attachments : option (list Attachment.t)) :
  ChatInput.handleSubmit isLoading disabled st
  = (Some (content, attachments), st') ->
  Js.trim content = content
  /\ (content = "" -> exists a rest, attachments = Some (a :: rest))
  /\ Storage.generateConversationTitle content
     = if (String.length content <=? 50)%nat then content
       else (Js.trim (Js.sliceTo 50 content) ++ "...")%string.
Proof.
  unfold ChatInput.handleSubmit.
  destruct (_ || _) eqn:Hguard; [done|].
  intros [= <- <- <-].
  split_and!.
  - apply trim_idempotent.
  - intros Hblank. rewrite Hblank in Hguard. simpl in Hguard.
    destruct (ChatInput.attachments st) as [|a rest]; [|by eauto].
    simpl in Hguard. done.
  - unfold Storage.generateConversationTitle. cbv zeta.
    destruct (String.length (Js.trim (ChatInput.message st)) <=? 50)%nat
      eqn:Hshort.
    + apply Nat.leb_le in Hshort.
      rewrite sliceTo_all by done. rewrite trim_idempotent.
      by rewrite Nat.ltb_irrefl.
    + apply Nat.leb_gt in Hshort.
      pose proof (length_trim (Js.sliceTo 50 (Js.trim (ChatInput.message st)))).
      pose proof (length_sliceTo 50 (Js.trim (ChatInput.message st))).
      destruct (_ <? _)%nat eqn:Hlt; [done|].
      apply Nat.ltb_ge in Hlt. lia.
Qed.

Lemma submitted_text_title_witness :
  Js.trim "Hi there" = "Hi there"
  /\ ("Hi there" = "" -> exists a rest,
         @None (list Attachment.t) = Some (a :: rest))
  /\ Storage.generateConversationTitle "Hi there"
     = if (String.length "Hi there" <=? 50)%nat then "Hi there"
       else (Js.trim (Js.sliceTo 50 "Hi there") ++ "...")%string.
Proof.
  apply (submitted_text_title false false
           (ChatInput.mkState "  Hi there " [] false)
           (ChatInput.mkState "" [] false) "Hi there" None).
  reflexivity.
Defined.

(* ===================================================================== *)
(** * API keys: from the settings dialog to Send *)
(* ===================================================================== *)

Lemma ProviderId_eqb_eq (a b : ProviderId) : ProviderId_eqb a b = true <-> a = b.
Proof. destruct a, b; simpl; split; congruence. Qed.

Lemma ProviderId_eqb_refl (a : ProviderId) : ProviderId_eqb a a = true.
Proof. by apply ProviderId_eqb_eq. Qed.

(** What [handleSave] of the settings dialog leaves under the provider's
    name: the trimmed text, or nothing when the text is blank. *)
Lemma handleSave_getApiKeys (p q : ProviderId) (key : string)
      (stored : Storage.KeysItem) :
  Storage.getApiKeys (SettingsDialog.handleSave p (Some key) stored) q
  = if ProviderId_eqb q p
    then (if Js.truthy (Js.trim key) then Some (Js.trim key) else None)
    else Storage.getApiKeys stored q.
Proof.
  unfold SettingsDialog.handleSave.
  destruct (Js.truthy (Js.trim key)); simpl; by destruct (ProviderId_eqb q p).
Qed.

(** X10. A key saved in the settings dialog is stored trimmed, a blank one
    removes the stored key, and the keys of the other providers are left
    alone.  Once the page has loaded the stored keys, Send for that
    provider passes the trimmed key to the adapter when a model is
    selected, and otherwise reports the configuration error without any
    request. *)
Theorem saved_key_reaches_send
        (B : Builtins) (env : Page.Env) (net : FetchResult) (content : string)
        (attachments : option (list Attachment.t)) (s : Page.State)
        (key : string) (stored : Storage.KeysItem) :
  let p := Page.selectedProvider s in
  let stored' := SettingsDialog.handleSave p (Some key) stored in
  Page.apiKeys s = Storage.getApiKeys stored' ->
  Storage.hasApiKey p stored' = Js.truthy (Js.trim key)
  /\ (forall q, q <> p ->
        Storage.getApiKeys stored' q = Storage.getApiKeys stored q)
  /\ let result := Page.handleSend B env net content attachments s in
     if Js.truthy (Js.trim key) && Js.truthy (Page.selectedModel s)
     then exists call,
            snd result = [call] /\ Page.call_apiKey call = Js.trim key
     else snd result = []
          /\ Page.error (fst result) = Some Page.configurationError.
Proof.
  cbv zeta. intros Hkeys. split_and!.
  - unfold Storage.hasApiKey. rewrite handleSave_getApiKeys, ProviderId_eqb_refl.
    destruct (Js.truthy (Js.trim key)) eqn:Hk; [|done]. exact Hk.
  - intros q Hq. rewrite handleSave_getApiKeys.
    destruct (ProviderId_eqb q (Page.selectedProvider s)) eqn:Heq; [|done].
    by apply ProviderId_eqb_eq in Heq.
  - unfold Page.handleSend.
    rewrite Hkeys, handleSave_getApiKeys, ProviderId_eqb_refl.
    destruct (Js.truthy (Js.trim key)) eqn:Hk; simpl; [|done].
    rewrite Hk. simpl.
    destruct (Js.truthy (Page.selectedModel s)); simpl; [|done].
    eexists. split; reflexivity.
Qed.

Lemma saved_key_reaches_send_witness :
  let s := Page.mkState None false None None false xai "grok-2" 0%Q
             (Storage.getApiKeys
                (SettingsDialog.handleSave xai (Some " sk-1 ") None))
             false None None in
  let p := Page.selectedProvider s in
  let stored' := SettingsDialog.handleSave p (Some " sk-1 ") None in
  Storage.hasApiKey p stored' = Js.truthy (Js.trim " sk-1 ")
  /\ (forall q, q <> p ->
        Storage.getApiKeys stored' q = Storage.getApiKeys None q)
  /\ let result := Page.handleSend Sample.builtins Sample.env
                                   (Sample.httpError "down") "Hi" None s in
     if Js.truthy (Js.trim " sk-1 ") && Js.truthy (Page.selectedModel s)
     then exists call,
            snd result = [call] /\ Page.call_apiKey call = Js.trim " sk-1 "
     else snd result = []
          /\ Page.error (fst result) = Some Page.configurationError.
Proof.
  apply (saved_key_reaches_send Sample.builtins Sample.env
           (Sample.httpError "down") "Hi" None
           (Page.mkState None false None None false xai "grok-2" 0%Q
              (Storage.getApiKeys
                 (SettingsDialog.handleSave xai (Some " sk-1 ") None))
              false None None)
           " sk-1 " None).
  reflexivity.
Defined.

(* ===================================================================== *)
(** * providers: the model catalogs *)
(* ===================================================================== *)

Section Catalogs.

(** A catalog built by mapping [toModel] over entries is fine when each
    model carries the provider id and the tier of its own id. *)
Lemma catalog_of_map {Entry : Type} (p : ProviderId)
      (toModel : Entry -> Model.t) (entries : list Entry) :
  (forall e, Model.providerId (toModel e) = p
             /\ Model.pricing (toModel e)
                = Some (Spec.tierOf p (Model.id (toModel e)))) ->
  Spec.catalogOk p (inr (map toModel entries)).
Proof.
  intros Hto. simpl. apply Forall_forall. intros m Hm.
  apply list_elem_of_fmap in Hm as (e & -> & _).
  destruct (Hto e) as [Hp Hpricing]. split; [done|].
  exists (Spec.tierOf p (Model.id (toModel e))). split; [done|].
  intros i o. apply estimateCost_tierOf.
Qed.

Lemma fetchModelsWith_catalog {Entry : Type} (p : ProviderId)
      (label : string) (catalog : list Entry -> list Model.t)
      (net : Provider.ModelsFetch Entry) :
  (forall entries, Spec.catalogOk p (inr (catalog entries))) ->
  Spec.catalogOk p (Provider.fetchModelsWith label catalog net).
Proof.
  intros Hcat. unfold Provider.fetchModelsWith.
  destruct net as [error|response]; [done|].
  destruct (negb _); [done|].
  destruct (Provider.json response) as [error|entries]; [done|].
  apply Hcat.
Qed.

End Catalogs.

(** X11. In the catalogs of the xAI, OpenAI, Groq, Gemini and Anthropic
    adapters every model is listed under the adapter's provider id and with
    prices, and [estimateCost] of the adapter charges exactly the listed
    prices for that model: whatever the vendor's endpoint answers, and for
    OpenAI whatever order the sort produces. *)
Theorem catalogs_list_the_prices_charged :
  (forall net, Spec.catalogOk xai (Xai.fetchModels net))
  /\ (forall sortById net,
         (forall l, Permutation (sortById l) l) ->
         Spec.catalogOk openai (Openai.fetchModels sortById net))
  /\ (forall net, Spec.catalogOk groq (Groq.fetchModels net))
  /\ (forall net, Spec.catalogOk gemini (Gemini.fetchModels net))
  /\ Spec.catalogOk anthropic Anthropic.fetchModels.
Proof.
  split_and!.
  - intros net. apply fetchModelsWith_catalog. intros entries.
    by apply catalog_of_map.
  - intros sortById net Hperm. apply fetchModelsWith_catalog.
    intros entries.
    pose proof (catalog_of_map openai Openai.toModel
                  (List.filter Openai.isChatModel entries)) as Hcat.
    simpl in *. rewrite (Hperm _). by apply Hcat.
  - intros net. apply fetchModelsWith_catalog. intros entries.
    by apply catalog_of_map.
  - intros net. apply fetchModelsWith_catalog. intros entries.
    by apply catalog_of_map.
  - simpl. unfold Anthropic.ANTHROPIC_MODELS.
    repeat (apply List.Forall_cons;
            [split; [reflexivity|];
             eexists; split; [reflexivity|]; intros i o; reflexivity|]).
    apply List.Forall_nil.
Qed.

(* ===================================================================== *)
(** * providers: the request the OpenAI-style adapters build *)
(* ===================================================================== *)

Section ChatMessages.
Implicit Types (att : Attachment.t) (atts : list Attachment.t)
         (msg : Message.t).

Lemma imageUrls_parts atts :
  omap Spec.imageUrlOf (flat_map Provider.imageUrlPart atts)
  = Attachment.data <$> List.filter Spec.isImage atts.
Proof.
  induction atts as [|att atts IH]; [done|].
  simpl. rewrite omap_app, IH.
  unfold Provider.imageUrlPart, Spec.isImage.
  by destruct (String.eqb (Attachment.type att) "image").
Qed.

Lemma texts_parts atts :
  omap Spec.textOf (flat_map Provider.imageUrlPart atts) = [].
Proof.
  induction atts as [|att atts IH]; [done|].
  simpl. rewrite omap_app, IH.
  unfold Provider.imageUrlPart.
  by destruct (String.eqb (Attachment.type att) "image").
Qed.

(** What a chat message of the four OpenAI-style adapters carries. *)
Lemma chatMessage_carries msg :
  JsValue.getOpt (Provider.chatMessage msg) "role"
  = JString (Role_toString (Message.role msg))
  /\ Spec.imageUrls (Provider.chatMessage msg)
     = Attachment.data <$> List.filter Spec.isImage (Spec.attachmentsOf msg)
  /\ Spec.textsOf (Provider.chatMessage msg)
     = match Spec.attachmentsOf msg with
       | [] => [Message.content msg]
       | _ => if Js.truthy (Message.content msg)
              then [Message.content msg] else []
       end.
Proof.
  unfold Provider.chatMessage, Spec.attachmentsOf, Spec.imageUrls,
    Spec.textsOf, Spec.contentParts.
  destruct (Message.attachments msg) as [[|att atts]|]; [done| |done].
  split_and!; [done|..]; cbn [JsValue.getOpt JsValue.get JsValue.assoc
                               String.eqb Ascii.eqb Bool.eqb].
  - rewrite omap_app, imageUrls_parts.
    by destruct (Js.truthy (Message.content msg)).
  - rewrite omap_app, texts_parts, app_nil_r.
    by destruct (Js.truthy (Message.content msg)).
Qed.
End ChatMessages.

(** X12. The request of the OpenAI, xAI, Groq and OpenRouter adapters has
    one chat message per message, in order and with the message's role.  A
    message carries its text (none only when the text is empty and
    something is attached) and the data URLs of exactly its attachments of
    type [image]; attachments of any other type are never sent. *)
Theorem openai_style_request_messages (messages : list Message.t)
        (config : ChatConfig) :
  JsValue.getOpt (Provider.requestBody messages config) "messages"
  = JArray (Provider.chatMessages messages)
  /\ Forall2
       (fun msg v =>
          JsValue.getOpt v "role" = JString (Role_toString (Message.role msg))
          /\ Spec.imageUrls v
             = Attachment.data
                 <$> List.filter Spec.isImage (Spec.attachmentsOf msg)
          /\ Spec.textsOf v
             = match Spec.attachmentsOf msg with
               | [] => [Message.content msg]
               | _ => if Js.truthy (Message.content msg)
                      then [Message.content msg] else []
               end)
       messages (Provider.chatMessages messages).
Proof.
  split; [reflexivity|].
  unfold Provider.chatMessages.
  induction messages as [|msg messages IH]; simpl; constructor; [|exact IH].
  apply chatMessage_carries.
Qed.

(* ===================================================================== *)
(** * chat-input.tsx: picking files *)
(* ===================================================================== *)

Section Files.
Implicit Types (file : ChatInput.File) (files : list ChatInput.File).

Lemma attachmentsOf_ok file :
  Forall (fun a =>
            (Attachment.size a <= ChatInput.maxFileSize)%Z
            /\ Spec.isImage a = Js.startsWith (Attachment.mimeType a) "image/"
            /\ Attachment.mimeType a = ChatInput.file_type file
            /\ Attachment.name a = ChatInput.file_name file)
         (ChatInput.attachmentsOf file).
Proof.
  unfold ChatInput.attachmentsOf.
  destruct (_ <? _)%Z eqn:Hsize; [constructor|].
  apply Z.ltb_ge in Hsize.
  destruct (ChatInput.file_dataUrl file); constructor; [|constructor].
  simpl. split_and!; try done.
  unfold Spec.isImage. simpl.
  by destruct (Js.startsWith (ChatInput.file_type file) "image/").
Qed.

Lemma attachmentsOf_images file :
  Attachment.data <$> List.filter Spec.isImage (ChatInput.attachmentsOf file)
  = match Spec.pickedImage file with Some url => [url] | None => [] end.
Proof.
  unfold ChatInput.attachmentsOf, Spec.pickedImage.
  rewrite Z.leb_antisym.
  destruct (_ <? _)%Z; simpl; [done|].
  destruct (ChatInput.file_dataUrl file) as [url|]; simpl.
  - unfold Spec.isImage. simpl.
    by destruct (Js.startsWith (ChatInput.file_type file) "image/").
  - by destruct (Js.startsWith (ChatInput.file_type file) "image/").
Qed.

Lemma picked_images files :
  Attachment.data
    <$> List.filter Spec.isImage (flat_map ChatInput.attachmentsOf files)
  = omap Spec.pickedImage files.
Proof.
  induction files as [|file files IH]; [done|].
  simpl. rewrite List.filter_app, fmap_app, IH, attachmentsOf_images.
  by destruct (Spec.pickedImage file).
Qed.
End Files.

(** X13. [handleFileSelect] keeps the attachments already picked and
    appends at most one per file, in the order of the files; none is
    larger than 20 MB, and an attachment has the type [image] exactly when
    the file's MIME type starts with [image/].  Sent in a message, the
    files whose data URL reaches an OpenAI-style request are exactly the
    readable image files of at most 20 MB. *)
Theorem handleFileSelect_attachments (files : list ChatInput.File)
        (st : ChatInput.State) (msg : Message.t) :
  let st' := ChatInput.handleFileSelect (Some files) st in
  exists added,
    ChatInput.attachments st' = ChatInput.attachments st ++ added
    /\ ChatInput.message st' = ChatInput.message st
    /\ length added <= length files
    /\ Forall (fun a =>
                 (Attachment.size a <= 20 * 1024 * 1024)%Z
                 /\ Spec.isImage a
                    = Js.startsWith (Attachment.mimeType a) "image/")
              added
    /\ (Message.attachments msg = Some added ->
        Spec.imageUrls (Provider.chatMessage msg) = omap Spec.pickedImage files).
Proof.
  cbv zeta. exists (flat_map ChatInput.attachmentsOf files).
  split_and!.
  - destruct files; simpl; [by rewrite app_nil_r|done].
  - by destruct files.
  - induction files as [|file files IH]; [done|].
    simpl. rewrite length_app.
    assert (length (ChatInput.attachmentsOf file) <= 1); [|lia].
    unfold ChatInput.attachmentsOf.
    destruct (_ <? _)%Z; [simpl; lia|].
    destruct (ChatInput.file_dataUrl file); simpl; lia.
  - apply Forall_flat_map, Forall_forall. intros file _.
    eapply Forall_impl; [apply attachmentsOf_ok|].
    simpl. intros a (Hsize & Himage & _). by split.
  - intros Hatts.
    destruct (chatMessage_carries msg) as (_ & -> & _).
    unfold Spec.attachmentsOf. rewrite Hatts. apply picked_images.
Qed.

(* ===================================================================== *)
(** * providers: data URLs in the Gemini and Anthropic requests *)
(* ===================================================================== *)

Section DataUrl.
Implicit Types (s t : string) (c sep : ascii).

Lemma allChars_app (p : ascii -> bool) s t :
  Spec.allChars p (s ++ t)%string = Spec.allChars p s && Spec.allChars p t.
Proof.
  induction s as [|c s IH]; [done|].
  rewrite append_cons. simpl. rewrite IH. by rewrite andb_assoc.
Qed.

Lemma allChars_impl (p q : ascii -> bool) s :
  (forall c, p c = true -> q c = true) ->
  Spec.allChars p s = true -> Spec.allChars q s = true.
Proof.
  intros Hpq. induction s as [|c s IH]; [done|]. simpl.
  intros [Hc Hs]%andb_true_iff. by rewrite (Hpq c Hc), IH.
Qed.

(** A text without the separator is one piece. *)
Lemma split_whole sep s :
  Spec.allChars (fun c => negb (Ascii.eqb c sep)) s = true ->
  Js.split sep s = [s].
Proof.
  induction s as [|c s IH]; [done|]. simpl.
  intros [Hc Hs]%andb_true_iff. apply negb_true_iff in Hc.
  by rewrite Hc, (IH Hs).
Qed.

(** The first piece ends at the first separator. *)
Lemma split_first sep s t :
  Spec.allChars (fun c => negb (Ascii.eqb c sep)) s = true ->
  Js.split sep (s ++ String sep t)%string = s :: Js.split sep t.
Proof.
  induction s as [|c s IH].
  - intros _. rewrite append_nil_l. simpl. by rewrite Ascii.eqb_refl.
  - rewrite append_cons. cbn [Spec.allChars Js.split].
    intros [Hc Hs]%andb_true_iff. apply negb_true_iff in Hc.
    by rewrite Hc, (IH Hs).
Qed.

(** The lazy group stops at the first semicolon. *)
Lemma lazyGroup_first s t :
  Spec.allChars (fun c => negb (Ascii.eqb c ";")
                          && negb (Js.isLineTerminator c)) s = true ->
  Js.lazyGroupThenSemicolon (s ++ String ";" t)%string = Some s.
Proof.
  induction s as [|c s IH].
  - intros _. by rewrite append_nil_l.
  - rewrite append_cons. cbn [Spec.allChars Js.lazyGroupThenSemicolon].
    intros [Hc Hs]%andb_true_iff.
    apply andb_true_iff in Hc as [Hsemi Hline].
    apply negb_true_iff in Hsemi, Hline.
    by rewrite Hsemi, Hline, (IH Hs).
Qed.

(** What the two adapters read from a data URL. *)
Lemma dataUrl_parts (att : Attachment.t) (mime payload : string) :
  Attachment.data att = ("data:" ++ mime ++ ";base64," ++ payload)%string ->
  Spec.plainMime mime = true ->
  Spec.allChars (fun c => negb (Ascii.eqb c ",")) payload = true ->
  Provider.base64MimeType att = mime /\ Provider.base64Data att = payload.
Proof.
  intros Hdata [Htruthy Hmime]%andb_true_iff Hpayload.
  assert (Js.split "," (Attachment.data att)
          = [("data:" ++ mime ++ ";base64")%string; payload]) as Hsplit.
  { rewrite Hdata.
    replace ("data:" ++ mime ++ ";base64," ++ payload)%string
      with (("data:" ++ mime ++ ";base64") ++ String "," payload)%string.
    - rewrite split_first, (split_whole _ payload Hpayload); [done|].
      rewrite !allChars_app. apply andb_true_iff. split; [done|].
      apply andb_true_iff. split; [|done].
      eapply allChars_impl; [|exact Hmime]. simpl.
      intros c Hc. apply andb_true_iff in Hc as [Hc _].
      by apply andb_true_iff in Hc as [Hc _].
    - rewrite <- !append_assoc. reflexivity. }
  unfold Provider.base64MimeType, Provider.base64Header, Provider.base64Data.
  rewrite Hsplit. split; [|done].
  assert (Js.matchColonGroupSemicolon ("data:" ++ mime ++ ";base64")%string
          = Some mime) as ->.
  { rewrite !append_cons, append_nil_l.
    cbn [Js.matchColonGroupSemicolon Ascii.eqb Bool.eqb].
    change ";base64" with (String ";" "base64").
    rewrite lazyGroup_first; [done|].
    eapply allChars_impl; [|exact Hmime]. simpl.
    intros c Hc. apply andb_true_iff in Hc as [Hc Hline].
    apply andb_true_iff in Hc as [_ Hc]. by rewrite Hc, Hline. }
  by rewrite Htruthy.
Qed.
End DataUrl.

(** X14. A data URL [data:<mime>;base64,<payload>] (a non-empty MIME type
    without comma, semicolon or line break, a payload without comma) is
    taken apart again by the Gemini and Anthropic adapters: the request
    carries exactly [<mime>] as the media type and [<payload>] as the
    data, whatever [mimeType] the attachment declares. *)
Theorem dataUrl_decoded (att : Attachment.t) (mime payload : string) :
  Attachment.data att = ("data:" ++ mime ++ ";base64," ++ payload)%string ->
  Spec.plainMime mime = true ->
  Spec.allChars (fun c => negb (Ascii.eqb c ",")) payload = true ->
  Gemini.inlineDataPart att
  = JObject [("inline_data",
              JObject [("mime_type", JString mime);
                       ("data", JString payload)])]
  /\ (Spec.isImage att = true ->
      Anthropic.block att
      = [ JObject [("type", JString "image");
                   ("source",
                    JObject [("type", JString "base64");
                             ("media_type", JString mime);
                             ("data", JString payload)])] ]).
Proof.
  intros Hdata Hmime Hpayload.
  destruct (dataUrl_parts att mime payload Hdata Hmime Hpayload) as [Hm Hd].
  split.
  - unfold Gemini.inlineDataPart. by rewrite Hm, Hd.
  - unfold Anthropic.block, Spec.isImage. intros ->. by rewrite Hm, Hd.
Qed.

Lemma dataUrl_decoded_witness :
  let att := Attachment.mk "att-1" "image" "cat.png" "application/octet-stream"
                           120 "data:image/png;base64,iVBORw0KGgo=" in
  Gemini.inlineDataPart att
  = JObject [("inline_data",
              JObject [("mime_type", JString "image/png");
                       ("data", JString "iVBORw0KGgo=")])]
  /\ (Spec.isImage att = true ->
      Anthropic.block att
      = [ JObject [("type", JString "image");
                   ("source",
                    JObject [("type", JString "base64");
                             ("media_type", JString "image/png");
                             ("data", JString "iVBORw0KGgo=")])] ]).
Proof.
  apply (dataUrl_decoded
           (Attachment.mk "att-1" "image" "cat.png" "application/octet-stream"
                          120 "data:image/png;base64,iVBORw0KGgo=")
           "image/png" "iVBORw0KGgo=");
    reflexivity.
Defined.

(* ===================================================================== *)
(** * providers: the PDF header of the Anthropic request *)
(* ===================================================================== *)

Section Pdf.
Implicit Types (att : Attachment.t) (atts : list Attachment.t)
         (msg : Message.t) (messages : list Message.t).

Lemma block_document att part :
  part ∈ Anthropic.block att ->
  Spec.isDocumentBlock part = true -> Spec.isPdf att = true.
Proof.
  unfold Anthropic.block, Spec.isPdf.
  destruct (String.eqb (Attachment.type att) "image").
  - intros ->%list_elem_of_singleton. done.
  - destruct (String.eqb (Attachment.mimeType att) "application/pdf");
      [done|]. by intros ?%elem_of_nil.
Qed.

Lemma chatMessage_document msg part :
  part ∈ Spec.contentParts (Anthropic.chatMessage msg) ->
  Spec.isDocumentBlock part = true ->
  existsb Spec.isPdf (Spec.attachmentsOf msg) = true.
Proof.
  unfold Anthropic.chatMessage, Spec.contentParts, Spec.attachmentsOf.
  destruct (Message.attachments msg) as [[|att atts]|];
    [by intros ?%elem_of_nil| |by intros ?%elem_of_nil].
  cbn [JsValue.getOpt JsValue.get JsValue.assoc String.eqb Ascii.eqb
       Bool.eqb].
  intros Hin Hdoc.
  apply elem_of_app in Hin as [Hin|Hin].
  - apply list_elem_of_In, in_flat_map in Hin as (a & Ha & Hpart).
    apply existsb_exists. exists a. split; [done|].
    apply list_elem_of_In in Hpart. by eapply block_document.
  - destruct (Js.truthy (Message.content msg)).
    + apply list_elem_of_singleton in Hin. by subst part.
    + by apply elem_of_nil in Hin.
Qed.
End Pdf.

(** X15. The Anthropic request never carries a [document] block without
    the header [anthropic-beta: pdfs-2024-09-25]: whenever a chat message
    of the body holds such a block, the header is among those sent. *)
Theorem anthropic_document_needs_header (apiKey : string)
        (messages : list Message.t) (v part : JsValue) :
  v ∈ Anthropic.chatMessages messages ->
  part ∈ Spec.contentParts v ->
  Spec.isDocumentBlock part = true ->
  ("anthropic-beta", "pdfs-2024-09-25") ∈ Anthropic.headers apiKey messages.
Proof.
  intros Hv Hpart Hdoc.
  unfold Anthropic.chatMessages in Hv.
  apply list_elem_of_fmap in Hv as (msg & -> & Hmsg).
  apply list_elem_of_In, filter_In in Hmsg as [Hmsg _].
  pose proof (chatMessage_document msg part Hpart Hdoc) as Hpdf.
  unfold Anthropic.headers.
  assert (Anthropic.hasPdf messages = true) as ->.
  { unfold Anthropic.hasPdf. apply existsb_exists. exists msg.
    split; [done|].
    unfold Spec.attachmentsOf in Hpdf.
    destruct (Message.attachments msg); [exact Hpdf|done]. }
  apply elem_of_app. right. apply list_elem_of_here.
Qed.

Lemma anthropic_document_needs_header_witness :
  let pdf := Attachment.mk "att-2" "file" "cv.pdf" "application/pdf" 900
                           "data:application/pdf;base64,JVBERi0=" in
  let msg := Message.mk "u-1" user "Read this" 1 None None None (Some [pdf]) in
  ("anthropic-beta", "pdfs-2024-09-25") ∈ Anthropic.headers "sk" [msg].
Proof.
  cbv zeta.
  eapply (anthropic_document_needs_header "sk" _ _ _).
  - apply list_elem_of_here.
  - apply list_elem_of_here.
  - reflexivity.
Defined.

(* ===================================================================== *)
(** * providers: the pricing lookup ignores the case of the model id *)
(* ===================================================================== *)

Section Case.
Lemma lowerAscii_idempotent (c : ascii) :
  Js.lowerAscii (Js.lowerAscii c) = Js.lowerAscii c.
Proof. by destruct c as [[] [] [] [] [] [] [] []]. Qed.

Lemma toLowerCase_idempotent (s : string) :
  Js.toLowerCase (Js.toLowerCase s) = Js.toLowerCase s.
Proof.
  induction s as [|c s IH]; [done|].
  simpl. by rewrite lowerAscii_idempotent, IH.
Qed.
End Case.

(** X16. The price tier of a model id does not depend on the case of its
    letters: every adapter prices [modelId] as it prices its lower-case
    form, so the estimates for both are the same. *)
Theorem pricing_ignores_case (p : ProviderId) (modelId : string) (i o : Q) :
  Spec.tierOf p (Js.toLowerCase modelId) = Spec.tierOf p modelId
  /\ estimateCost (getAdapter p) i o (Js.toLowerCase modelId)
     = estimateCost (getAdapter p) i o modelId.
Proof.
  assert (Spec.tierOf p (Js.toLowerCase modelId) = Spec.tierOf p modelId)
    as Htier.
  { destruct p; simpl;
      unfold Gemini.getModelPricing, Anthropic.getModelPricing,
        Openai.getModelPricing, Xai.getModelPricing, Groq.getModelPricing;
      by rewrite ?toLowerCase_idempotent. }
  split; [exact Htier|].
  by rewrite !estimateCost_tierOf, Htier.
Qed.

(* ===================================================================== *)
(** * page.tsx: what a request leaves behind *)
(* ===================================================================== *)

(** Every run of [streamChat] either rejects without a callback or
    resolves after the tokens and one terminal callback. *)
Lemma streamChat_shape (p : ProviderId) (B : Builtins)
      (messages : list Message.t) (config : ChatConfig) (apiKey : string)
      (net : FetchResult) :
  (exists err,
      streamChat (getAdapter p) B messages config apiKey net
      = ([], Rejected err))
  \/ (exists tokens terminal,
         streamChat (getAdapter p) B messages config apiKey net
         = (map OnToken tokens ++ [terminal], Resolved)
         /\ (terminal = OnComplete (Spec.joined tokens)
             \/ exists err, terminal = OnError err)).
Proof.
  rewrite streamChat_getAdapter. unfold Provider.streamChatBody.
  destruct net as [error|response]; [by left; eexists|].
  destruct (negb (ok response)).
  - left. destruct (text response); by eexists.
  - destruct (body response) as [reader|]; [|by left; eexists].
    right.
    destruct (readBody_shape B (Spec.tokenPathOf p) reader) as [tokens ->].
    exists tokens. eexists. split; [reflexivity|].
    destruct (ending reader) as [|error]; [by left|].
    destruct (isAbortError error); [by left|right; by eexists].
Qed.

Section Filling.
Variables (f : Page.Flavour) (adapter : ProviderAdapter) (env : Page.Env)
          (apiMessages : list Message.t) (model targetId : string).
Implicit Types (s : Page.State) (prev : Conversation.t)
         (tokens : list string) (fr : string).

Lemma onToken_closed fr s prev :
  Page.conversation s = Some prev ->
  Page.onToken f targetId fr s
  = Page.setConversation
      (Some (Spec.rebuild prev
               (map (Spec.fill targetId (Message.with_content fr))
                    (Conversation.messages prev))
               (Conversation.totalCost prev) (Page.flagAfter f prev)))
      s.
Proof. intros Hprev. unfold Page.onToken. by rewrite Hprev. Qed.

(** Filling twice is filling once with the later function, when the
    later function forgets what the earlier one wrote. *)
Lemma fill_fill (g h : Message.t -> Message.t) (ms : list Message.t) :
  (forall m, Message.id (g m) = Message.id m) ->
  (forall m, h (g m) = h m) ->
  map (Spec.fill targetId h) (map (Spec.fill targetId g) ms)
  = map (Spec.fill targetId h) ms.
Proof.
  intros Hid Hforget. rewrite map_map. apply map_ext. intros m.
  unfold Spec.fill.
  destruct (String.eqb (Message.id m) targetId) eqn:Hm.
  - by rewrite Hid, Hm, Hforget.
  - by rewrite Hm.
Qed.

Lemma flagAfter_rebuild prev ms cost :
  Page.flagAfter f (Spec.rebuild prev ms cost (Page.flagAfter f prev))
  = Page.flagAfter f prev.
Proof. by destruct f. Qed.

(** The tokens of a stream leave the placeholder holding their
    concatenation; nothing else of the state changes. *)
Lemma deliver_tokens_closed tokens fr s prev :
  Page.conversation s = Some prev ->
  tokens <> [] ->
  Page.deliver f adapter env apiMessages model targetId
               (map OnToken tokens) fr s
  = Page.setConversation
      (Some (Spec.rebuild prev
               (map (Spec.fill targetId
                       (Message.with_content (fr ++ Spec.joined tokens)))
                    (Conversation.messages prev))
               (Conversation.totalCost prev) (Page.flagAfter f prev)))
      s.
Proof.
  revert fr s prev. induction tokens as [|t ts IH]; intros fr s prev Hprev Hne;
    [done|].
  cbn [map Page.deliver]. rewrite (onToken_closed _ s prev Hprev).
  destruct ts as [|t' ts].
  - simpl. by rewrite joined_cons, append_nil_r.
  - erewrite IH; [|reflexivity|done].
    cbn [Spec.rebuild Conversation.messages Conversation.totalCost
         Conversation.id Conversation.title Conversation.providerId
         Conversation.modelId Conversation.createdAt Conversation.updatedAt
         Conversation.pinned Conversation.groupId].
    rewrite fill_fill by done.
    rewrite (joined_cons t (t' :: ts)), append_assoc.
    fold (Spec.rebuild prev
            (map (Spec.fill targetId (Message.with_content (fr ++ t)))
                 (Conversation.messages prev))
            (Conversation.totalCost prev) (Page.flagAfter f prev)).
    by rewrite flagAfter_rebuild.
Qed.

Lemma deliver_app events1 events2 fr s :
  exists fr',
    Page.deliver f adapter env apiMessages model targetId
                 (events1 ++ events2) fr s
    = Page.deliver f adapter env apiMessages model targetId events2 fr'
        (Page.deliver f adapter env apiMessages model targetId events1 fr s).
Proof.
  revert fr s. induction events1 as [|[t|r|e] events1 IH]; intros fr s; simpl.
  - by exists fr.
  - apply IH.
  - apply IH.
  - apply IH.
Qed.
End Filling.

Section Terminal.
Variables (f : Page.Flavour) (adapter : ProviderAdapter) (env : Page.Env)
          (apiMessages : list Message.t) (model targetId : string).
Implicit Types (s : Page.State) (tokens : list string) (fr : string).

Lemma onComplete_closed response s prev :
  Page.conversation s = Some prev ->
  let updated :=
    Spec.rebuild prev
      (map (Spec.fill targetId
              (Message.finalized response
                 (Storage.estimateTokens response None)
                 (inject_Z (Page.endTime env - Page.startTime env) / 1000)%Q
                 model))
           (Conversation.messages prev))
      (Some (Page.totalCostOrZero prev
             + Spec.completionCost f adapter apiMessages model response)%Q)
      (Page.flagAfter f prev) in
  Page.onComplete f adapter env apiMessages model targetId response s
  = Page.setStreamingMessageId None
      (Page.setIsLoading false
         (Page.setSessionCost
            (Page.sessionCost s
             + Spec.completionCost f adapter apiMessages model response)%Q
            (Page.setConversation (Some updated)
               (Page.saveConversation updated s)))).
Proof. intros Hprev. unfold Page.onComplete. by rewrite Hprev. Qed.

(** [onComplete] overwrites all that the tokens wrote: the state after a
    completed stream does not depend on how the response was cut into
    tokens. *)
Lemma deliver_complete tokens response fr s :
  Page.deliver f adapter env apiMessages model targetId
               (map OnToken tokens ++ [OnComplete response]) fr s
  = Page.onComplete f adapter env apiMessages model targetId response s.
Proof.
  destruct (deliver_app f adapter env apiMessages model targetId
              (map OnToken tokens) [OnComplete response] fr s) as [fr' ->].
  cbn [Page.deliver].
  destruct (Page.conversation s) as [prev|] eqn:Hprev.
  - destruct tokens as [|t ts]; [done|].
    rewrite (deliver_tokens_closed f adapter env apiMessages model targetId
               (t :: ts) fr s prev Hprev) by done.
    erewrite onComplete_closed by reflexivity.
    rewrite (onComplete_closed response s prev Hprev).
    cbv zeta.
    cbn [Spec.rebuild Conversation.messages Conversation.totalCost
         Conversation.id Conversation.title Conversation.providerId
         Conversation.modelId Conversation.createdAt Conversation.updatedAt
         Conversation.pinned Conversation.groupId].
    rewrite (fill_fill targetId) by done.
    unfold Page.totalCostOrZero. simpl.
    destruct f; reflexivity.
  - assert (forall ts fr0,
               Page.deliver f adapter env apiMessages model targetId
                            (map OnToken ts) fr0 s = s) as ->; [|done].
    induction ts as [|t ts IH]; intros fr0; [done|].
    cbn [map Page.deliver]. unfold Page.onToken. rewrite Hprev. apply IH.
Qed.

Lemma deliver_error tokens err fr s :
  Page.deliver f adapter env apiMessages model targetId
               (map OnToken tokens ++ [OnError err]) fr s
  = Page.onError err
      (Page.deliver f adapter env apiMessages model targetId
                    (map OnToken tokens) fr s).
Proof.
  by destruct (deliver_app f adapter env apiMessages model targetId
                 (map OnToken tokens) [OnError err] fr s) as [fr' ->].
Qed.

(** The tokens touch nothing but the conversation. *)
Lemma deliver_tokens_frame tokens fr s :
  exists conv',
    Page.deliver f adapter env apiMessages model targetId
                 (map OnToken tokens) fr s
    = Page.setConversation conv' s.
Proof.
  revert fr s. induction tokens as [|t ts IH]; intros fr s.
  - exists (Page.conversation s). by destruct s.
  - cbn [map Page.deliver].
    destruct (IH (fr ++ t)%string (Page.onToken f targetId (fr ++ t) s))
      as [conv' ->].
    exists conv'. unfold Page.onToken.
    by destruct (Page.conversation s).
Qed.
End Terminal.

Section Fresh.
Implicit Types (ms : list Message.t) (g : Message.t -> Message.t).

Lemma fill_fresh (targetId : string) g ms :
  targetId ∉ Message.id <$> ms ->
  map (Spec.fill targetId g) ms = ms.
Proof.
  induction ms as [|m ms IH]; [done|].
  rewrite fmap_cons. intros [Hm Hms]%not_elem_of_cons.
  simpl. rewrite IH by done. unfold Spec.fill.
  destruct (String.eqb (Message.id m) targetId) eqn:Heq; [|done].
  apply String.eqb_eq in Heq. congruence.
Qed.

(** Only the placeholder, which comes last, is filled in. *)
Lemma fill_last (targetId : string) g ms (ph : Message.t) :
  targetId ∉ Message.id <$> ms ->
  Message.id ph = targetId ->
  map (Spec.fill targetId g) (ms ++ [ph]) = ms ++ [g ph].
Proof.
  intros Hfresh Hph. rewrite map_app, fill_fresh by done.
  simpl. unfold Spec.fill. by rewrite Hph, String.eqb_refl.
Qed.

Lemma dropLast_snoc {A : Type} (l : list A) (x : A) :
  Page.dropLast (l ++ [x]) = l.
Proof.
  unfold Page.dropLast. rewrite length_app. simpl.
  replace (length l + 1 - 1) with (length l) by lia.
  by rewrite take_app_length.
Qed.
End Fresh.

Section TokenCounts.
Lemma estimateTokens_nonneg text attachments :
  (0 <= Storage.estimateTokens text attachments)%Z.
Proof.
  unfold Storage.estimateTokens. rewrite Math_ceil_quarter.
  assert (0 <= (Z.of_nat (String.length text) + 3) / 4)%Z
    by (apply Z.div_pos; lia).
  destruct attachments as [atts|]; [|done].
  destruct (0 <? length atts)%nat; lia.
Qed.

Lemma inputTokens_nonneg (ms : list Message.t) :
  (0 <= Spec.inputTokens ms)%Z.
Proof.
  unfold Spec.inputTokens.
  assert (forall acc, (0 <= acc)%Z ->
            (0 <= fold_left
                    (fun acc m =>
                       (acc + Storage.estimateTokens (Message.content m)
                                                     (Message.attachments m))%Z)
                    ms acc)%Z) as H; [|by apply H].
  induction ms as [|m ms IH]; intros acc Hacc; [done|].
  simpl. apply IH.
  pose proof (estimateTokens_nonneg (Message.content m) (Message.attachments m)).
  lia.
Qed.

Lemma costOf_nonneg s ms response : (0 <= Spec.costOf s ms response)%Q.
Proof.
  unfold Spec.costOf. rewrite estimateCost_tierOf.
  destruct (tierOf_nonneg (Page.selectedProvider s) (Page.selectedModel s)).
  apply calculateCost_nonneg; try done.
  - change 0%Q with (inject_Z 0). rewrite <- Zle_Qle.
    apply inputTokens_nonneg.
  - change 0%Q with (inject_Z 0). rewrite <- Zle_Qle.
    apply estimateTokens_nonneg.
Qed.
End TokenCounts.

(** [handleSend] past the configuration check. *)
Lemma handleSend_unfold B env net content attachments s apiKey :
  Page.apiKeys s (Page.selectedProvider s) = Some apiKey ->
  Js.truthy apiKey = true ->
  Js.truthy (Page.selectedModel s) = true ->
  Page.handleSend B env net content attachments s
  = (Page.awaitStreamChat B Page.SendOrRetry true env net
       (Spec.sendMessages env content attachments s)
       (Page.chatConfig s (Page.preferencesSystemPrompt s)) apiKey
       (Page.uuid_assistant env)
       (Spec.sendPrepared env content attachments s),
     [ {| Page.call_provider := Page.selectedProvider s;
          Page.call_messages := Spec.sendMessages env content attachments s;
          Page.call_config :=
            Page.chatConfig s (Page.preferencesSystemPrompt s);
          Page.call_apiKey := apiKey |} ]).
Proof.
  intros Hkey Htruthy Hmodel. unfold Page.handleSend.
  rewrite Hkey, Htruthy, Hmodel. cbv zeta. simpl negb. simpl orb. cbv iota.
  assert (forall (ms : list Message.t) u a,
             Page.dropLast (ms ++ [u; a]) = ms ++ [u]) as Hdrop.
  { intros ms u a. change (ms ++ [u; a]) with (ms ++ [u] ++ [a]).
    by rewrite app_assoc, dropLast_snoc. }
  unfold Spec.sendMessages, Spec.systemPrefix, Spec.sendPrepared,
    Spec.sendConversation, Spec.currentConv, Spec.userMessage, Spec.sendPrompt.
  cbv zeta. simpl Page.conversation. simpl Page.preferencesSystemPrompt.
  simpl Page.selectedProvider. simpl Page.selectedModel.
  rewrite Hdrop.
  destruct (Page.conversation s) as [c|];
    by destruct (Page.flagSet _).
Qed.

Section SendOutcome.
Variables (B : Builtins) (env : Page.Env) (net : FetchResult)
          (content : string) (attachments : option (list Attachment.t))
          (s : Page.State) (apiKey : string).
Hypothesis Hkey : Page.apiKeys s (Page.selectedProvider s) = Some apiKey.
Hypothesis Htruthy : Js.truthy apiKey = true.
Hypothesis Hmodel : Js.truthy (Page.selectedModel s) = true.

(** The state [handleSend] ends in, from the adapter's trace. *)
Lemma handleSend_outcome events settled :
  streamChat (getAdapter (Page.selectedProvider s)) B
             (Spec.sendMessages env content attachments s)
             (Page.chatConfig s (Page.preferencesSystemPrompt s)) apiKey net
  = (events, settled) ->
  fst (Page.handleSend B env net content attachments s)
  = let s1 :=
      Page.deliver Page.SendOrRetry (getAdapter (Page.selectedProvider s))
                   env (Spec.sendMessages env content attachments s)
                   (Page.selectedModel s) (Page.uuid_assistant env)
                   events "" (Spec.sendPrepared env content attachments s) in
    match settled with
    | Resolved => s1
    | Rejected err => Page.catchRejection true err s1
    end.
Proof.
  intros Htrace. rewrite (handleSend_unfold _ _ _ _ _ _ apiKey) by done.
  cbn [fst]. unfold Page.awaitStreamChat. cbv zeta.
  change (Page.selectedProvider (Spec.sendPrepared env content attachments s))
    with (Page.selectedProvider s).
  change (Page.selectedModel (Spec.sendPrepared env content attachments s))
    with (Page.selectedModel s).
  by rewrite Htrace.
Qed.
End SendOutcome.

(** A Send whose stream completes, when the page handles nothing while
    the request is in flight: the conversation is the former one followed
    by the user message and the assistant message holding the full
    response, its token estimate, timing and model.  That conversation is
    what the store holds under its id, its total cost and the session
    cost have grown by the same non-negative estimate, and the page is
    idle again, without error. *)
Lemma send_completed_uninterrupted
        (B : Builtins) (env : Page.Env) (net : FetchResult) (content : string)
        (attachments : option (list Attachment.t)) (s : Page.State)
        (apiKey : string) (tokens : list string) (response : string) :
  Page.apiKeys s (Page.selectedProvider s) = Some apiKey ->
  Js.truthy apiKey = true ->
  Js.truthy (Page.selectedModel s) = true ->
  let c := Spec.currentConv env s in
  let history := Conversation.messages c in
  let userMessage := Spec.userMessage env content attachments in
  let apiMessages := Spec.sendMessages env content attachments s in
  Page.uuid_assistant env ∉ Message.id <$> (history ++ [userMessage]) ->
  streamChat (getAdapter (Page.selectedProvider s)) B apiMessages
             (Page.chatConfig s (Page.preferencesSystemPrompt s)) apiKey net
  = (map OnToken tokens ++ [OnComplete response], Resolved) ->
  let s' := fst (Page.handleSend B env net content attachments s) in
  let cost := Spec.costOf s apiMessages response in
  let final :=
    Spec.rebuild (Spec.sendConversation env content attachments s)
                 (history ++ [userMessage; Spec.answer env s response])
                 (Some (Page.totalCostOrZero c + cost)%Q)
                 (Conversation.disableSystemPrompt c) in
  Page.conversation s' = Some final
  /\ Storage.getConversation (Conversation.id c) (Page.storedConversations s')
     = Some final
  /\ Page.sessionCost s' = (Page.sessionCost s + cost)%Q
  /\ (0 <= cost)%Q
  /\ Page.isLoading s' = false
  /\ Page.streamingMessageId s' = None
  /\ Page.error s' = None.
Proof.
  intros Hkey Htruthy Hmodel c history userMessage apiMessages Hfresh Htrace
         s' cost final.
  assert (s' = Page.onComplete Page.SendOrRetry
                 (getAdapter (Page.selectedProvider s)) env apiMessages
                 (Page.selectedModel s) (Page.uuid_assistant env) response
                 (Spec.sendPrepared env content attachments s)) as Hs'.
  { unfold s'.
    rewrite (handleSend_outcome B env net content attachments s apiKey
               Hkey Htruthy Hmodel _ _ Htrace).
    cbv zeta. apply deliver_complete. }
  rewrite (onComplete_closed _ _ _ _ _ _ _ _
             (Spec.sendConversation env content attachments s)) in Hs'
    by reflexivity.
  cbv zeta in Hs'.
  assert (Spec.rebuild (Spec.sendConversation env content attachments s)
            (map (Spec.fill (Page.uuid_assistant env)
                    (Message.finalized response
                       (Storage.estimateTokens response None)
                       (inject_Z (Page.endTime env - Page.startTime env) / 1000)%Q
                       (Page.selectedModel s)))
                 (Conversation.messages
                    (Spec.sendConversation env content attachments s)))
            (Some (Page.totalCostOrZero
                     (Spec.sendConversation env content attachments s)
                   + Spec.completionCost Page.SendOrRetry
                       (getAdapter (Page.selectedProvider s)) apiMessages
                       (Page.selectedModel s) response)%Q)
            (Page.flagAfter Page.SendOrRetry
               (Spec.sendConversation env content attachments s))
          = final) as Hfinal.
  { unfold final. f_equal.
    cbn [Spec.sendConversation Conversation.messages].
    fold c. fold history. fold userMessage.
    change (history ++ [userMessage;
                        Page.placeholder (Page.uuid_assistant env)
                                         (Page.now_assistant env)])
      with (history ++ [userMessage]
            ++ [Page.placeholder (Page.uuid_assistant env)
                                 (Page.now_assistant env)]).
    rewrite app_assoc, fill_last by done.
    by rewrite <- app_assoc. }
  rewrite Hfinal in Hs'. rewrite Hs'.
  split_and!; try reflexivity.
  - cbn [Page.storedConversations Page.setStreamingMessageId Page.setIsLoading
         Page.setSessionCost Page.setConversation Page.saveConversation
         Page.setStoredConversations].
    exact (getConversation_save_same final _).
  - apply costOf_nonneg.
Qed.



(** A Send whose stream breaks after some tokens with an error other
    than an abort, when the page handles nothing while the request is in
    flight: the page keeps showing the partial text in the placeholder and
    shows the error's message, but the stored conversation still has the
    empty placeholder, and nothing is charged. *)
Lemma send_stream_error_uninterrupted
        (B : Builtins) (env : Page.Env) (net : FetchResult) (content : string)
        (attachments : option (list Attachment.t)) (s : Page.State)
        (apiKey : string) (tokens : list string) (err : JsError) :
  Page.apiKeys s (Page.selectedProvider s) = Some apiKey ->
  Js.truthy apiKey = true ->
  Js.truthy (Page.selectedModel s) = true ->
  let c := Spec.currentConv env s in
  let history := Conversation.messages c in
  let userMessage := Spec.userMessage env content attachments in
  let apiMessages := Spec.sendMessages env content attachments s in
  Page.uuid_assistant env ∉ Message.id <$> (history ++ [userMessage]) ->
  streamChat (getAdapter (Page.selectedProvider s)) B apiMessages
             (Page.chatConfig s (Page.preferencesSystemPrompt s)) apiKey net
  = (map OnToken tokens ++ [OnError err], Resolved) ->
  let s' := fst (Page.handleSend B env net content attachments s) in
  let updatedConv := Spec.sendConversation env content attachments s in
  let partial :=
    Message.with_content
      (Spec.joined tokens)
      (Page.placeholder (Page.uuid_assistant env) (Page.now_assistant env)) in
  Page.conversation s'
  = Some (Spec.rebuild updatedConv (history ++ [userMessage; partial])
                       (Conversation.totalCost c)
                       (Conversation.disableSystemPrompt c))
  /\ Storage.getConversation (Conversation.id c) (Page.storedConversations s')
     = Some updatedConv
  /\ Page.error s' = Some (err_message err)
  /\ Page.sessionCost s' = Page.sessionCost s
  /\ Page.isLoading s' = false
  /\ Page.streamingMessageId s' = None.
Proof.
  intros Hkey Htruthy Hmodel c history userMessage apiMessages Hfresh Htrace
         s' updatedConv partial.
  assert (s' = Page.onError err
                 (Page.deliver Page.SendOrRetry
                    (getAdapter (Page.selectedProvider s)) env apiMessages
                    (Page.selectedModel s) (Page.uuid_assistant env)
                    (map OnToken tokens) ""
                    (Spec.sendPrepared env content attachments s))) as ->.
  { unfold s'.
    rewrite (handleSend_outcome B env net content attachments s apiKey
               Hkey Htruthy Hmodel _ _ Htrace).
    cbv zeta. apply deliver_error. }
  assert (map (Spec.fill (Page.uuid_assistant env)
                 (Message.with_content (Spec.joined tokens)))
              (Conversation.messages updatedConv)
          = history ++ [userMessage; partial]) as Hfill.
  { unfold updatedConv. cbn [Spec.sendConversation Conversation.messages].
    fold c. fold history. fold userMessage.
    change (history ++ [userMessage;
                        Page.placeholder (Page.uuid_assistant env)
                                         (Page.now_assistant env)])
      with (history ++ [userMessage]
            ++ [Page.placeholder (Page.uuid_assistant env)
                                 (Page.now_assistant env)]).
    rewrite app_assoc, fill_last by done.
    by rewrite <- app_assoc. }
  destruct tokens as [|t ts].
  - cbn [map Page.deliver]. split_and!; try reflexivity.
    exact (getConversation_save_same updatedConv _).
  - rewrite (deliver_tokens_closed _ _ _ _ _ _ (t :: ts) "" _ updatedConv)
      by done.
    rewrite append_nil_l, Hfill.
    split_and!; try reflexivity.
    exact (getConversation_save_same updatedConv _).
Qed.

Section Idle.
Implicit Types (s : Page.State).

Lemma onComplete_idle f adapter env apiMessages model targetId response s :
  let s' := Page.onComplete f adapter env apiMessages model targetId
                            response s in
  Page.isLoading s' = false /\ Page.streamingMessageId s' = None.
Proof. unfold Page.onComplete. by destruct (Page.conversation s). Qed.

Lemma catchRejection_idle detect err s :
  let s' := Page.catchRejection detect err s in
  Page.isLoading s' = false /\ Page.streamingMessageId s' = None.
Proof. by unfold Page.catchRejection. Qed.

(** Whatever the network does, the page is idle when the awaited call
    has settled. *)
Lemma awaitStreamChat_idle B f detect env net apiMessages config apiKey
      targetId s :
  let s' := Page.awaitStreamChat B f detect env net apiMessages config
                                 apiKey targetId s in
  Page.isLoading s' = false /\ Page.streamingMessageId s' = None.
Proof.
  cbv zeta. unfold Page.awaitStreamChat.
  destruct (streamChat_shape (Page.selectedProvider s) B apiMessages config
                             apiKey net)
    as [[err ->]|(tokens & terminal & -> & Hterminal)].
  - apply catchRejection_idle.
  - destruct Hterminal as [->|[err ->]].
    + rewrite deliver_complete. apply onComplete_idle.
    + by rewrite deliver_error.
Qed.
End Idle.

(** X20. No request leaves the page loading: whenever Send, Retry or
    Continue-without-system-prompt has called the adapter, the handler
    ends with [isLoading] false and no streaming message, whatever the
    network did (rejection, HTTP error, missing body, broken or aborted
    stream, completion). *)
Theorem request_ends_idle (B : Builtins) (env : Page.Env) (net : FetchResult)
        (s : Page.State) :
  (forall content attachments,
      let result := Page.handleSend B env net content attachments s in
      snd result <> [] ->
      Page.isLoading (fst result) = false
      /\ Page.streamingMessageId (fst result) = None)
  /\ (forall messageId,
         let result := Page.handleRetry B env net messageId s in
         snd result <> [] ->
         Page.isLoading (fst result) = false
         /\ Page.streamingMessageId (fst result) = None)
  /\ (let result := Page.handleContinueWithoutSystemPrompt B env net s in
      snd (fst result) <> [] ->
      Page.isLoading (fst (fst result)) = false
      /\ Page.streamingMessageId (fst (fst result)) = None).
Proof.
  split_and!.
  - intros content attachments. cbv zeta. unfold Page.handleSend.
    destruct (Page.apiKeys s (Page.selectedProvider s)) as [key|]; [|done].
    destruct (negb (Js.truthy key) || negb (Js.truthy (Page.selectedModel s)));
      [done|].
    intros _. apply awaitStreamChat_idle.
  - intros messageId. cbv zeta. unfold Page.handleRetry.
    destruct (Page.retryPrepare env messageId s)
      as [s0 [[[[updatedConv full] placeholder] key]|]]; [|done].
    intros _. apply awaitStreamChat_idle.
  - cbv zeta. unfold Page.handleContinueWithoutSystemPrompt.
    destruct (Page.conversation _) as [conv|]; [|done].
    destruct (last (Conversation.messages conv)) as [lastMessage|]; [|done].
    destruct (negb (Role_eqb (Message.role lastMessage) assistant)); [done|].
    destruct (Page.apiKeys _ _) as [key|]; [|done].
    destruct (negb (Js.truthy key)); [done|].
    intros _. apply awaitStreamChat_idle.
Qed.

(** [handleRetry] past its early returns. *)
Lemma handleRetry_unfold B env net messageId s conv index target apiKey :
  Page.conversation s = Some conv ->
  list_find (Page.hasMessageId messageId) (Conversation.messages conv)
  = Some (index, target) ->
  Page.apiKeys s (Page.selectedProvider s) = Some apiKey ->
  Js.truthy apiKey = true ->
  Js.truthy (Page.selectedModel s) = true ->
  let apiMessages :=
    Spec.retryPrefix env s conv
    ++ take (index + 1) (Conversation.messages conv) in
  Page.handleRetry B env net messageId s
  = (Page.awaitStreamChat B Page.SendOrRetry false env net apiMessages
       (Page.chatConfig s (Page.preferencesSystemPrompt s)) apiKey
       (Page.uuid_assistant env) (Spec.retryPrepared env conv index s),
     [ {| Page.call_provider := Page.selectedProvider s;
          Page.call_messages := apiMessages;
          Page.call_config :=
            Page.chatConfig s (Page.preferencesSystemPrompt s);
          Page.call_apiKey := apiKey |} ]).
Proof.
  intros Hconv Hfind Hkey Htruthy Hmodel. cbv zeta.
  unfold Page.handleRetry, Page.retryPrepare.
  rewrite Hconv, Hfind, Hkey, Htruthy, Hmodel.
  cbv zeta. simpl negb. simpl orb. cbv iota.
  unfold Spec.retryPrefix. cbn [Conversation.disableSystemPrompt].
  by destruct (Page.flagSet _).
Qed.

(** A Retry whose stream completes, when the page handles nothing while
    the request is in flight: the conversation keeps the messages up to
    and including the retried one, drops every later message, and ends
    with the new assistant message holding the response.  The estimate of
    the new request is added to the total cost the conversation already
    had and to the session cost, and the result is saved. *)
Lemma retry_completed_uninterrupted
        (B : Builtins) (env : Page.Env) (net : FetchResult)
        (messageId : string) (s : Page.State) (conv : Conversation.t)
        (index : nat) (target : Message.t) (apiKey : string)
        (tokens : list string) (response : string) :
  Page.conversation s = Some conv ->
  list_find (Page.hasMessageId messageId) (Conversation.messages conv)
  = Some (index, target) ->
  Page.apiKeys s (Page.selectedProvider s) = Some apiKey ->
  Js.truthy apiKey = true ->
  Js.truthy (Page.selectedModel s) = true ->
  let kept := take (index + 1) (Conversation.messages conv) in
  let apiMessages := Spec.retryPrefix env s conv ++ kept in
  Page.uuid_assistant env ∉ Message.id <$> kept ->
  streamChat (getAdapter (Page.selectedProvider s)) B apiMessages
             (Page.chatConfig s (Page.preferencesSystemPrompt s)) apiKey net
  = (map OnToken tokens ++ [OnComplete response], Resolved) ->
  let s' := fst (Page.handleRetry B env net messageId s) in
  let cost := Spec.costOf s apiMessages response in
  let final :=
    Spec.rebuild (Spec.retryConversation env conv index)
                 (kept ++ [Spec.answer env s response])
                 (Some (Page.totalCostOrZero conv + cost)%Q)
                 (Conversation.disableSystemPrompt conv) in
  Page.conversation s' = Some final
  /\ last kept = Some target
  /\ Storage.getConversation (Conversation.id conv)
                             (Page.storedConversations s')
     = Some final
  /\ Page.sessionCost s' = (Page.sessionCost s + cost)%Q
  /\ (0 <= cost)%Q
  /\ Page.error s' = None.
Proof.
  intros Hconv Hfind Hkey Htruthy Hmodel kept apiMessages Hfresh Htrace
         s' cost final.
  assert (s' = Page.onComplete Page.SendOrRetry
                 (getAdapter (Page.selectedProvider s)) env apiMessages
                 (Page.selectedModel s) (Page.uuid_assistant env) response
                 (Spec.retryPrepared env conv index s)) as Hs'.
  { unfold s'.
    rewrite (handleRetry_unfold B env net messageId s conv index target apiKey)
      by done.
    cbn [fst]. unfold Page.awaitStreamChat. cbv zeta.
    change (Page.selectedProvider (Spec.retryPrepared env conv index s))
      with (Page.selectedProvider s).
    change (Page.selectedModel (Spec.retryPrepared env conv index s))
      with (Page.selectedModel s).
    fold kept. fold apiMessages. rewrite Htrace. apply deliver_complete. }
  rewrite (onComplete_closed _ _ _ _ _ _ _ _
             (Spec.retryConversation env conv index)) in Hs' by reflexivity.
  cbv zeta in Hs'.
  assert (map (Spec.fill (Page.uuid_assistant env)
                 (Message.finalized response
                    (Storage.estimateTokens response None)
                    (inject_Z (Page.endTime env - Page.startTime env) / 1000)%Q
                    (Page.selectedModel s)))
              (Conversation.messages (Spec.retryConversation env conv index))
          = kept ++ [Spec.answer env s response]) as Hfill.
  { cbn [Spec.retryConversation Conversation.messages]. fold kept.
    by rewrite fill_last. }
  rewrite Hfill in Hs'. rewrite Hs'.
  split_and!; try reflexivity.
  - apply list_find_Some in Hfind as (Hlook & _).
    unfold kept. replace (index + 1) with (S index) by lia.
    erewrite take_S_r by exact Hlook. apply last_snoc.
  - cbn [Page.storedConversations Page.setStreamingMessageId Page.setIsLoading
         Page.setSessionCost Page.setConversation Page.saveConversation
         Page.setStoredConversations].
    exact (getConversation_save_same final _).
  - apply costOf_nonneg.
Qed.


(* ===================================================================== *)
(** * From Send to the vendors' requests: the system prompt *)
(* ===================================================================== *)

Section Routing.
Implicit Types (m sys : Message.t) (ms rest : list Message.t)
         (config : ChatConfig).







End Routing.



(* ===================================================================== *)
(** * page.tsx: loading the models and enabling the input *)
(* ===================================================================== *)

Lemma hasKey_Some s :
  Page.hasKey s = true ->
  exists apiKey,
    Page.apiKeys s (Page.selectedProvider s) = Some apiKey
    /\ Js.truthy apiKey = true.
Proof.
  unfold Page.hasKey.
  destruct (Page.apiKeys s (Page.selectedProvider s)) as [apiKey|]; [|done].
  intros Htruthy. by exists apiKey.
Qed.

(** X23. Once [loadModels] has fetched a catalog that is not empty for a
    provider with a key, a model is selected (the one already selected,
    else the first of the catalog), the input is enabled, and a Send then
    calls the adapter once for that provider and model.  Conversely,
    whenever the input is disabled although no catalog is loading, Send
    makes no request and reports the configuration error. *)
Theorem loaded_models_enable_send
        (B : Builtins) (env : Page.Env) (net : FetchResult) (content : string)
        (attachments : option (list Attachment.t)) (s : Page.State)
        (p : Page.Picker) (first : Model.t) (rest : list Model.t) :
  Page.hasKey s = true ->
  Js.truthy (Model.id first) = true ->
  let loaded := Page.loadModels (inr (first :: rest)) s p in
  Page.canSendMessage (fst loaded) (snd loaded) = true
  /\ Page.models (snd loaded) = first :: rest
  /\ Page.selectedModel (fst loaded)
     = (if Js.truthy (Page.selectedModel s) then Page.selectedModel s
        else Model.id first)
  /\ (exists call,
         snd (Page.handleSend B env net content attachments (fst loaded))
         = [call]
         /\ Page.call_provider call = Page.selectedProvider s
         /\ cfg_model (Page.call_config call)
            = Page.selectedModel (fst loaded))
  /\ (forall s0 p0,
         Page.canSendMessage s0 p0 = false ->
         Page.loadingModels p0 = false ->
         let refused := Page.handleSend B env net content attachments s0 in
         snd refused = []
         /\ Page.error (fst refused) = Some Page.configurationError).
Proof.
  intros Hkey Hfirst loaded.
  assert (Page.hasKey (fst loaded) = true) as Hkey'.
  { unfold loaded, Page.loadModels. rewrite Hkey. simpl.
    unfold Page.hasKey in *. by destruct (Js.truthy (Page.selectedModel s)). }
  assert (Page.selectedModel (fst loaded)
          = (if Js.truthy (Page.selectedModel s) then Page.selectedModel s
             else Model.id first)) as Hselected.
  { unfold loaded, Page.loadModels. rewrite Hkey. simpl.
    by destruct (Js.truthy (Page.selectedModel s)). }
  assert (Js.truthy (Page.selectedModel (fst loaded)) = true) as Hmodel.
  { rewrite Hselected.
    by destruct (Js.truthy (Page.selectedModel s)) eqn:Hs. }
  assert (Page.selectedProvider (fst loaded) = Page.selectedProvider s)
    as Hprovider.
  { unfold loaded, Page.loadModels. rewrite Hkey. simpl.
    by destruct (Js.truthy (Page.selectedModel s)). }
  split_and!.
  - unfold Page.canSendMessage. rewrite Hkey', Hmodel.
    unfold loaded, Page.loadModels. by rewrite Hkey.
  - unfold loaded, Page.loadModels. by rewrite Hkey.
  - exact Hselected.
  - destruct (hasKey_Some _ Hkey') as (apiKey & Hsome & Htruthy).
    rewrite (handleSend_unfold B env net content attachments (fst loaded)
               apiKey) by done.
    eexists. split; [reflexivity|]. by split.
  - intros s0 p0 Hcan Hloading. cbv zeta. unfold Page.handleSend.
    unfold Page.canSendMessage, Page.hasKey in Hcan. rewrite Hloading in Hcan.
    destruct (Page.apiKeys s0 (Page.selectedProvider s0)) as [apiKey|];
      [|done].
    destruct (Js.truthy apiKey); simpl in Hcan |- *.
    + rewrite andb_true_r in Hcan. by rewrite Hcan.
    + done.
Qed.

Lemma loaded_models_enable_send_witness :
  let s := Sample.state None xai "" (Some "sk") in
  let p := Page.mkPicker [] false "gro" in
  let first := Xai.toModel "grok-2" in
  let loaded := Page.loadModels (inr [first]) s p in
  Page.canSendMessage (fst loaded) (snd loaded) = true
  /\ Page.models (snd loaded) = [first]
  /\ Page.selectedModel (fst loaded)
     = (if Js.truthy (Page.selectedModel s) then Page.selectedModel s
        else Model.id first)
  /\ (exists call,
         snd (Page.handleSend Sample.builtins Sample.env
                              (Sample.httpError "down") "Hi" None (fst loaded))
         = [call]
         /\ Page.call_provider call = Page.selectedProvider s
         /\ cfg_model (Page.call_config call)
            = Page.selectedModel (fst loaded))
  /\ (forall s0 p0,
         Page.canSendMessage s0 p0 = false ->
         Page.loadingModels p0 = false ->
         let refused := Page.handleSend Sample.builtins Sample.env
                                        (Sample.httpError "down") "Hi" None
                                        s0 in
         snd refused = []
         /\ Page.error (fst refused) = Some Page.configurationError).
Proof.
  cbv zeta.
  apply (loaded_models_enable_send Sample.builtins Sample.env
           (Sample.httpError "down") "Hi" None
           (Sample.state None xai "" (Some "sk"))
           (Page.mkPicker [] false "gro") (Xai.toModel "grok-2") []);
    reflexivity.
Defined.

Section FetchFailure.
Context {Entry : Type}.
Implicit Types (s : Page.State) (p : Page.Picker).

Lemma fetchModelsWith_status (label : string)
      (catalog : list Entry -> list Model.t)
      (response : Provider.ModelsResponse Entry) :
  Provider.models_ok response = false ->
  Provider.fetchModelsWith label catalog (Provider.ModelsResolves response)
  = inl (newError ("Failed to fetch " ++ label ++ " models: "
                   ++ Provider.statusText response)%string).
Proof. intros Hok. unfold Provider.fetchModelsWith. by rewrite Hok. Qed.
End FetchFailure.

(** X24. When the models endpoint of xAI, OpenAI, Groq or Gemini answers
    with a non-success status, [fetchModels] rejects with [Failed to fetch
    <vendor> models: <statusText>] and [loadModels] shows that message
    after [Failed to load models: ], empties the list of models and stops
    the loading indicator; the selected model is left as it was. *)
Theorem models_fetch_failure_shown (s : Page.State) (p : Page.Picker)
        (statusText : string) :
  Page.hasKey s = true ->
  let failed Entry : Provider.ModelsFetch Entry :=
    Provider.ModelsResolves
      {| Provider.models_ok := false; Provider.statusText := statusText;
         Provider.json := inr [] |} in
  let shows (fetched : JsError + list Model.t) (vendor : string) :=
    let loaded := Page.loadModels fetched s p in
    Page.error (fst loaded)
    = Some ("Failed to load models: Failed to fetch " ++ vendor
            ++ " models: " ++ statusText)%string
    /\ Page.models (snd loaded) = []
    /\ Page.loadingModels (snd loaded) = false
    /\ Page.selectedModel (fst loaded) = Page.selectedModel s in
  shows (Xai.fetchModels (failed _)) "xAI"
  /\ (forall sortById, shows (Openai.fetchModels sortById (failed _)) "OpenAI")
  /\ shows (Groq.fetchModels (failed _)) "Groq"
  /\ shows (Gemini.fetchModels (failed _)) "Gemini".
Proof.
  intros Hkey failed shows.
  assert (forall vendor,
            shows (inl (newError ("Failed to fetch " ++ vendor ++ " models: "
                                  ++ statusText)%string)) vendor) as Hshows.
  { intros vendor. unfold shows, Page.loadModels. rewrite Hkey. simpl.
    by split_and!. }
  split_and!; [|intros sortById|..];
    unfold Xai.fetchModels, Openai.fetchModels, Groq.fetchModels,
      Gemini.fetchModels, failed;
    rewrite fetchModelsWith_status by done; apply Hshows.
Qed.

Lemma models_fetch_failure_shown_witness :
  let s := Sample.state None xai "grok-2" (Some "sk") in
  let p := Page.mkPicker [Xai.toModel "grok-2"] true "" in
  let failed Entry : Provider.ModelsFetch Entry :=
    Provider.ModelsResolves
      {| Provider.models_ok := false; Provider.statusText := "Unauthorized";
         Provider.json := inr [] |} in
  let shows (fetched : JsError + list Model.t) (vendor : string) :=
    let loaded := Page.loadModels fetched s p in
    Page.error (fst loaded)
    = Some ("Failed to load models: Failed to fetch " ++ vendor
            ++ " models: " ++ "Unauthorized")%string
    /\ Page.models (snd loaded) = []
    /\ Page.loadingModels (snd loaded) = false
    /\ Page.selectedModel (fst loaded) = Page.selectedModel s in
  shows (Xai.fetchModels (failed _)) "xAI"
  /\ (forall sortById, shows (Openai.fetchModels sortById (failed _)) "OpenAI")
  /\ shows (Groq.fetchModels (failed _)) "Groq"
  /\ shows (Gemini.fetchModels (failed _)) "Gemini".
Proof.
  cbv zeta.
  apply (models_fetch_failure_shown
           (Sample.state None xai "grok-2" (Some "sk"))
           (Page.mkPicker [Xai.toModel "grok-2"] true "") "Unauthorized").
  reflexivity.
Defined.

(* ===================================================================== *)
(** * page.tsx: Continue, reopening and renaming *)
(* ===================================================================== *)

(** The state in which Continue calls the adapter. *)
Lemma handleContinue_explicit B env net s conv lastMessage apiKey :
  Page.conversation s = Some conv ->
  last (Conversation.messages conv) = Some lastMessage ->
  Message.role lastMessage = assistant ->
  Page.apiKeys s (Page.selectedProvider s) = Some apiKey ->
  Js.truthy apiKey = true ->
  fst (fst (Page.handleContinueWithoutSystemPrompt B env net s))
  = Page.awaitStreamChat B Page.Continue false env net
      (Page.dropLast (Conversation.messages conv)) (Page.chatConfig s None)
      apiKey (Message.id lastMessage)
      (Page.setError None
         (Page.setAbortControllerRef true
            (Page.setStreamingMessageId (Some (Message.id lastMessage))
               (Page.setIsLoading true
                  (Page.setSystemPromptWarningOpen false s))))).
Proof.
  intros Hconv Hlast Hrole Hkey Htruthy.
  unfold Page.handleContinueWithoutSystemPrompt. cbv zeta.
  cbn [Page.conversation Page.setSystemPromptWarningOpen].
  rewrite Hconv, Hlast, Hrole. cbn [Role_eqb negb].
  cbn [Page.apiKeys Page.selectedProvider Page.setError
       Page.setAbortControllerRef Page.setStreamingMessageId
       Page.setIsLoading Page.setSystemPromptWarningOpen].
  rewrite Hkey, Htruthy. reflexivity.
Qed.

(** A Continue-without-system-prompt whose stream completes, when the
    page handles nothing while the request is in flight, fills the
    placeholder that the failed Send left, adding no message: the
    conversation is the former one with its last message replaced by the
    answer, with [disableSystemPrompt] set, and is saved so. *)
Lemma continue_completed_uninterrupted
        (B : Builtins) (env : Page.Env) (net : FetchResult) (s : Page.State)
        (conv : Conversation.t) (lastMessage : Message.t) (apiKey : string)
        (tokens : list string) (response : string) :
  Page.conversation s = Some conv ->
  last (Conversation.messages conv) = Some lastMessage ->
  Message.role lastMessage = assistant ->
  Page.apiKeys s (Page.selectedProvider s) = Some apiKey ->
  Js.truthy apiKey = true ->
  let sent := Page.dropLast (Conversation.messages conv) in
  Message.id lastMessage ∉ Message.id <$> sent ->
  streamChat (getAdapter (Page.selectedProvider s)) B sent
             (Page.chatConfig s None) apiKey net
  = (map OnToken tokens ++ [OnComplete response], Resolved) ->
  let s' := fst (fst (Page.handleContinueWithoutSystemPrompt B env net s)) in
  let cost :=
    estimateCost (getAdapter (Page.selectedProvider s))
      (inject_Z
         (fold_left
            (fun acc m =>
               (acc + Storage.estimateTokens (Message.content m) None)%Z)
            sent 0%Z))
      (inject_Z (Storage.estimateTokens response None))
      (Page.selectedModel s) in
  let answer :=
    Message.finalized response (Storage.estimateTokens response None)
                      (inject_Z (Page.endTime env - Page.startTime env) / 1000)%Q
                      (Page.selectedModel s) lastMessage in
  let final :=
    Spec.rebuild conv (sent ++ [answer])
                 (Some (Page.totalCostOrZero conv + cost)%Q) (Some true) in
  Page.conversation s' = Some final
  /\ length (Conversation.messages final) = length (Conversation.messages conv)
  /\ Storage.getConversation (Conversation.id conv)
                             (Page.storedConversations s')
     = Some final
  /\ Page.sessionCost s' = (Page.sessionCost s + cost)%Q
  /\ Page.systemPromptWarningOpen s' = false
  /\ Page.error s' = None.
Proof.
  intros Hconv Hlast Hrole Hkey Htruthy sent Hfresh Htrace s' cost answer final.
  assert (Conversation.messages conv = sent ++ [lastMessage]) as Hms.
  { apply last_Some in Hlast as [init Hinit]. unfold sent.
    by rewrite Hinit, dropLast_snoc. }
  unfold s'.
  rewrite (handleContinue_explicit B env net s conv lastMessage apiKey)
    by done.
  unfold Page.awaitStreamChat. cbv zeta.
  cbn [Page.selectedProvider Page.selectedModel Page.setError
       Page.setAbortControllerRef Page.setStreamingMessageId
       Page.setIsLoading Page.setSystemPromptWarningOpen].
  fold sent. rewrite Htrace, deliver_complete.
  rewrite (onComplete_closed _ _ _ _ _ _ _ _ conv) by exact Hconv.
  cbv zeta.
  assert (map (Spec.fill (Message.id lastMessage)
                 (Message.finalized response
                    (Storage.estimateTokens response None)
                    (inject_Z (Page.endTime env - Page.startTime env) / 1000)%Q
                    (Page.selectedModel s)))
              (Conversation.messages conv)
          = sent ++ [answer]) as ->.
  { rewrite Hms. by rewrite fill_last. }
  split_and!; try reflexivity.
  - unfold final. cbn [Spec.rebuild Conversation.messages].
    by rewrite Hms, !length_app.
  - cbn [Page.storedConversations Page.setStreamingMessageId Page.setIsLoading
         Page.setSessionCost Page.setConversation Page.saveConversation
         Page.setStoredConversations].
    exact (getConversation_save_same final _).
Qed.

(** X26. Selecting a stored conversation makes its provider and model the
    selected ones and its total cost the session cost; the next Send then
    goes to that provider and model, with that provider's key, and sends
    the stored history followed by the new user message. *)
Theorem select_then_send
        (B : Builtins) (env : Page.Env) (net : FetchResult) (content : string)
        (attachments : option (list Attachment.t)) (s : Page.State)
        (i : string) (c : Conversation.t) (apiKey : string) :
  Storage.getConversation i (Page.storedConversations s) = Some c ->
  Page.apiKeys s (Conversation.providerId c) = Some apiKey ->
  Js.truthy apiKey = true ->
  Js.truthy (Conversation.modelId c) = true ->
  let s1 := Page.handleSelectConversation i s in
  Page.conversation s1 = Some c
  /\ Conversation.id c = i
  /\ Page.sessionCost s1 = Page.totalCostOrZero c
  /\ Page.error s1 = None
  /\ exists call,
       snd (Page.handleSend B env net content attachments s1) = [call]
       /\ Page.call_provider call = Conversation.providerId c
       /\ cfg_model (Page.call_config call) = Conversation.modelId c
       /\ Page.call_apiKey call = apiKey
       /\ Page.call_messages call
          = Spec.systemPrefix env s c ++ Conversation.messages c
            ++ [Spec.userMessage env content attachments].
Proof.
  intros Hget Hkey Htruthy Hmodel s1.
  assert (s1 = Page.setError None
                 (Page.setSessionCost (Page.totalCostOrZero c)
                    (Page.setSelectedModel (Conversation.modelId c)
                       (Page.setSelectedProvider (Conversation.providerId c)
                          (Page.setConversation (Some c) s))))) as ->.
  { unfold s1, Page.handleSelectConversation. by rewrite Hget. }
  split_and!; try reflexivity.
  - by eapply getConversation_id.
  - rewrite (handleSend_unfold B env net content attachments _ apiKey)
      by done.
    eexists. split; [reflexivity|]. by split_and!.
Qed.

Lemma select_then_send_witness :
  let s := Sample.state (Some Sample.conv) gemini "gemini-2.0-flash"
                        (Some "sk") in
  let s1 := Page.handleSelectConversation "conv-1" s in
  Page.conversation s1 = Some Sample.conv
  /\ Conversation.id Sample.conv = "conv-1"
  /\ Page.sessionCost s1 = Page.totalCostOrZero Sample.conv
  /\ Page.error s1 = None
  /\ exists call,
       snd (Page.handleSend Sample.builtins Sample.env
                            (Sample.httpError "down") "More?" None s1)
       = [call]
       /\ Page.call_provider call = Conversation.providerId Sample.conv
       /\ cfg_model (Page.call_config call) = Conversation.modelId Sample.conv
       /\ Page.call_apiKey call = "sk"
       /\ Page.call_messages call
          = Spec.systemPrefix Sample.env s Sample.conv
            ++ Conversation.messages Sample.conv
            ++ [Spec.userMessage Sample.env "More?" None].
Proof.
  cbv zeta.
  apply (select_then_send Sample.builtins Sample.env
           (Sample.httpError "down") "More?" None
           (Sample.state (Some Sample.conv) gemini "gemini-2.0-flash"
                         (Some "sk"))
           "conv-1" Sample.conv "sk");
    reflexivity.
Defined.

(** X27. Renaming from the sidebar stores the trimmed title and the time
    of the edit on the stored conversation and changes nothing else of it;
    the other conversations are untouched, and the page shows the stored
    copy with its new title when the renamed conversation is the open one.
    A blank title is not stored: nothing changes. *)
Theorem rename_from_sidebar (now : Z) (i editTitle : string)
        (s : Page.State) (c : Conversation.t) :
  Js.truthy i = true ->
  Storage.getConversation i (Page.storedConversations s) = Some c ->
  let s' := Sidebar.saveEdit now (Some i) editTitle s in
  let renamed :=
    Conversation.mk
      (Conversation.id c) (Js.trim editTitle) (Conversation.messages c)
      (Conversation.providerId c) (Conversation.modelId c)
      (Conversation.createdAt c) now (Conversation.totalCost c)
      (Conversation.disableSystemPrompt c) (Conversation.pinned c)
      (Conversation.groupId c) in
  if Js.truthy (Js.trim editTitle)
  then Storage.getConversation i (Page.storedConversations s') = Some renamed
       /\ (forall j, j <> i ->
             Storage.getConversation j (Page.storedConversations s')
             = Storage.getConversation j (Page.storedConversations s))
       /\ Page.conversation s'
          = (if Sidebar.isCurrent i s then Some renamed
             else Page.conversation s)
  else s' = s.
Proof.
  intros Hi Hget s' renamed.
  pose proof (getConversation_id _ _ _ Hget) as Hid.
  unfold s', Sidebar.saveEdit. rewrite Hi. simpl andb.
  destruct (Js.truthy (Js.trim editTitle)); [|done].
  unfold Page.handleRenameConversation. rewrite Hget. fold renamed.
  assert (Storage.getConversation i
            (Storage.saveConversation renamed (Page.storedConversations s))
          = Some renamed) as Hsame.
  { rewrite <- Hid. exact (getConversation_save_same renamed _). }
  assert (forall j, j <> i ->
            Storage.getConversation j
              (Storage.saveConversation renamed (Page.storedConversations s))
            = Storage.getConversation j (Page.storedConversations s))
    as Hother.
  { intros j Hj. apply getConversation_save_other. simpl. congruence. }
  unfold Sidebar.isCurrent.
  destruct (Page.conversation s) as [cur|] eqn:Hcur.
  - destruct (String.eqb (Conversation.id cur) i); simpl;
      rewrite ?Hcur; by split_and!.
  - simpl. rewrite Hcur. by split_and!.
Qed.

Lemma rename_from_sidebar_witness :
  let s := Sample.state (Some Sample.conv) xai "grok-2" (Some "sk") in
  let s' := Sidebar.saveEdit 50 (Some "conv-1") "  Greetings " s in
  let renamed :=
    Conversation.mk
      (Conversation.id Sample.conv) (Js.trim "  Greetings ")
      (Conversation.messages Sample.conv)
      (Conversation.providerId Sample.conv) (Conversation.modelId Sample.conv)
      (Conversation.createdAt Sample.conv) 50
      (Conversation.totalCost Sample.conv)
      (Conversation.disableSystemPrompt Sample.conv)
      (Conversation.pinned Sample.conv) (Conversation.groupId Sample.conv) in
  if Js.truthy (Js.trim "  Greetings ")
  then Storage.getConversation "conv-1" (Page.storedConversations s')
       = Some renamed
       /\ (forall j, j <> "conv-1" ->
             Storage.getConversation j (Page.storedConversations s')
             = Storage.getConversation j (Page.storedConversations s))
       /\ Page.conversation s'
          = (if Sidebar.isCurrent "conv-1" s then Some renamed
             else Page.conversation s)
  else s' = s.
Proof.
  cbv zeta.
  apply (rename_from_sidebar 50 "conv-1" "  Greetings "
           (Sample.state (Some Sample.conv) xai "grok-2" (Some "sk"))
           Sample.conv);
    reflexivity.
Defined.

(* ===================================================================== *)
(** * Preferences: the selection and the system prompt *)
(* ===================================================================== *)

(** X28. The provider and model selected on a mounted page are stored in
    the preferences without touching the other preferences (system prompt,
    user name, avatar, theme).  Mounting the page again takes the stored
    keys and restores that provider; it restores the model too when a key
    is stored for the provider, however the model list of the effect that
    the mount triggers is answered, and when the mount changes neither
    the provider nor its key, so that the effect does not run again.
    Otherwise, with no key stored for the provider, that effect clears the
    model. *)
Theorem selection_survives_reload (s s0 : Page.State) (p0 : Page.Picker)
        (keys : Storage.KeysItem) (stored : Storage.PreferencesItem)
        (fetched : JsError + list Model.t) :
  Js.truthy (Page.selectedModel s) = true ->
  let stored' := Page.saveSelection s stored in
  let s' := (Page.mounted keys stored' fetched s0 p0).1 in
  let before := Storage.getPreferences stored in
  let after := Storage.getPreferences stored' in
  Page.selectedProvider s' = Page.selectedProvider s
  /\ Page.selectedModel s'
     = (if Storage.hasApiKey (Page.selectedProvider s) keys
           || Page.sameLoadModelsDeps s0 (Page.mount keys stored' s0)
        then Page.selectedModel s else "")
  /\ Page.apiKeys s' = Storage.getApiKeys keys
  /\ Page.conversation s' = Page.conversation s0
  /\ UserPreferences.systemPrompt after = UserPreferences.systemPrompt before
  /\ UserPreferences.username after = UserPreferences.username before
  /\ UserPreferences.avatar after = UserPreferences.avatar before
  /\ UserPreferences.theme after = UserPreferences.theme before.
Proof.
  intros Hmodel. cbv zeta.
  assert (Page.selectedProvider
            (Page.mount keys (Page.saveSelection s stored) s0)
          = Page.selectedProvider s
          /\ Page.selectedModel
               (Page.mount keys (Page.saveSelection s stored) s0)
             = Page.selectedModel s) as [Hprovider Hselected].
  { unfold Page.saveSelection, Page.mount. rewrite Hmodel.
    unfold Storage.setPreferences, UserPreferences.spread. simpl.
    by rewrite Hmodel. }
  assert (Page.hasKey (Page.mount keys (Page.saveSelection s stored) s0)
          = Storage.hasApiKey (Page.selectedProvider s) keys) as Hkey.
  { unfold Page.hasKey, Storage.hasApiKey. by rewrite Hprovider. }
  assert (UserPreferences.systemPrompt
            (Storage.getPreferences (Page.saveSelection s stored))
          = UserPreferences.systemPrompt (Storage.getPreferences stored)
          /\ UserPreferences.username
               (Storage.getPreferences (Page.saveSelection s stored))
             = UserPreferences.username (Storage.getPreferences stored)
          /\ UserPreferences.avatar
               (Storage.getPreferences (Page.saveSelection s stored))
             = UserPreferences.avatar (Storage.getPreferences stored)
          /\ UserPreferences.theme
               (Storage.getPreferences (Page.saveSelection s stored))
             = UserPreferences.theme (Storage.getPreferences stored))
    as (Hprompt & Hname & Havatar & Htheme).
  { unfold Page.saveSelection. by rewrite Hmodel. }
  unfold Page.mounted. cbv zeta.
  destruct (Page.sameLoadModelsDeps s0 _).
  - rewrite orb_true_r. by split_and!.
  - rewrite orb_false_r. unfold Page.loadModels. rewrite Hkey.
    destruct (Storage.hasApiKey (Page.selectedProvider s) keys).
    + cbn [negb]. destruct fetched as [err|[|first rest]]; cbn [fst].
      * by split_and!.
      * by split_and!.
      * cbn [Page.selectedModel Page.setError]. rewrite Hselected, Hmodel.
        by split_and!.
    + cbn [negb fst]. by split_and!.
Qed.

Lemma selection_survives_reload_witness :
  let s := Sample.state None xai "grok-2" (Some "sk") in
  let stored' := Page.saveSelection s None in
  let s' :=
    (Page.mounted Sample.keys stored' (inl (newError "offline"))
                  Sample.firstRender (Page.mkPicker [] false "")).1 in
  let before := Storage.getPreferences None in
  let after := Storage.getPreferences stored' in
  Page.selectedProvider s' = xai
  /\ Page.selectedModel s' = "grok-2"
  /\ Page.apiKeys s' = Storage.getApiKeys Sample.keys
  /\ Page.conversation s' = None
  /\ UserPreferences.systemPrompt after = UserPreferences.systemPrompt before
  /\ UserPreferences.username after = UserPreferences.username before
  /\ UserPreferences.avatar after = UserPreferences.avatar before
  /\ UserPreferences.theme after = UserPreferences.theme before.
Proof.
  exact (selection_survives_reload
           (Sample.state None xai "grok-2" (Some "sk")) Sample.firstRender
           (Page.mkPicker [] false "") Sample.keys None
           (inl (newError "offline")) eq_refl).
Defined.

(** With no key stored for the stored provider, the effect that the mount
    triggers clears the restored model; for the initial provider without
    a key the effect does not run again and the model stays. *)
Example mount_without_key :
  let mountedWith stored :=
    (Page.mounted None stored (inr []) Sample.firstRender
                  (Page.mkPicker [] false "")).1 in
  let openaiStored :=
    Some (UserPreferences.mk "system" openai (Some "gpt-4o") (Some "")
                             (Some "User") None) in
  Page.selectedProvider (mountedWith Sample.preferences) = xai
  /\ Page.selectedModel (mountedWith Sample.preferences) = ""
  /\ Page.selectedProvider (mountedWith openaiStored) = openai
  /\ Page.selectedModel (mountedWith openaiStored) = "gpt-4o".
Proof. cbv zeta. split_and!; reflexivity. Qed.

Lemma trim_truthy (p : string) :
  (0 <? String.length (Js.trim p))%nat = true -> Js.truthy p = true.
Proof.
  intros Hlen%Nat.ltb_lt. pose proof (length_trim p).
  destruct p; [simpl in *; lia|done].
Qed.

(** X29. The system prompt saved in the settings dialog is the one the
    next Send and Retry choose, exactly as typed, when it is not blank; a
    blank one makes them fall back to their built-in prompts.  Saving it
    leaves the stored selection alone, and a configured Send on a
    conversation without the flag puts the chosen prompt first in the
    messages it hands to the adapter. *)
Theorem saved_system_prompt_is_sent
        (B : Builtins) (env : Page.Env) (net : FetchResult) (content : string)
        (attachments : option (list Attachment.t)) (s : Page.State)
        (text : string) (stored : Storage.PreferencesItem) (apiKey : string) :
  Page.apiKeys s (Page.selectedProvider s) = Some apiKey ->
  Js.truthy apiKey = true ->
  Js.truthy (Page.selectedModel s) = true ->
  let stored' := SettingsDialog.handleSaveSystemPrompt text stored in
  let s' := Page.readSystemPrompt stored' s in
  let blank := negb (0 <? String.length (Js.trim text))%nat in
  let chosen := if blank then Page.sendFallbackPrompt else text in
  Spec.sendPrompt s' = chosen
  /\ Page.chooseSystemPrompt (Page.preferencesSystemPrompt s')
                             Page.retryFallbackPrompt
     = (if blank then Page.retryFallbackPrompt else text)
  /\ UserPreferences.defaultProvider (Storage.getPreferences stored')
     = UserPreferences.defaultProvider (Storage.getPreferences stored)
  /\ UserPreferences.defaultModel (Storage.getPreferences stored')
     = UserPreferences.defaultModel (Storage.getPreferences stored)
  /\ exists call,
       snd (Page.handleSend B env net content attachments s') = [call]
       /\ (Page.flagSet
             (Conversation.disableSystemPrompt (Spec.currentConv env s))
           = false ->
           head (Page.call_messages call)
           = Some (Page.systemMessage chosen (Page.now_system env))).
Proof.
  intros Hkey Htruthy Hmodel stored' s' blank chosen.
  assert (forall fallback,
            Page.chooseSystemPrompt (Page.preferencesSystemPrompt s') fallback
            = if blank then fallback else text) as Hchoose.
  { intros fallback. unfold s', stored', blank. simpl.
    destruct (0 <? String.length (Js.trim text))%nat eqn:Hlen; simpl.
    - by rewrite (trim_truthy text Hlen).
    - by rewrite andb_false_r. }
  assert (Spec.sendPrompt s' = chosen) as Hsend by apply Hchoose.
  split_and!; [exact Hsend|apply Hchoose|reflexivity..|].
  rewrite (handleSend_unfold B env net content attachments s' apiKey)
    by done.
  eexists. split; [reflexivity|].
  cbn [Page.call_messages]. unfold Spec.sendMessages, Spec.systemPrefix.
  change (Spec.currentConv env s') with (Spec.currentConv env s).
  intros ->. by rewrite Hsend.
Qed.

Lemma saved_system_prompt_is_sent_witness :
  let s := Sample.state (Some Sample.conv) xai "grok-2" (Some "sk") in
  let stored' := SettingsDialog.handleSaveSystemPrompt " Be brief. " None in
  let s' := Page.readSystemPrompt stored' s in
  let blank := negb (0 <? String.length (Js.trim " Be brief. "))%nat in
  let chosen := if blank then Page.sendFallbackPrompt else " Be brief. " in
  Spec.sendPrompt s' = chosen
  /\ Page.chooseSystemPrompt (Page.preferencesSystemPrompt s')
                             Page.retryFallbackPrompt
     = (if blank then Page.retryFallbackPrompt else " Be brief. ")
  /\ UserPreferences.defaultProvider (Storage.getPreferences stored')
     = UserPreferences.defaultProvider (Storage.getPreferences None)
  /\ UserPreferences.defaultModel (Storage.getPreferences stored')
     = UserPreferences.defaultModel (Storage.getPreferences None)
  /\ exists call,
       snd (Page.handleSend Sample.builtins Sample.env
                            (Sample.httpError "down") "Hi" None s') = [call]
       /\ (Page.flagSet
             (Conversation.disableSystemPrompt
                (Spec.currentConv Sample.env s))
           = false ->
           head (Page.call_messages call)
           = Some (Page.systemMessage chosen (Page.now_system Sample.env))).
Proof.
  cbv zeta.
  apply (saved_system_prompt_is_sent Sample.builtins Sample.env
           (Sample.httpError "down") "Hi" None
           (Sample.state (Some Sample.conv) xai "grok-2" (Some "sk"))
           " Be brief. " None "sk");
    reflexivity.
Defined.
(* ===================================================================== *)
(** * page.tsx: requests in flight *)
(* ===================================================================== *)

Section StoreElsewhere.
Implicit Types (stored : Storage.Item) (i j : string).

Lemma getConversation_delete_other i j stored :
  j <> i ->
  Storage.getConversation i (Storage.deleteConversation j stored)
  = Storage.getConversation i stored.
Proof.
  intros Hne. unfold Storage.getConversation, Storage.deleteConversation.
  cbn [Storage.getConversations].
  generalize (Storage.getConversations stored) as cs.
  induction cs as [|a cs IH]; [done|].
  rewrite filter_cons.
  destruct (decide (~ Storage.hasId j a)) as [Hkeep|Hdrop].
  - rewrite !find_cons. by destruct (decide (Storage.hasId i a)).
  - apply dec_stable in Hdrop. rewrite (find_cons _ a cs).
    destruct (decide (Storage.hasId i a)) as [Hia|_]; [|exact IH].
    unfold Storage.hasId in *. congruence.
Qed.

Lemma getConversation_move_other i j groupId stored :
  j <> i ->
  Storage.getConversation i (Storage.moveConversationToGroup j groupId stored)
  = Storage.getConversation i stored.
Proof.
  intros Hne.
  destruct (moveConversationToGroup_save j groupId stored) as [g ->].
  destruct (Storage.getConversation j stored) as [c|] eqn:Hc; [|done].
  apply getConversation_save_other.
  apply getConversation_id in Hc. destruct c; simpl in *; congruence.
Qed.
End StoreElsewhere.

Section Alike.
Variable X : string.
Implicit Types (s : Page.State) (e : Page.Event) (r : Page.Request).

Lemma alike_refl s : Spec.alike X s s.
Proof. by repeat split. Qed.

Lemma alike_sym s1 s2 : Spec.alike X s1 s2 -> Spec.alike X s2 s1.
Proof. unfold Spec.alike. intros H. by destruct_and!. Qed.

Lemma alike_trans s1 s2 s3 :
  Spec.alike X s1 s2 -> Spec.alike X s2 s3 -> Spec.alike X s1 s3.
Proof.
  unfold Spec.alike. intros H12 H23. destruct_and!.
  split_and!; congruence.
Qed.

Lemma alike_opened s1 s2 :
  Spec.alike X s1 s2 -> Spec.opened X s1 -> Spec.opened X s2.
Proof. intros (Hc & _) (c & Hopen & Hid). exists c. by rewrite <- Hc. Qed.

(** A quiet event changes nothing of what a request reads or reports. *)
Lemma quiet_alike e s :
  Spec.quiet X e = true -> Spec.opened X s ->
  Spec.alike X (Page.handle e s) s.
Proof.
  intros Hquiet (c & Hopen & Hid).
  destruct e as [a|r fr ev|r err]; [|done..].
  destruct a; try done; cbn [Spec.quiet] in Hquiet;
    try (apply negb_true_iff, String.eqb_neq in Hquiet);
    cbn [Page.handle Page.starts].
  - unfold Page.handlePinConversation.
    destruct (Storage.getConversation i (Page.storedConversations s))
      as [conv|] eqn:Hconv.
    + cbn [Page.conversation Page.saveConversation
           Page.setStoredConversations].
      rewrite Hopen.
      assert (String.eqb (Conversation.id c) i = false) as ->
          by (apply String.eqb_neq; congruence).
      repeat split. cbn [Page.storedConversations].
      apply getConversation_save_other.
      apply getConversation_id in Hconv.
      destruct conv; simpl in *; congruence.
    + rewrite Hopen.
      assert (String.eqb (Conversation.id c) i = false) as ->
          by (apply String.eqb_neq; congruence).
      by repeat split.
  - unfold Page.handleRenameConversation.
    destruct (Storage.getConversation i (Page.storedConversations s))
      as [conv|] eqn:Hconv; [|by repeat split].
    rewrite Hopen.
    assert (String.eqb (Conversation.id c) i = false) as ->
        by (apply String.eqb_neq; congruence).
    repeat split. cbn [Page.storedConversations Page.saveConversation
                       Page.setStoredConversations].
    apply getConversation_save_other.
    apply getConversation_id in Hconv.
    destruct conv; simpl in *; congruence.
  - repeat split. cbn [Page.storedConversations Page.setStoredConversations].
    by apply getConversation_delete_other.
  - repeat split. cbn [Page.storedConversations Page.setStoredConversations].
    by apply getConversation_move_other.
Qed.

Lemma handleAll_alike (es : list Page.Event) s :
  Forall (fun e => Spec.quiet X e = true) es -> Spec.opened X s ->
  Spec.alike X (Page.handleAll es s) s.
Proof.
  intros Hes. revert s. induction Hes as [|e es He _ IH]; intros s Hopen.
  - apply alike_refl.
  - cbn [Page.handleAll fold_left].
    pose proof (quiet_alike e s He Hopen) as Hstep.
    eapply alike_trans; [|exact Hstep].
    apply IH. eapply alike_opened; [apply alike_sym; exact Hstep|done].
Qed.

Lemma undisturbed_hd (gaps : list (list Page.Event)) :
  Spec.undisturbed X gaps ->
  Forall (fun e => Spec.quiet X e = true) (hd [] gaps).
Proof. by intros [|es gaps' Hes _]. Qed.

Lemma undisturbed_tl (gaps : list (list Page.Event)) :
  Spec.undisturbed X gaps -> Spec.undisturbed X (tl gaps).
Proof. intros [|es gaps' _ Hrest]; [constructor|done]. Qed.

(** A callback does to like states like things, and leaves the open
    conversation open. *)
Lemma fires_alike r fr ev s1 s2 :
  Spec.alike X s1 s2 -> Spec.opened X s1 ->
  Spec.alike X (Page.fires r fr ev s1) (Page.fires r fr ev s2)
  /\ Spec.opened X (Page.fires r fr ev s1).
Proof.
  intros Halike (c & Hopen & Hid).
  pose proof Halike as (Hc & He & Hw & Hp & Hm & Hcost & Hk & Hpr & Hst).
  assert (Page.conversation s2 = Some c) as Hopen2 by congruence.
  destruct ev as [token|response|err]; cbn [Page.fires].
  - rewrite (onToken_closed _ _ _ s1 c Hopen),
            (onToken_closed _ _ _ s2 c Hopen2).
    split; [by repeat split|]. eexists. split; [reflexivity|done].
  - rewrite (onComplete_closed _ _ _ _ _ _ _ s1 c Hopen),
            (onComplete_closed _ _ _ _ _ _ _ s2 c Hopen2).
    cbv zeta. split.
    + repeat split; cbn; try done; try congruence.
      cbn [Page.storedConversations Page.setStreamingMessageId
           Page.setIsLoading Page.setSessionCost Page.setConversation
           Page.saveConversation Page.setStoredConversations].
      rewrite <- Hid.
      etransitivity; [|symmetry];
        apply (getConversation_save_same (Spec.rebuild c _ _ _)).
    + eexists. split; [reflexivity|done].
  - split; [by repeat split|]. by exists c.
Qed.

Lemma catchRejection_alike detect err s1 s2 :
  Spec.alike X s1 s2 ->
  Spec.alike X (Page.catchRejection detect err s1)
             (Page.catchRejection detect err s2).
Proof.
  intros (Hc & He & Hw & Hp & Hm & Hcost & Hk & Hpr & Hst).
  unfold Page.catchRejection.
  destruct (instanceofError err && _); [|by repeat split].
  destruct (detect && _); by repeat split.
Qed.

Lemma deliver_fires r ev rest fr s :
  Page.deliver (Page.req_flavour r)
               (getAdapter (Page.call_provider (Page.req_call r)))
               (Page.req_env r) (Page.call_messages (Page.req_call r))
               (Page.req_model r) (Page.req_targetId r) (ev :: rest) fr s
  = Page.deliver (Page.req_flavour r)
                 (getAdapter (Page.call_provider (Page.req_call r)))
                 (Page.req_env r) (Page.call_messages (Page.req_call r))
                 (Page.req_model r) (Page.req_targetId r) rest
                 (match ev with
                  | OnToken token => fr ++ token
                  | _ => fr
                  end)%string
                 (Page.fires r fr ev s).
Proof. by destruct ev. Qed.

(** Quiet events between the callbacks of a request do not show in what
    the callbacks leave. *)
Lemma deliverAmong_alike r events :
  forall gaps fr s1 s2,
    Spec.alike X s1 s2 -> Spec.opened X s1 -> Spec.undisturbed X gaps ->
    let result := Page.deliverAmong r gaps events fr s1 in
    Spec.alike X result.1
      (Page.deliver (Page.req_flavour r)
                    (getAdapter (Page.call_provider (Page.req_call r)))
                    (Page.req_env r) (Page.call_messages (Page.req_call r))
                    (Page.req_model r) (Page.req_targetId r) events fr s2)
    /\ Spec.opened X result.1
    /\ Spec.undisturbed X result.2.
Proof.
  induction events as [|ev rest IH]; intros gaps fr s1 s2 Halike Hopen Hgaps.
  - by cbn.
  - rewrite deliver_fires. cbn [Page.deliverAmong]. cbv zeta.
    pose proof (handleAll_alike (hd [] gaps) s1 (undisturbed_hd gaps Hgaps)
                                Hopen) as Hgap.
    assert (Spec.opened X (Page.handleAll (hd [] gaps) s1)) as Hopen'
        by (eapply alike_opened; [apply alike_sym; exact Hgap|done]).
    destruct (fires_alike r fr ev (Page.handleAll (hd [] gaps) s1) s2)
      as [Hfire Hopen'']; [by eapply alike_trans|done|].
    apply IH; [done..|]. by apply undisturbed_tl.
Qed.

Lemma awaitAmong_alike B net gaps r s1 s2 :
  Spec.alike X s1 s2 -> Spec.opened X s1 -> Spec.undisturbed X gaps ->
  Page.call_provider (Page.req_call r) = Page.selectedProvider s2 ->
  Page.req_model r = Page.selectedModel s2 ->
  Spec.alike X
    (Page.awaitAmong B net gaps r s1)
    (Page.awaitStreamChat B (Page.req_flavour r)
       (Page.req_detectUnsupported r) (Page.req_env r) net
       (Page.call_messages (Page.req_call r))
       (Page.call_config (Page.req_call r))
       (Page.call_apiKey (Page.req_call r)) (Page.req_targetId r) s2).
Proof.
  intros Halike Hopen Hgaps Hprovider Hmodel.
  unfold Page.awaitAmong, Page.awaitStreamChat. cbv zeta.
  rewrite <- Hprovider, <- Hmodel.
  destruct (streamChat _ _ _ _ _ _) as [events settled].
  pose proof (deliverAmong_alike r events gaps "" s1 s2 Halike Hopen Hgaps)
    as Hresult.
  cbv zeta in Hresult.
  destruct (Page.deliverAmong r gaps events "" s1) as [s1' gaps'].
  destruct Hresult as (Hafter & Hopen' & Hgaps').
  destruct settled as [|err]; [done|].
  apply catchRejection_alike.
  eapply alike_trans; [|exact Hafter].
  apply handleAll_alike; [by apply undisturbed_hd|done].
Qed.
End Alike.

Section Settled.
Implicit Types (s : Page.State) (r : Page.Request).

Lemma fires_terminal_idle r fr terminal s :
  (forall token, terminal <> OnToken token) ->
  let s' := Page.fires r fr terminal s in
  Page.isLoading s' = false /\ Page.streamingMessageId s' = None.
Proof.
  intros Hterminal. cbv zeta.
  destruct terminal as [token|response|err]; cbn [Page.fires].
  - by destruct (Hterminal token).
  - exact (onComplete_idle _ _ _ _ _ _ response s).
  - done.
Qed.

Lemma deliverAmong_last r tokens terminal :
  forall gaps fr s,
  exists fr' s' gaps',
    Page.deliverAmong r gaps (map OnToken tokens ++ [terminal]) fr s
    = (Page.fires r fr' terminal s', gaps').
Proof.
  induction tokens as [|t ts IH]; intros gaps fr s.
  - cbn. by eexists _, _, _.
  - cbn [map app Page.deliverAmong]. cbv zeta. apply IH.
Qed.

(** However the events fall, the page is idle once the awaited call has
    settled. *)
Lemma awaitAmong_idle B net gaps r s :
  let s' := Page.awaitAmong B net gaps r s in
  Page.isLoading s' = false /\ Page.streamingMessageId s' = None.
Proof.
  cbv zeta. unfold Page.awaitAmong. cbv zeta.
  destruct (streamChat_shape (Page.call_provider (Page.req_call r)) B
              (Page.call_messages (Page.req_call r))
              (Page.call_config (Page.req_call r))
              (Page.call_apiKey (Page.req_call r)) net)
    as [[err ->]|(tokens & terminal & -> & Hterminal)].
  - cbn [Page.deliverAmong]. apply catchRejection_idle.
  - destruct (deliverAmong_last r tokens terminal gaps "" s)
      as (fr' & s' & gaps' & ->).
    apply fires_terminal_idle.
    intros token. by destruct Hterminal as [->|[err ->]].
Qed.

Lemma deliverAmong_nil r events :
  forall fr s,
    Page.deliverAmong r [] events fr s
    = (Page.deliver (Page.req_flavour r)
                    (getAdapter (Page.call_provider (Page.req_call r)))
                    (Page.req_env r) (Page.call_messages (Page.req_call r))
                    (Page.req_model r) (Page.req_targetId r) events fr s,
       []).
Proof.
  induction events as [|ev rest IH]; intros fr s; [done|].
  rewrite deliver_fires. cbn [Page.deliverAmong]. cbv zeta.
  cbn [hd tl Page.handleAll fold_left]. apply IH.
Qed.

(** With no event in between, the general run is the uninterrupted one. *)
Lemma awaitAmong_nil B net r s :
  Page.call_provider (Page.req_call r) = Page.selectedProvider s ->
  Page.req_model r = Page.selectedModel s ->
  Page.awaitAmong B net [] r s
  = Page.awaitStreamChat B (Page.req_flavour r)
      (Page.req_detectUnsupported r) (Page.req_env r) net
      (Page.call_messages (Page.req_call r))
      (Page.call_config (Page.req_call r))
      (Page.call_apiKey (Page.req_call r)) (Page.req_targetId r) s.
Proof.
  intros Hprovider Hmodel.
  unfold Page.awaitAmong, Page.awaitStreamChat. cbv zeta.
  rewrite <- Hprovider, <- Hmodel.
  destruct (streamChat _ _ _ _ _ _) as [events settled].
  rewrite deliverAmong_nil. by destruct settled.
Qed.
End Settled.
(* ===================================================================== *)
(** * page.tsx: what a request leaves behind, whatever else is handled *)
(* ===================================================================== *)

(** [handleSend] up to the adapter call, past the configuration check. *)
Lemma startSend_unfold env content attachments s apiKey :
  Page.apiKeys s (Page.selectedProvider s) = Some apiKey ->
  Js.truthy apiKey = true ->
  Js.truthy (Page.selectedModel s) = true ->
  Page.startSend env content attachments s
  = (Spec.sendPrepared env content attachments s,
     Some (Spec.sendRequest env content attachments s apiKey)).
Proof.
  intros Hkey Htruthy Hmodel. unfold Page.startSend.
  rewrite Hkey, Htruthy, Hmodel. cbv zeta. simpl negb. simpl orb. cbv iota.
  assert (forall (ms : list Message.t) u a,
             Page.dropLast (ms ++ [u; a]) = ms ++ [u]) as Hdrop.
  { intros ms u a. change (ms ++ [u; a]) with (ms ++ [u] ++ [a]).
    by rewrite app_assoc, dropLast_snoc. }
  unfold Spec.sendRequest, Spec.sendMessages, Spec.systemPrefix,
    Spec.sendPrepared, Spec.sendConversation, Spec.currentConv,
    Spec.userMessage, Spec.sendPrompt.
  cbv zeta. simpl Page.conversation. simpl Page.preferencesSystemPrompt.
  simpl Page.selectedProvider. simpl Page.selectedModel.
  rewrite Hdrop.
  destruct (Page.conversation s) as [c|];
    by destruct (Page.flagSet _).
Qed.

(** [handleRetry] up to the adapter call, past its early returns. *)
Lemma startRetry_unfold env messageId s conv index target apiKey :
  Page.conversation s = Some conv ->
  list_find (Page.hasMessageId messageId) (Conversation.messages conv)
  = Some (index, target) ->
  Page.apiKeys s (Page.selectedProvider s) = Some apiKey ->
  Js.truthy apiKey = true ->
  Js.truthy (Page.selectedModel s) = true ->
  Page.startRetry env messageId s
  = (Spec.retryPrepared env conv index s,
     Some (Spec.retryRequest env s conv index apiKey)).
Proof.
  intros Hconv Hfind Hkey Htruthy Hmodel.
  unfold Page.startRetry, Page.retryPrepare.
  rewrite Hconv, Hfind, Hkey, Htruthy, Hmodel.
  cbv zeta. simpl negb. simpl orb. cbv iota.
  unfold Spec.retryRequest, Spec.retryPrefix.
  cbn [Conversation.disableSystemPrompt].
  by destruct (Page.flagSet _).
Qed.

(** [handleContinueWithoutSystemPrompt] up to the adapter call. *)
Lemma startContinue_unfold env s conv lastMessage apiKey :
  Page.conversation s = Some conv ->
  last (Conversation.messages conv) = Some lastMessage ->
  Message.role lastMessage = assistant ->
  Page.apiKeys s (Page.selectedProvider s) = Some apiKey ->
  Js.truthy apiKey = true ->
  Page.startContinue env s
  = (Spec.continuePrepared lastMessage s,
     Some (Spec.continueRequest env s conv lastMessage apiKey), Resolved).
Proof.
  intros Hconv Hlast Hrole Hkey Htruthy.
  unfold Page.startContinue. cbv zeta.
  cbn [Page.conversation Page.setSystemPromptWarningOpen].
  rewrite Hconv, Hlast, Hrole. cbn [Role_eqb negb].
  cbn [Page.apiKeys Page.selectedProvider Page.setError
       Page.setAbortControllerRef Page.setStreamingMessageId
       Page.setIsLoading Page.setSystemPromptWarningOpen].
  rewrite Hkey, Htruthy. reflexivity.
Qed.

Section Uninterrupted.
Variables (B : Builtins) (env : Page.Env) (net : FetchResult).
Implicit Types (s : Page.State).

(** With nothing handled in between, the three handlers are those of
    the uninterrupted run. *)
Lemma handleSendAmong_nil content attachments s :
  Page.handleSendAmong B env net [] content attachments s
  = Page.handleSend B env net content attachments s.
Proof.
  unfold Page.handleSendAmong, Page.startSend, Page.handleSend.
  destruct (Page.apiKeys s (Page.selectedProvider s)) as [apiKey|]; [|done].
  destruct (negb (Js.truthy apiKey) || negb (Js.truthy (Page.selectedModel s)));
    [done|].
  cbv zeta. by rewrite awaitAmong_nil.
Qed.

Lemma handleRetryAmong_nil messageId s :
  Page.handleRetryAmong B env net [] messageId s
  = Page.handleRetry B env net messageId s.
Proof.
  unfold Page.handleRetryAmong, Page.startRetry, Page.handleRetry.
  destruct (Page.retryPrepare env messageId s)
    as [s0 [[[[updatedConv full] placeholder] key]|]]; [|done].
  cbv zeta. by rewrite awaitAmong_nil.
Qed.

Lemma handleContinueAmong_nil s :
  Page.handleContinueWithoutSystemPromptAmong B env net [] s
  = Page.handleContinueWithoutSystemPrompt B env net s.
Proof.
  unfold Page.handleContinueWithoutSystemPromptAmong, Page.startContinue,
    Page.handleContinueWithoutSystemPrompt.
  cbv zeta.
  destruct (Page.conversation _) as [conv|]; [|done].
  destruct (last (Conversation.messages conv)) as [lastMessage|]; [|done].
  destruct (negb (Role_eqb (Message.role lastMessage) assistant)); [done|].
  destruct (Page.apiKeys _ _) as [key|]; [|done].
  destruct (negb (Js.truthy key)); [done|].
  by rewrite awaitAmong_nil.
Qed.
End Uninterrupted.

Section Undisturbed.
Variables (B : Builtins) (env : Page.Env) (net : FetchResult)
          (gaps : list (list Page.Event)).
Implicit Types (s : Page.State).

(** Events that leave the conversation of a Send alone do not show in
    what the Send leaves. *)
Lemma handleSendAmong_alike content attachments s apiKey :
  Page.apiKeys s (Page.selectedProvider s) = Some apiKey ->
  Js.truthy apiKey = true ->
  Js.truthy (Page.selectedModel s) = true ->
  let X := Conversation.id (Spec.currentConv env s) in
  Spec.undisturbed X gaps ->
  let s1 := fst (Page.handleSendAmong B env net gaps content attachments s) in
  let s2 := fst (Page.handleSend B env net content attachments s) in
  Spec.alike X s1 s2
  /\ Page.isLoading s1 = false
  /\ Page.streamingMessageId s1 = None.
Proof.
  intros Hkey Htruthy Hmodel X Hgaps. cbv zeta.
  unfold Page.handleSendAmong.
  rewrite (startSend_unfold env content attachments s apiKey) by done.
  rewrite (handleSend_unfold B env net content attachments s apiKey) by done.
  cbn [fst]. split; [|apply awaitAmong_idle].
  refine (awaitAmong_alike X B net gaps
            (Spec.sendRequest env content attachments s apiKey)
            (Spec.sendPrepared env content attachments s)
            (Spec.sendPrepared env content attachments s)
            (alike_refl X _) _ Hgaps eq_refl eq_refl).
  eexists. split; reflexivity.
Qed.

Lemma handleRetryAmong_alike messageId s conv index target apiKey :
  Page.conversation s = Some conv ->
  list_find (Page.hasMessageId messageId) (Conversation.messages conv)
  = Some (index, target) ->
  Page.apiKeys s (Page.selectedProvider s) = Some apiKey ->
  Js.truthy apiKey = true ->
  Js.truthy (Page.selectedModel s) = true ->
  let X := Conversation.id conv in
  Spec.undisturbed X gaps ->
  let s1 := fst (Page.handleRetryAmong B env net gaps messageId s) in
  let s2 := fst (Page.handleRetry B env net messageId s) in
  Spec.alike X s1 s2
  /\ Page.isLoading s1 = false
  /\ Page.streamingMessageId s1 = None.
Proof.
  intros Hconv Hfind Hkey Htruthy Hmodel X Hgaps. cbv zeta.
  unfold Page.handleRetryAmong.
  rewrite (startRetry_unfold env messageId s conv index target apiKey)
    by done.
  rewrite (handleRetry_unfold B env net messageId s conv index target apiKey)
    by done.
  cbn [fst]. split; [|apply awaitAmong_idle].
  refine (awaitAmong_alike X B net gaps
            (Spec.retryRequest env s conv index apiKey)
            (Spec.retryPrepared env conv index s)
            (Spec.retryPrepared env conv index s)
            (alike_refl X _) _ Hgaps eq_refl eq_refl).
  eexists. split; reflexivity.
Qed.

Lemma handleContinueAmong_alike s conv lastMessage apiKey :
  Page.conversation s = Some conv ->
  last (Conversation.messages conv) = Some lastMessage ->
  Message.role lastMessage = assistant ->
  Page.apiKeys s (Page.selectedProvider s) = Some apiKey ->
  Js.truthy apiKey = true ->
  let X := Conversation.id conv in
  Spec.undisturbed X gaps ->
  let s1 :=
    fst (fst (Page.handleContinueWithoutSystemPromptAmong B env net gaps s)) in
  let s2 := fst (fst (Page.handleContinueWithoutSystemPrompt B env net s)) in
  Spec.alike X s1 s2
  /\ Page.isLoading s1 = false
  /\ Page.streamingMessageId s1 = None.
Proof.
  intros Hconv Hlast Hrole Hkey Htruthy X Hgaps. cbv zeta.
  unfold Page.handleContinueWithoutSystemPromptAmong.
  rewrite (startContinue_unfold env s conv lastMessage apiKey) by done.
  rewrite (handleContinue_explicit B env net s conv lastMessage apiKey)
    by done.
  cbn [fst]. split; [|apply awaitAmong_idle].
  refine (awaitAmong_alike X B net gaps
            (Spec.continueRequest env s conv lastMessage apiKey)
            (Spec.continuePrepared lastMessage s)
            (Spec.continuePrepared lastMessage s)
            (alike_refl X _) _ Hgaps eq_refl eq_refl).
  exists conv. split; [exact Hconv|reflexivity].
Qed.
End Undisturbed.

(** Whatever the page handles in between and whatever the network does,
    a request that has called the adapter leaves the page idle when its
    promise settles. *)
Lemma request_among_ends_idle (B : Builtins) (env : Page.Env)
      (net : FetchResult) (gaps : list (list Page.Event)) (s : Page.State) :
  (forall content attachments,
      let result := Page.handleSendAmong B env net gaps content attachments s in
      snd result <> [] ->
      Page.isLoading (fst result) = false
      /\ Page.streamingMessageId (fst result) = None)
  /\ (forall messageId,
         let result := Page.handleRetryAmong B env net gaps messageId s in
         snd result <> [] ->
         Page.isLoading (fst result) = false
         /\ Page.streamingMessageId (fst result) = None)
  /\ (let result :=
        Page.handleContinueWithoutSystemPromptAmong B env net gaps s in
      snd (fst result) <> [] ->
      Page.isLoading (fst (fst result)) = false
      /\ Page.streamingMessageId (fst (fst result)) = None).
Proof.
  split_and!.
  - intros content attachments. cbv zeta. unfold Page.handleSendAmong.
    destruct (Page.startSend env content attachments s) as [s1 [r|]];
      [|done].
    intros _. apply awaitAmong_idle.
  - intros messageId. cbv zeta. unfold Page.handleRetryAmong.
    destruct (Page.startRetry env messageId s) as [s1 [r|]]; [|done].
    intros _. apply awaitAmong_idle.
  - cbv zeta. unfold Page.handleContinueWithoutSystemPromptAmong.
    destruct (Page.startContinue env s) as [[s1 [r|]] settled]; [|done].
    intros _. apply awaitAmong_idle.
Qed.
(** What holds of the uninterrupted run holds of the run it is alike. *)
Ltac transfer :=
  match goal with
  | Hlike : ?x = ?y, Hhas : ?y = _ |- ?x = _ =>
      etransitivity; [exact Hlike|exact Hhas]
  end.

(** X17. A Send whose stream completes (the body ends, or the user stops
    it), while the page handles between its callbacks only events that
    leave the Send's conversation alone (Stop; the pin, rename, deletion
    or move of another conversation): the conversation is the former one
    followed by the user message and the assistant message holding the
    full response, its token estimate, timing and model; only the
    placeholder was filled in.  That conversation is what the store holds
    under its id, its total cost and the session cost have grown by the
    same non-negative estimate, and the page is idle again, without
    error. *)
Theorem send_completed
        (B : Builtins) (env : Page.Env) (net : FetchResult)
        (gaps : list (list Page.Event)) (content : string)
        (attachments : option (list Attachment.t)) (s : Page.State)
        (apiKey : string) (tokens : list string) (response : string) :
  Page.apiKeys s (Page.selectedProvider s) = Some apiKey ->
  Js.truthy apiKey = true ->
  Js.truthy (Page.selectedModel s) = true ->
  let c := Spec.currentConv env s in
  let history := Conversation.messages c in
  let userMessage := Spec.userMessage env content attachments in
  let apiMessages := Spec.sendMessages env content attachments s in
  Page.uuid_assistant env ∉ Message.id <$> (history ++ [userMessage]) ->
  streamChat (getAdapter (Page.selectedProvider s)) B apiMessages
             (Page.chatConfig s (Page.preferencesSystemPrompt s)) apiKey net
  = (map OnToken tokens ++ [OnComplete response], Resolved) ->
  Spec.undisturbed (Conversation.id c) gaps ->
  let s' := fst (Page.handleSendAmong B env net gaps content attachments s) in
  let cost := Spec.costOf s apiMessages response in
  let final :=
    Spec.rebuild (Spec.sendConversation env content attachments s)
                 (history ++ [userMessage; Spec.answer env s response])
                 (Some (Page.totalCostOrZero c + cost)%Q)
                 (Conversation.disableSystemPrompt c) in
  Page.conversation s' = Some final
  /\ Storage.getConversation (Conversation.id c) (Page.storedConversations s')
     = Some final
  /\ Page.sessionCost s' = (Page.sessionCost s + cost)%Q
  /\ (0 <= cost)%Q
  /\ Page.isLoading s' = false
  /\ Page.streamingMessageId s' = None
  /\ Page.error s' = None.
Proof.
  intros Hkey Htruthy Hmodel c history userMessage apiMessages Hfresh Htrace
         Hgaps s' cost final.
  destruct (handleSendAmong_alike B env net gaps content attachments s apiKey
              Hkey Htruthy Hmodel Hgaps)
    as ((Ac & Ae & _ & _ & _ & Acost & _ & _ & Ast) & Hidle & Hstream).
  destruct (send_completed_uninterrupted B env net content attachments s
              apiKey tokens response Hkey Htruthy Hmodel Hfresh Htrace)
    as (Hc & Hst & Hcost & Hpos & _ & _ & Herr).
  unfold s'. split_and!; first [done | by transfer].
Qed.

Lemma send_completed_witness :
  let s := Sample.busy in
  let c := Spec.currentConv Sample.env s in
  let apiMessages := Spec.sendMessages Sample.env "More?" None s in
  let s' := fst (Page.handleSendAmong Sample.builtins Sample.env
                   Sample.stopped Sample.meanwhile "More?" None s) in
  let cost := Spec.costOf s apiMessages "Hello" in
  let final :=
    Spec.rebuild (Spec.sendConversation Sample.env "More?" None s)
                 (Conversation.messages c
                  ++ [Spec.userMessage Sample.env "More?" None;
                      Spec.answer Sample.env s "Hello"])
                 (Some (Page.totalCostOrZero c + cost)%Q)
                 (Conversation.disableSystemPrompt c) in
  Page.conversation s' = Some final
  /\ Storage.getConversation (Conversation.id c) (Page.storedConversations s')
     = Some final
  /\ Page.sessionCost s' = (Page.sessionCost s + cost)%Q
  /\ (0 <= cost)%Q
  /\ Page.isLoading s' = false
  /\ Page.streamingMessageId s' = None
  /\ Page.error s' = None.
Proof.
  cbv zeta.
  apply (send_completed Sample.builtins Sample.env Sample.stopped
           Sample.meanwhile "More?" None Sample.busy "sk" ["Hel"; "lo"]
           "Hello");
    try reflexivity.
  - apply (bool_decide_unpack _). vm_compute. exact I.
  - repeat constructor.
Defined.

(** X19. A Send whose stream breaks after some tokens with an error other
    than an abort, while the page handles between its callbacks only
    events that leave the Send's conversation alone: the page keeps
    showing the partial text in the placeholder and shows the error's
    message, but the stored conversation still has the empty placeholder
    (the partial text is not saved), and nothing is charged. *)
Theorem send_stream_error
        (B : Builtins) (env : Page.Env) (net : FetchResult)
        (gaps : list (list Page.Event)) (content : string)
        (attachments : option (list Attachment.t)) (s : Page.State)
        (apiKey : string) (tokens : list string) (err : JsError) :
  Page.apiKeys s (Page.selectedProvider s) = Some apiKey ->
  Js.truthy apiKey = true ->
  Js.truthy (Page.selectedModel s) = true ->
  let c := Spec.currentConv env s in
  let history := Conversation.messages c in
  let userMessage := Spec.userMessage env content attachments in
  let apiMessages := Spec.sendMessages env content attachments s in
  Page.uuid_assistant env ∉ Message.id <$> (history ++ [userMessage]) ->
  streamChat (getAdapter (Page.selectedProvider s)) B apiMessages
             (Page.chatConfig s (Page.preferencesSystemPrompt s)) apiKey net
  = (map OnToken tokens ++ [OnError err], Resolved) ->
  Spec.undisturbed (Conversation.id c) gaps ->
  let s' := fst (Page.handleSendAmong B env net gaps content attachments s) in
  let updatedConv := Spec.sendConversation env content attachments s in
  let partial :=
    Message.with_content
      (Spec.joined tokens)
      (Page.placeholder (Page.uuid_assistant env) (Page.now_assistant env)) in
  Page.conversation s'
  = Some (Spec.rebuild updatedConv (history ++ [userMessage; partial])
                       (Conversation.totalCost c)
                       (Conversation.disableSystemPrompt c))
  /\ Storage.getConversation (Conversation.id c) (Page.storedConversations s')
     = Some updatedConv
  /\ Page.error s' = Some (err_message err)
  /\ Page.sessionCost s' = Page.sessionCost s
  /\ Page.isLoading s' = false
  /\ Page.streamingMessageId s' = None.
Proof.
  intros Hkey Htruthy Hmodel c history userMessage apiMessages Hfresh Htrace
         Hgaps s' updatedConv partial.
  destruct (handleSendAmong_alike B env net gaps content attachments s apiKey
              Hkey Htruthy Hmodel Hgaps)
    as ((Ac & Ae & _ & _ & _ & Acost & _ & _ & Ast) & Hidle & Hstream).
  destruct (send_stream_error_uninterrupted B env net content attachments s
              apiKey tokens err Hkey Htruthy Hmodel Hfresh Htrace)
    as (Hc & Hst & Herr & Hcost & _ & _).
  unfold s'. split_and!; first [done | by transfer].
Qed.

Lemma send_stream_error_witness :
  let s := Sample.busy in
  let err := newError "socket closed" in
  let net := Sample.okResponse (Sample.helloReader (ReadThrows err)) in
  let gaps := [ [ Page.Starts (Page.PinConversation "c-2") ];
                [ Page.Starts (Page.DeleteConversation "c-2") ] ] in
  let c := Spec.currentConv Sample.env s in
  let s' := fst (Page.handleSendAmong Sample.builtins Sample.env net gaps
                                      "More?" None s) in
  let updatedConv := Spec.sendConversation Sample.env "More?" None s in
  let partial :=
    Message.with_content
      (Spec.joined ["Hel"; "lo"])
      (Page.placeholder (Page.uuid_assistant Sample.env)
                        (Page.now_assistant Sample.env)) in
  Page.conversation s'
  = Some (Spec.rebuild updatedConv
            (Conversation.messages c
             ++ [Spec.userMessage Sample.env "More?" None; partial])
            (Conversation.totalCost c)
            (Conversation.disableSystemPrompt c))
  /\ Storage.getConversation (Conversation.id c) (Page.storedConversations s')
     = Some updatedConv
  /\ Page.error s' = Some (err_message err)
  /\ Page.sessionCost s' = Page.sessionCost s
  /\ Page.isLoading s' = false
  /\ Page.streamingMessageId s' = None.
Proof.
  cbv zeta.
  apply (send_stream_error Sample.builtins Sample.env
           (Sample.okResponse
              (Sample.helloReader (ReadThrows (newError "socket closed"))))
           [ [ Page.Starts (Page.PinConversation "c-2") ];
             [ Page.Starts (Page.DeleteConversation "c-2") ] ]
           "More?" None Sample.busy "sk" ["Hel"; "lo"]
           (newError "socket closed"));
    try reflexivity.
  - apply (bool_decide_unpack _). vm_compute. exact I.
  - repeat constructor.
Defined.

(** X21. A Retry whose stream completes, while the page handles between
    its callbacks only events that leave the retried conversation alone:
    the conversation keeps the messages up to and including the retried
    one, drops every later message, and ends with the new assistant
    message holding the response.  The estimate of the new request is
    added to the total cost the conversation already had (what the
    dropped answers cost stays counted) and to the session cost, the
    result is saved, and the page is idle again. *)
Theorem retry_completed
        (B : Builtins) (env : Page.Env) (net : FetchResult)
        (gaps : list (list Page.Event)) (messageId : string)
        (s : Page.State) (conv : Conversation.t) (index : nat)
        (target : Message.t) (apiKey : string) (tokens : list string)
        (response : string) :
  Page.conversation s = Some conv ->
  list_find (Page.hasMessageId messageId) (Conversation.messages conv)
  = Some (index, target) ->
  Page.apiKeys s (Page.selectedProvider s) = Some apiKey ->
  Js.truthy apiKey = true ->
  Js.truthy (Page.selectedModel s) = true ->
  let kept := take (index + 1) (Conversation.messages conv) in
  let apiMessages := Spec.retryPrefix env s conv ++ kept in
  Page.uuid_assistant env ∉ Message.id <$> kept ->
  streamChat (getAdapter (Page.selectedProvider s)) B apiMessages
             (Page.chatConfig s (Page.preferencesSystemPrompt s)) apiKey net
  = (map OnToken tokens ++ [OnComplete response], Resolved) ->
  Spec.undisturbed (Conversation.id conv) gaps ->
  let s' := fst (Page.handleRetryAmong B env net gaps messageId s) in
  let cost := Spec.costOf s apiMessages response in
  let final :=
    Spec.rebuild (Spec.retryConversation env conv index)
                 (kept ++ [Spec.answer env s response])
                 (Some (Page.totalCostOrZero conv + cost)%Q)
                 (Conversation.disableSystemPrompt conv) in
  Page.conversation s' = Some final
  /\ last kept = Some target
  /\ Storage.getConversation (Conversation.id conv)
                             (Page.storedConversations s')
     = Some final
  /\ Page.sessionCost s' = (Page.sessionCost s + cost)%Q
  /\ (0 <= cost)%Q
  /\ Page.isLoading s' = false
  /\ Page.streamingMessageId s' = None
  /\ Page.error s' = None.
Proof.
  intros Hconv Hfind Hkey Htruthy Hmodel kept apiMessages Hfresh Htrace
         Hgaps s' cost final.
  destruct (handleRetryAmong_alike B env net gaps messageId s conv index
              target apiKey Hconv Hfind Hkey Htruthy Hmodel Hgaps)
    as ((Ac & Ae & _ & _ & _ & Acost & _ & _ & Ast) & Hidle & Hstream).
  destruct (retry_completed_uninterrupted B env net messageId s conv index
              target apiKey tokens response Hconv Hfind Hkey Htruthy Hmodel
              Hfresh Htrace)
    as (Hc & Hlast & Hst & Hcost & Hpos & Herr).
  unfold s'. split_and!; first [done | by transfer].
Qed.

Lemma retry_completed_witness :
  let s := Sample.busy in
  let kept := take (0 + 1) (Conversation.messages Sample.conv) in
  let apiMessages := Spec.retryPrefix Sample.env s Sample.conv ++ kept in
  let s' := fst (Page.handleRetryAmong Sample.builtins Sample.env
                   Sample.stopped Sample.meanwhile "u-1" s) in
  let cost := Spec.costOf s apiMessages "Hello" in
  let final :=
    Spec.rebuild (Spec.retryConversation Sample.env Sample.conv 0)
                 (kept ++ [Spec.answer Sample.env s "Hello"])
                 (Some (Page.totalCostOrZero Sample.conv + cost)%Q)
                 (Conversation.disableSystemPrompt Sample.conv) in
  Page.conversation s' = Some final
  /\ last kept = Some (Sample.userMsg "u-1" "Hi")
  /\ Storage.getConversation (Conversation.id Sample.conv)
                             (Page.storedConversations s')
     = Some final
  /\ Page.sessionCost s' = (Page.sessionCost s + cost)%Q
  /\ (0 <= cost)%Q
  /\ Page.isLoading s' = false
  /\ Page.streamingMessageId s' = None
  /\ Page.error s' = None.
Proof.
  cbv zeta.
  apply (retry_completed Sample.builtins Sample.env Sample.stopped
           Sample.meanwhile "u-1" Sample.busy Sample.conv 0
           (Sample.userMsg "u-1" "Hi") "sk" ["Hel"; "lo"] "Hello");
    try reflexivity.
  - apply (bool_decide_unpack _). vm_compute. exact I.
  - repeat constructor.
Defined.

(** X25. A Continue-without-system-prompt whose stream completes, while
    the page handles between its callbacks only events that leave the
    continued conversation alone, fills the placeholder that the failed
    Send left, adding no message: the conversation is the former one with
    its last message replaced by the answer, with [disableSystemPrompt]
    set, and is saved so.  The estimate added to the total and session
    cost counts the texts of the messages sent, without their
    attachments. *)
Theorem continue_completed
        (B : Builtins) (env : Page.Env) (net : FetchResult)
        (gaps : list (list Page.Event)) (s : Page.State)
        (conv : Conversation.t) (lastMessage : Message.t) (apiKey : string)
        (tokens : list string) (response : string) :
  Page.conversation s = Some conv ->
  last (Conversation.messages conv) = Some lastMessage ->
  Message.role lastMessage = assistant ->
  Page.apiKeys s (Page.selectedProvider s) = Some apiKey ->
  Js.truthy apiKey = true ->
  let sent := Page.dropLast (Conversation.messages conv) in
  Message.id lastMessage ∉ Message.id <$> sent ->
  streamChat (getAdapter (Page.selectedProvider s)) B sent
             (Page.chatConfig s None) apiKey net
  = (map OnToken tokens ++ [OnComplete response], Resolved) ->
  Spec.undisturbed (Conversation.id conv) gaps ->
  let s' :=
    fst (fst (Page.handleContinueWithoutSystemPromptAmong B env net gaps s)) in
  let cost :=
    estimateCost (getAdapter (Page.selectedProvider s))
      (inject_Z
         (fold_left
            (fun acc m =>
               (acc + Storage.estimateTokens (Message.content m) None)%Z)
            sent 0%Z))
      (inject_Z (Storage.estimateTokens response None))
      (Page.selectedModel s) in
  let answer :=
    Message.finalized response (Storage.estimateTokens response None)
                      (inject_Z (Page.endTime env - Page.startTime env) / 1000)%Q
                      (Page.selectedModel s) lastMessage in
  let final :=
    Spec.rebuild conv (sent ++ [answer])
                 (Some (Page.totalCostOrZero conv + cost)%Q) (Some true) in
  Page.conversation s' = Some final
  /\ length (Conversation.messages final) = length (Conversation.messages conv)
  /\ Storage.getConversation (Conversation.id conv)
                             (Page.storedConversations s')
     = Some final
  /\ Page.sessionCost s' = (Page.sessionCost s + cost)%Q
  /\ Page.systemPromptWarningOpen s' = false
  /\ Page.isLoading s' = false
  /\ Page.streamingMessageId s' = None
  /\ Page.error s' = None.
Proof.
  intros Hconv Hlast Hrole Hkey Htruthy sent Hfresh Htrace Hgaps s' cost
         answer final.
  destruct (handleContinueAmong_alike B env net gaps s conv lastMessage apiKey
              Hconv Hlast Hrole Hkey Htruthy Hgaps)
    as ((Ac & Ae & Aw & _ & _ & Acost & _ & _ & Ast) & Hidle & Hstream).
  destruct (continue_completed_uninterrupted B env net s conv lastMessage
              apiKey tokens response Hconv Hlast Hrole Hkey Htruthy Hfresh
              Htrace)
    as (Hc & Hlen & Hst & Hcost & Hwarn & Herr).
  unfold s'. split_and!; first [done | by transfer].
Qed.

Lemma continue_completed_witness :
  let s := Sample.twoStored in
  let lastMessage := Sample.assistantMsg "a-1" "" in
  let sent := Page.dropLast (Conversation.messages Sample.pending) in
  let s' := fst (fst (Page.handleContinueWithoutSystemPromptAmong
                        Sample.builtins Sample.env Sample.stopped
                        Sample.meanwhile s)) in
  let cost :=
    estimateCost (getAdapter (Page.selectedProvider s))
      (inject_Z
         (fold_left
            (fun acc m =>
               (acc + Storage.estimateTokens (Message.content m) None)%Z)
            sent 0%Z))
      (inject_Z (Storage.estimateTokens "Hello" None))
      (Page.selectedModel s) in
  let answer :=
    Message.finalized "Hello" (Storage.estimateTokens "Hello" None)
      (inject_Z (Page.endTime Sample.env - Page.startTime Sample.env) / 1000)%Q
      (Page.selectedModel s) lastMessage in
  let final :=
    Spec.rebuild Sample.pending (sent ++ [answer])
                 (Some (Page.totalCostOrZero Sample.pending + cost)%Q)
                 (Some true) in
  Page.conversation s' = Some final
  /\ length (Conversation.messages final)
     = length (Conversation.messages Sample.pending)
  /\ Storage.getConversation (Conversation.id Sample.pending)
                             (Page.storedConversations s')
     = Some final
  /\ Page.sessionCost s' = (Page.sessionCost s + cost)%Q
  /\ Page.systemPromptWarningOpen s' = false
  /\ Page.isLoading s' = false
  /\ Page.streamingMessageId s' = None
  /\ Page.error s' = None.
Proof.
  cbv zeta.
  apply (continue_completed Sample.builtins Sample.env Sample.stopped
           Sample.meanwhile Sample.twoStored Sample.pending
           (Sample.assistantMsg "a-1" "") "sk" ["Hel"; "lo"] "Hello");
    try reflexivity.
  - apply (bool_decide_unpack _). vm_compute. exact I.
  - repeat constructor.
Defined.

(** A Send during which the user opens the other conversation, after the
    first token: the callbacks that follow find that conversation open,
    so the cost goes to it, and the stored conversation of the Send keeps
    its empty placeholder. *)
Example send_then_select :
  let gaps := [ []; [ Page.Starts (Page.SelectConversation "c-2") ] ] in
  let s' := fst (Page.handleSendAmong Sample.builtins Sample.env
                   (Sample.okResponse (Sample.helloReader ReadDone)) gaps
                   "More?" None Sample.busy) in
  let contents (c : Conversation.t) :=
    (fun m => (Message.id m, Message.content m)) <$> Conversation.messages c in
  (Conversation.id <$> Page.conversation s') = Some "c-2"
  /\ (contents <$> Storage.getConversation "conv-1"
                     (Page.storedConversations s'))
     = Some [ ("u-1", "Hi"); ("a-1", "Hello!"); ("u-2", "More");
              ("a-2", "Sure."); ("u-9", "More?"); ("a-9", "") ]
  /\ (contents <$> Storage.getConversation "c-2"
                     (Page.storedConversations s'))
     = Some [ ("u-5", "Plan"); ("a-5", "Done.") ]
  /\ (Conversation.totalCost
        <$> Storage.getConversation "conv-1" (Page.storedConversations s'))
     = Some (Some 0%Q)
  /\ (exists q,
         (Conversation.totalCost
            <$> Storage.getConversation "c-2" (Page.storedConversations s'))
         = Some (Some q)
         /\ (0 < q)%Q).
Proof.
  cbv zeta. split_and!; try reflexivity.
  eexists. split; [reflexivity|]. reflexivity.
Qed.
